(** * Auto Journal: the core of the plugin (src/core.ts)

    A shallow embedding of [Core] (run, getNoteTemplateContents,
    createDailyNote, createMonthlyNote, createNewFile, newDate) and the
    properties of the backfill scheduler proved about it.

    The collaborators of [Core] that live outside core.ts are an interface
    ([Env]): the moment library's [format] and string parser, the path
    helpers of ./utils/path, the variable engine of
    ./utils/replace-new-file-vars, the metadata and the failures of the
    Obsidian vault.  The general theorems hold for every implementation of
    that interface; the scenarios are run on one instance ([stdEnv]).

    Conventions of the model:
    - a [Moment] is a wall-clock value in the configured time zone, and the
      clock is read once per run; what [moment(text, "YYYY-MM-DD")] followed
      by [.tz(timezone)] makes of a text is the collaborator [parseDate],
      and in the instance the machine's zone is the configured one (as when
      [timezone] is left empty and [moment.tz.guess()] is used), so that a
      parsed date is not moved;
    - JavaScript numbers that can be NaN (the fields of an invalid moment)
      are [option Z];
    - an awaited call is a computation of the monad [M]: vault state,
      the events emitted, and a result that is a value or a thrown error. *)

From Stdlib Require Import ZArith List String Ascii Bool Lia.
Import ListNotations.

Local Open Scope string_scope.
Local Open Scope Z_scope.

(** ** JavaScript string primitives used by core.ts *)

Module JS.

(** [s.startsWith(p)] *)
Definition startsWith (s p : string) : bool := String.prefix p s.

(** [s.endsWith(p)] *)
Definition endsWith (s p : string) : bool :=
  let n := String.length s in
  let k := String.length p in
  if Nat.leb k n then String.eqb (String.substring (n - k) k s) p else false.

(** [s.slice(1)] *)
Definition slice1 (s : string) : string :=
  match s with
  | EmptyString => EmptyString
  | String _ r => r
  end.

(** [s.indexOf(p)], [None] for -1 *)
Definition indexOf (s p : string) : option nat := String.index 0 p s.

(** [s.includes(p)] *)
Definition includes (s p : string) : bool :=
  match indexOf s p with
  | Some _ => true
  | None => false
  end.

(** The replacement patterns of [String.prototype.replace] for a string
    pattern (no capture groups): [$$], [$&], [$`] and [$']; every other
    character, a lone [$] included, stands for itself. *)
Fixpoint getSubstitution (matched before after replacement : string) : string :=
  match replacement with
  | EmptyString => EmptyString
  | String c r =>
      if Ascii.eqb c "$" then
        match r with
        | EmptyString => String c EmptyString
        | String d r' =>
            if Ascii.eqb d "$" then String "$" (getSubstitution matched before after r')
            else if Ascii.eqb d "&" then matched ++ getSubstitution matched before after r'
            else if Ascii.eqb d "`" then before ++ getSubstitution matched before after r'
            else if Ascii.eqb d "'" then after ++ getSubstitution matched before after r'
            else String c (getSubstitution matched before after r)
        end
      else String c (getSubstitution matched before after r)
  end.

(** No [$] in the string. *)
Fixpoint noDollar (s : string) : bool :=
  match s with
  | EmptyString => true
  | String c r => (negb (Ascii.eqb c "$") && noDollar r)%bool
  end.

(** [s.replace(p, r)] with a string pattern: the first occurrence only. *)
Definition replace (s p r : string) : string :=
  match indexOf s p with
  | None => s
  | Some i =>
      let before := String.substring 0 i s in
      let after := String.substring (i + String.length p) (String.length s - (i + String.length p)) s in
      before ++ getSubstitution p before after r ++ after
  end.

(** [s.split(c)] for a one-character separator, as a non-empty list given
    by its first segment and the rest. *)
Fixpoint splitOn (c : ascii) (s : string) : string * list string :=
  match s with
  | EmptyString => (EmptyString, [])
  | String a r =>
      let '(h, t) := splitOn c r in
      if Ascii.eqb a c then (EmptyString, h :: t) else (String a h, t)
  end.

Definition split (c : ascii) (s : string) : list string :=
  let '(h, t) := splitOn c s in h :: t.

(** [s.split(c)[0]] *)
Definition firstSegment (c : ascii) (s : string) : string := fst (splitOn c s).

(** White space removed by [trim] (the ASCII part of it). *)
Definition isSpace (a : ascii) : bool :=
  let n := nat_of_ascii a in
  (Nat.eqb n 32 || (Nat.leb 9 n && Nat.leb n 13))%bool.

Fixpoint trimStart (s : string) : string :=
  match s with
  | EmptyString => EmptyString
  | String a r => if isSpace a then trimStart r else s
  end.

(** Drops the trailing white space: a character is kept when something
    that is kept follows it, or when it is not white space. *)
Fixpoint trimEnd (s : string) : string :=
  match s with
  | EmptyString => EmptyString
  | String a r =>
      match trimEnd r with
      | EmptyString => if isSpace a then EmptyString else String a EmptyString
      | r' => String a r'
      end
  end.

(** [s.trim()], for the white space of ASCII (space, tab, line feed,
    vertical tab, form feed, carriage return); the other white space of
    ECMAScript (U+00A0, U+FEFF, U+2028 and the like) is left in place. *)
Definition trim (s : string) : string := trimEnd (trimStart s).

(** [s.padStart(2, "0")] *)
Definition padStart2 (s : string) : string :=
  match s with
  | EmptyString => "00"
  | String a EmptyString => String "0" s
  | _ => s
  end.

Definition digit (n : Z) : ascii := ascii_of_nat (48 + Z.to_nat n).

Fixpoint digits (fuel : nat) (n : Z) (acc : string) : string :=
  match fuel with
  | O => acc
  | S fuel' =>
      let acc' := String (digit (n mod 10)) acc in
      if n <? 10 then acc' else digits fuel' (n / 10) acc'
  end.

(** [n.toString()] of an integer *)
Definition toString (n : Z) : string :=
  if n <? 0 then String "-" (digits (S (Z.to_nat (Z.log2 (- n)))) (- n) EmptyString)
  else digits (S (Z.to_nat (Z.log2 n))) n EmptyString.

(** A string is falsy when it is empty, a number when it is 0 (or NaN). *)
Definition truthyString (s : string) : bool :=
  match s with
  | EmptyString => false
  | _ => true
  end.

Definition truthyNumber (n : Z) : bool := negb (n =? 0).

(** Comparisons of numbers that may be NaN: all false on NaN. *)
Definition num : Type := option Z.

Definition num_lt (a b : num) : bool :=
  match a, b with
  | Some x, Some y => x <? y
  | _, _ => false
  end.

Definition num_gt (a b : num) : bool := num_lt b a.

Definition num_seq (a b : num) : bool :=
  match a, b with
  | Some x, Some y => x =? y
  | _, _ => false
  end.

End JS.

(** ** Calendar values (the part of a moment that core.ts reads) *)

Record Instant := mkInstant {
  i_year : Z;
  i_month : Z;    (* 0 .. 11, as moment counts *)
  i_date : Z;     (* day of the month *)
  i_hour : Z;
  i_minute : Z
}.

(** A moment is a calendar value or moment's invalid date. *)
Inductive Moment :=
| At (i : Instant)
| InvalidDate.

Module Calendar.

Definition isLeapYear (y : Z) : bool :=
  ((y mod 4 =? 0) && (negb (y mod 100 =? 0) || (y mod 400 =? 0)))%bool.

(** Days of month [m] (0-based) of year [y]. *)
Definition daysIn (y m : Z) : Z :=
  if m =? 1 then (if isLeapYear y then 29 else 28)
  else if (m =? 3) || (m =? 5) || (m =? 8) || (m =? 10) then 30
  else 31.

(** [m.year()], [m.month()], [m.date()]: NaN on an invalid moment. *)
Definition year (m : Moment) : JS.num :=
  match m with
  | At i => Some (i_year i)
  | InvalidDate => None
  end.

Definition month (m : Moment) : JS.num :=
  match m with
  | At i => Some (i_month i)
  | InvalidDate => None
  end.

Definition date (m : Moment) : JS.num :=
  match m with
  | At i => Some (i_date i)
  | InvalidDate => None
  end.

(** [m.daysInMonth()] *)
Definition daysInMonth (m : Moment) : JS.num :=
  match m with
  | At i => Some (daysIn (i_year i) (i_month i))
  | InvalidDate => None
  end.

(** [m.month(n)] for [0 <= n <= 11]: the month is set and the day of the
    month is clamped to the length of the new month. *)
Definition setMonth (n : Z) (m : Moment) : Moment :=
  match m with
  | At i => At (mkInstant (i_year i) n (Z.min (i_date i) (daysIn (i_year i) n)) (i_hour i) (i_minute i))
  | InvalidDate => InvalidDate
  end.

(** [m.add(1, "minute")] *)
Definition addMinute (m : Moment) : Moment :=
  match m with
  | InvalidDate => InvalidDate
  | At (mkInstant y mo d h mi) =>
      if mi + 1 <? 60 then At (mkInstant y mo d h (mi + 1))
      else if h + 1 <? 24 then At (mkInstant y mo d (h + 1) 0)
      else if d + 1 <=? daysIn y mo then At (mkInstant y mo (d + 1) 0 0)
      else if mo + 1 <? 12 then At (mkInstant y (mo + 1) 1 0 0)
      else At (mkInstant (y + 1) 0 1 0 0)
  end.

(** Day of the week, 0 for Sunday. *)
Definition weekday (y m d : Z) : Z :=
  let y' := if m <? 2 then y - 1 else y in
  let t := nth (Z.to_nat m) [0; 3; 2; 5; 0; 3; 5; 1; 4; 6; 2; 4] 0 in
  (y' + y' / 4 - y' / 100 + y' / 400 + t + d) mod 7.

End Calendar.

(** ** Settings (the fields of AutoJournalSettings that core.ts reads) *)

Inductive BackFillOptions := NONE | MONTH | YEAR.

Definition BackFillOptions_eqb (a b : BackFillOptions) : bool :=
  match a, b with
  | NONE, NONE | MONTH, MONTH | YEAR, YEAR => true
  | _, _ => false
  end.

Record AutoJournalSettings := {
  rootFolder : string;
  yearFormat : string;
  monthFormat : string;
  dayFormat : string;
  monthlyNotesFolderName : string;
  dailyNotesEnabled : bool;
  monthlyNotesEnabled : bool;
  dailyNotesTemplateFile : string;
  monthlyNotesTemplateFile : string;
  dailyNotesBackfill : BackFillOptions;
  monthlyNotesBackfill : BackFillOptions;
  monthlyNotesDayOfMonth : Z;
  useTodayForLatestNote : bool;
  shouldTemplateDate : bool;
  templateDateToken : string;
  templateDateFormat : string;
  showDebugNotifications : bool;
  timezone : string
}.

(** ** Results, events and the vault *)

(** What an awaited call gives: a value, or a thrown error with its message. *)
Inductive Res (A : Type) :=
| Ok (a : A)
| Throw (message : string).

Arguments Ok {A} a.
Arguments Throw {A} message.

(** Calls to the vault that can be rejected. *)
Inductive StoreOp :=
| OpRead (path : string)
| OpCreateFolder (path : string)
| OpCreate (path : string).

(** What a run lets the outside observe, in order. *)
Inductive Event :=
| EvNotice (message : string)                       (* new Notice(message) *)
| EvError (message : string) (debug : bool)         (* errorNotification(message, debug) *)
| EvRead (path : string) (ok : bool)                (* vault.read *)
| EvCreateFolder (path : string) (ok : bool)        (* vault.createFolder *)
| EvExpand (text name : string) (ok : bool)         (* replaceNewFileVars *)
| EvCreate (path content : string) (ok : bool).     (* vault.create *)

(** The vault: its files with their contents, in listing order, and its
    folders. *)
Record Vault := mkVault {
  files : list (string * string);
  folders : list string
}.

Inductive AbstractFile :=
| TFile (path : string)
| TFolder (path : string).

Definition hasFile (v : Vault) (p : string) : bool :=
  existsb (fun f => String.eqb (fst f) p) (files v).

Definition hasFolder (v : Vault) (p : string) : bool :=
  existsb (fun d => String.eqb d p) (folders v).

(** [vault.getAbstractFileByPath(p)] *)
Definition getAbstractFileByPath (v : Vault) (p : string) : option AbstractFile :=
  if hasFile v p then Some (TFile p)
  else if hasFolder v p then Some (TFolder p)
  else None.

(** [vault.getFiles()], each file given by its path. *)
Definition getFiles (v : Vault) : list string := map fst (files v).

Definition contentOf (v : Vault) (p : string) : option string :=
  option_map snd (find (fun f => String.eqb (fst f) p) (files v)).

(** ** The collaborators of Core *)

Record Env := {
  (** [moment().tz(timezone)]: now, in the configured zone *)
  clock : Instant;
  (** [m.format(pattern)] *)
  format : Moment -> string -> string;
  (** [moment(text, "YYYY-MM-DD").tz(timezone)] *)
  parseDate : string -> Moment;
  (** ./utils/path *)
  join : string -> string -> string;
  dirname : string -> string;
  basename : string -> string;
  fileNameNoExtension : string -> string;
  (** ./utils/replace-new-file-vars: the expansion of a template for a
      file name, or a thrown error *)
  replaceNewFileVars : string -> string -> Res string;
  (** ./utils/misc *)
  APP_NAME : string;
  (** [file.basename] and [file.parent.name] of the file at a path; the
      empty string when the parent or its name is missing *)
  fileBasename : string -> string;
  fileParentName : string -> string;
  (** the calls the vault rejects, whatever its state, and the message of
      the error it throws for a call *)
  storeRejects : StoreOp -> bool;
  storeError : StoreOp -> string
}.

(** ** The monad of awaited calls *)

Definition M (A : Type) : Type := Vault -> Res A * Vault * list Event.

Definition ret {A} (a : A) : M A := fun v => (Ok a, v, []).

Definition bind {A B} (m : M A) (k : A -> M B) : M B :=
  fun v =>
    match m v with
    | (Ok a, v1, l1) =>
        match k a v1 with
        | (r, v2, l2) => (r, v2, (l1 ++ l2)%list)
        end
    | (Throw msg, v1, l1) => (Throw msg, v1, l1)
    end.

Notation "x <- m ;; k" := (bind m (fun x => k))
  (at level 61, m at next level, right associativity).
Notation "m ;;; k" := (bind m (fun _ => k))
  (at level 61, right associativity).

Definition emit (ev : Event) : M unit := fun v => (Ok tt, v, [ev]).

(** [promise.catch((error) => { h(error.message) })]: the awaited value of
    the whole is undefined. *)
Definition catch {A} (m : M A) (h : string -> M unit) : M unit :=
  fun v =>
    match m v with
    | (Ok _, v1, l1) => (Ok tt, v1, l1)
    | (Throw msg, v1, l1) =>
        match h msg v1 with
        | (r, v2, l2) => (r, v2, (l1 ++ l2)%list)
        end
    end.

(** [for (const x of l) { body }] *)
Fixpoint forEach {A} (l : list A) (body : A -> M unit) : M unit :=
  match l with
  | [] => ret tt
  | x :: r => body x ;;; forEach r body
  end.

(** The numbers [lo], [lo + 1], ..., [hi]. *)
Definition range (lo hi : Z) : list Z :=
  map (fun k => lo + Z.of_nat k) (seq 0 (Z.to_nat (hi + 1 - lo))).

(** ** Core *)

Inductive NoteType := Daily | Monthly.

Definition noteTypeName (type : NoteType) : string :=
  match type with
  | Daily => "daily"
  | Monthly => "monthly"
  end.

Section Core.

Variable settings : AutoJournalSettings.
Variable env : Env.

(** *** The vault and the notification channel, as awaited calls *)

Definition notice (message : string) : M unit := emit (EvNotice message).

Definition errorNotification (message : string) (debug : bool) : M unit :=
  emit (EvError message debug).

Definition vaultLookup (p : string) : M (option AbstractFile) :=
  fun v => (Ok (getAbstractFileByPath v p), v, []).

Definition vaultGetFiles : M (list string) :=
  fun v => (Ok (getFiles v), v, []).

(** [vault.read(file)] *)
Definition vaultRead (p : string) : M string :=
  fun v =>
    match (if storeRejects env (OpRead p) then None else contentOf v p) with
    | Some c => (Ok c, v, [EvRead p true])
    | None => (Throw (storeError env (OpRead p)), v, [EvRead p false])
    end.

(** [vault.createFolder(p)]: rejected when something is at [p] already. *)
Definition vaultCreateFolder (p : string) : M unit :=
  fun v =>
    match getAbstractFileByPath v p with
    | None =>
        if storeRejects env (OpCreateFolder p)
        then (Throw (storeError env (OpCreateFolder p)), v, [EvCreateFolder p false])
        else (Ok tt, mkVault (files v) (folders v ++ [p]), [EvCreateFolder p true])
    | Some _ => (Throw (storeError env (OpCreateFolder p)), v, [EvCreateFolder p false])
    end.

(** [vault.create(p, content)]: rejected when something is at [p] already. *)
Definition vaultCreate (p content : string) : M unit :=
  fun v =>
    match getAbstractFileByPath v p with
    | None =>
        if storeRejects env (OpCreate p)
        then (Throw (storeError env (OpCreate p)), v, [EvCreate p content false])
        else (Ok tt, mkVault (files v ++ [(p, content)]) (folders v), [EvCreate p content true])
    | Some _ => (Throw (storeError env (OpCreate p)), v, [EvCreate p content false])
    end.

(** The engine call [replaceNewFileVars(app, text, name)]. *)
Definition expandVars (text name : string) : M string :=
  fun v =>
    match replaceNewFileVars env text name with
    | Ok out => (Ok out, v, [EvExpand text name true])
    | Throw msg => (Throw msg, v, [EvExpand text name false])
    end.

(** *** The file formats set by [run] *)

Definition dailyFileFormat : string :=
  yearFormat settings ++ "/" ++ monthFormat settings ++ "/" ++ dayFormat settings ++ " - dddd".

Definition monthlyFileFormat : string :=
  yearFormat settings ++ "/[" ++ monthlyNotesFolderName settings ++ "]/" ++ monthFormat settings ++ " -".

(** *** newDate *)

(** [this.newDate()] *)
Definition now : Moment := At (clock env).

(** [this.newDate(year, month, day)] *)
Definition newDate (year : string) (month day : Z) : Moment :=
  if (negb (JS.truthyString year) || negb (JS.truthyNumber month) || negb (JS.truthyNumber day))%bool
  then now
  else parseDate env
         (year ++ "-" ++ JS.padStart2 (JS.toString month) ++ "-" ++ JS.padStart2 (JS.toString day)).

(** *** The texts of the notices *)

Definition templateNotFound (type : NoteType) (templatePath : string) : string :=
  APP_NAME env ++ ": " ++ noteTypeName type ++ " notes template file not found in "
  ++ templatePath ++ ". Please update template file in the settings.".

Definition templateIsDirectory (type : NoteType) (templatePath : string) : string :=
  APP_NAME env ++ ": " ++ noteTypeName type ++ " notes template file " ++ templatePath
  ++ " is a directory, not a file. Please update template file in the settings.".

Definition folderError (cascadePath newFilePath : string) : string :=
  "Error creating folder, " ++ cascadePath ++ " for " ++ newFilePath.

(** *** getNoteTemplateContents *)

Definition templatePathOf (type : NoteType) : string :=
  match type with
  | Daily => dailyNotesTemplateFile settings
  | Monthly => monthlyNotesTemplateFile settings
  end.

Definition getNoteTemplateContents (type : NoteType) : M (option string) :=
  let templatePath := templatePathOf type in
  if JS.truthyString templatePath then
    templateFile <- vaultLookup (templatePath ++ ".md") ;;
    match templateFile with
    | None =>
        notice (templateNotFound type templatePath) ;;;
        ret None
    | Some (TFile p) =>
        templateContents <- vaultRead p ;;
        ret (Some templateContents)
    | Some (TFolder _) =>
        notice (templateIsDirectory type templatePath) ;;;
        ret None
    end
  else ret (Some EmptyString).

(** *** createNewFile *)

(** [file.basename.split("-")[0].trim()] *)
Definition fileLabel (file : string) : string :=
  JS.trim (JS.firstSegment "-" (fileBasename env file)).

Definition stripLeadingSlash (p : string) : string :=
  if JS.startsWith p "/" then JS.slice1 p else p.

(** The loop over [folderPath.split("/")]. *)
Fixpoint cascade (newFilePath prevPath : string) (segments : list string) : M unit :=
  match segments with
  | [] => ret tt
  | folderName :: rest =>
      let cascadePath := join env prevPath folderName in
      there <- vaultLookup cascadePath ;;
      match there with
      | None =>
          catch (vaultCreateFolder cascadePath)
            (fun _ => errorNotification (folderError cascadePath newFilePath)
                        (showDebugNotifications settings))
      | Some _ => ret tt
      end ;;;
      cascade newFilePath cascadePath rest
  end.

(** The path with its extension and under the root folder. *)
Definition targetPath (newFilePath : string) : string :=
  let p := if JS.endsWith newFilePath ".md" then newFilePath else newFilePath ++ ".md" in
  if JS.startsWith p (rootFolder settings) then p else join env (rootFolder settings) p.

(** The template after the date token is replaced. *)
Definition templateDate (createdDate : Moment) (templateContents : string) : string :=
  if (shouldTemplateDate settings && JS.includes templateContents (templateDateToken settings))%bool
  then JS.replace templateContents (templateDateToken settings)
         (format env createdDate (templateDateFormat settings))
  else templateContents.

Definition createNewFile (createdDate : Moment) (newFilePath templateContents : string)
  (filesInFolder : list string) : M string :=
  let newFilePath := targetPath newFilePath in
  let folderPath := stripLeadingSlash (dirname env newFilePath) in
  there <- vaultLookup folderPath ;;
  match there with
  | None => cascade newFilePath EmptyString (JS.split "/" folderPath)
  | Some _ => ret tt
  end ;;;
  let dayPart := JS.trim (JS.firstSegment "-" (basename env newFilePath)) in
  let existingFile := find (fun file => String.eqb (fileLabel file) dayPart) filesInFolder in
  let templateContents := templateDate createdDate templateContents in
  templateContents <- expandVars templateContents (fileNameNoExtension env newFilePath) ;;
  match existingFile with
  | None => vaultCreate newFilePath templateContents
  | Some _ => ret tt
  end ;;;
  ret newFilePath.

(** *** createDailyNote *)

Definition reportError (message : string) : M unit :=
  errorNotification message (showDebugNotifications settings).

(** The files of the vault under [folder] of the root folder. *)
Definition inFolder (folder file : string) : bool :=
  JS.startsWith file (stripLeadingSlash (join env (rootFolder settings) folder)).

(** The date stamped into today's note when the latest note is to carry
    the present time. *)
Definition dailyCreateFileDate (dayDate : Moment) : Moment :=
  if (useTodayForLatestNote settings
      && String.eqb (format env now "YYYY-MM-DD") (format env dayDate "YYYY-MM-DD"))%bool
  then Calendar.addMinute now
  else dayDate.

(** The body of the loop over the days of a month. *)
Definition dailyDay (templateContents year : string) (monthNumber : Z) (currentMonth : string)
  (filesInFolder : list string) (day : Z) : M unit :=
  let dayDate := newDate year (monthNumber + 1) day in
  if (String.eqb currentMonth (format env now (monthFormat settings))
      && JS.num_gt (Calendar.date dayDate) (Calendar.date now))%bool
  then ret tt
  else if existsb (fun file => String.eqb (fileLabel file) (format env dayDate (dayFormat settings)))
            filesInFolder
  then ret tt
  else if (BackFillOptions_eqb (dailyNotesBackfill settings) NONE
           && JS.num_lt (Calendar.date dayDate) (Calendar.date now))%bool
  then ret tt
  else
    let createFileDate := dailyCreateFileDate dayDate in
    let newFilePath := format env dayDate dailyFileFormat in
    catch (createNewFile createFileDate newFilePath templateContents filesInFolder) reportError.

(** The date that stands for month [monthNumber]:
    [dateOfMonth.month(monthNumber)] sets the month of [dateOfMonth] itself. *)
Definition dateOfMonth (year : string) (monthNumber : Z) : Moment :=
  Calendar.setMonth monthNumber (newDate year (monthNumber + 1) 1).

(** The body of the loop over the months. *)
Definition dailyMonth (templateContents year : string) (monthNumber : Z) : M unit :=
  let currentMonth := format env (dateOfMonth year monthNumber) (monthFormat settings) in
  if JS.num_lt (Calendar.month now) (Some monthNumber) then ret tt
  else if ((BackFillOptions_eqb (dailyNotesBackfill settings) MONTH
            || BackFillOptions_eqb (dailyNotesBackfill settings) NONE)
           && negb (String.eqb currentMonth (format env now (monthFormat settings))))%bool
  then ret tt
  else
    let dayOfMonthFilePath := format env (dateOfMonth year monthNumber) dailyFileFormat ++ ".md" in
    let monthsFolderPath := dirname env dayOfMonthFilePath in
    allFiles <- vaultGetFiles ;;
    let filesInFolder := filter (inFolder monthsFolderPath) allFiles in
    match Calendar.daysInMonth (dateOfMonth year monthNumber) with
    | Some daysInMonth =>
        forEach (range 1 daysInMonth)
          (dailyDay templateContents year monthNumber currentMonth filesInFolder)
    | None => ret tt
    end.

Definition createDailyNote : M unit :=
  templateContents <- getNoteTemplateContents Daily ;;
  match templateContents with
  | None => ret tt
  | Some templateContents =>
      let year := format env now (yearFormat settings) in
      forEach (range 0 11) (dailyMonth templateContents year)
  end.

(** *** createMonthlyNote *)

Definition inMonthlyFolder (folder file : string) : bool :=
  (inFolder folder file
   && (if JS.truthyString (fileParentName env file)
       then String.eqb (fileParentName env file) (monthlyNotesFolderName settings)
       else true))%bool.

Definition monthlyCreateFileDate (monthDate : Moment) : Moment :=
  if (useTodayForLatestNote settings
      && JS.num_seq (Calendar.month now) (Calendar.month monthDate)
      && JS.num_seq (Calendar.year now) (Calendar.year monthDate))%bool
  then Calendar.addMinute now
  else monthDate.

Definition monthlyMonth (templateContents year : string) (filesInFolder : list string)
  (monthNumber : Z) : M unit :=
  let monthDate := newDate year (monthNumber + 1) (monthlyNotesDayOfMonth settings) in
  if JS.num_lt (Calendar.month now) (Some monthNumber) then ret tt
  else if (negb (BackFillOptions_eqb (monthlyNotesBackfill settings) YEAR)
           && negb (String.eqb (format env monthDate (monthFormat settings))
                               (format env now (monthFormat settings))))%bool
  then ret tt
  else if existsb (fun file => String.eqb (fileLabel file) (format env monthDate (monthFormat settings)))
            filesInFolder
  then ret tt
  else if (JS.num_lt (Calendar.date now) (Some (monthlyNotesDayOfMonth settings))
           && JS.num_seq (Some monthNumber) (Calendar.month now))%bool
  then ret tt
  else
    let createFileDate := monthlyCreateFileDate monthDate in
    let newFilePath := format env monthDate monthlyFileFormat in
    catch (createNewFile createFileDate newFilePath templateContents filesInFolder) reportError.

Definition createMonthlyNote : M unit :=
  templateContents <- getNoteTemplateContents Monthly ;;
  match templateContents with
  | None => ret tt
  | Some templateContents =>
      let year := format env now (yearFormat settings) in
      let dayOfMonthFilePath := format env now monthlyFileFormat ++ ".md" in
      let monthlyNotesFolderPath := dirname env dayOfMonthFilePath in
      allFiles <- vaultGetFiles ;;
      let filesInFolder := filter (inMonthlyFolder monthlyNotesFolderPath) allFiles in
      forEach (range 0 11) (monthlyMonth templateContents year filesInFolder)
  end.

(** *** run *)

Definition run : M unit :=
  (if dailyNotesEnabled settings then catch createDailyNote reportError else ret tt) ;;;
  (if monthlyNotesEnabled settings then catch createMonthlyNote reportError else ret tt).

End Core.

Arguments templateNotFound : simpl never.
Arguments templateIsDirectory : simpl never.
Arguments folderError : simpl never.

(** ** An instance of the collaborators, for the scenarios *)

Module Std.

Definition monthNames : list string :=
  ["January"; "February"; "March"; "April"; "May"; "June"; "July"; "August";
   "September"; "October"; "November"; "December"].

Definition weekdayNames : list string :=
  ["Sunday"; "Monday"; "Tuesday"; "Wednesday"; "Thursday"; "Friday"; "Saturday"].

Definition pad2 (n : Z) : string := JS.padStart2 (JS.toString n).

(** The format tokens of moment that the instance knows, longest first;
    the other tokens of moment (Do, Q, ss, A, Z and the like) are copied as
    they stand. *)
Definition tokens : list string :=
  ["YYYY"; "YY"; "MMMM"; "MMM"; "MM"; "M"; "DD"; "D"; "dddd"; "ddd"; "HH"; "H"; "mm"; "m"].

Definition tokenAt (s : string) : option string :=
  find (fun t => String.prefix t s) tokens.

Definition render (i : Instant) (token : string) : string :=
  let monthName := nth (Z.to_nat (i_month i)) monthNames EmptyString in
  let dayName := nth (Z.to_nat (Calendar.weekday (i_year i) (i_month i) (i_date i))) weekdayNames EmptyString in
  if String.eqb token "YYYY" then JS.toString (i_year i)
  else if String.eqb token "YY" then pad2 (i_year i mod 100)
  else if String.eqb token "MMMM" then monthName
  else if String.eqb token "MMM" then String.substring 0 3 monthName
  else if String.eqb token "MM" then pad2 (i_month i + 1)
  else if String.eqb token "M" then JS.toString (i_month i + 1)
  else if String.eqb token "DD" then pad2 (i_date i)
  else if String.eqb token "D" then JS.toString (i_date i)
  else if String.eqb token "dddd" then dayName
  else if String.eqb token "ddd" then String.substring 0 3 dayName
  else if String.eqb token "HH" then pad2 (i_hour i)
  else if String.eqb token "H" then JS.toString (i_hour i)
  else if String.eqb token "mm" then pad2 (i_minute i)
  else if String.eqb token "m" then JS.toString (i_minute i)
  else token.

(** A closing bracket comes before any opening one. *)
Fixpoint closes (s : string) : bool :=
  match s with
  | EmptyString => false
  | String "]" _ => true
  | String "[" _ => false
  | String _ r => closes r
  end.

(** The pattern is read from left to right: text in square brackets is
    copied up to the first closing bracket, a token is rendered, any other
    character is copied.  [skip] counts the characters of a token still to
    pass over. *)
Fixpoint formatFrom (i : Instant) (escaped : bool) (skip : nat) (s : string) : string :=
  match s with
  | EmptyString => EmptyString
  | String c r =>
      match skip with
      | S k => formatFrom i escaped k r
      | O =>
          if escaped then
            if Ascii.eqb c "]" then formatFrom i false 0 r
            else String c (formatFrom i true 0 r)
          else if (Ascii.eqb c "[" && closes r)%bool then formatFrom i true 0 r
          else
            match tokenAt s with
            | Some t => render i t ++ formatFrom i false (String.length t - 1) r
            | None => String c (formatFrom i false 0 r)
            end
      end
  end.

Definition momentFormat (m : Moment) (pattern : string) : string :=
  match m with
  | At i => formatFrom i false 0 pattern
  | InvalidDate => "Invalid date"
  end.

Definition digitValue (a : ascii) : option Z :=
  let n := nat_of_ascii a in
  if (Nat.leb 48 n && Nat.leb n 57)%bool then Some (Z.of_nat (n - 48)) else None.

Fixpoint parseDigits (acc : Z) (s : string) : option Z :=
  match s with
  | EmptyString => Some acc
  | String a r =>
      match digitValue a with
      | Some d => parseDigits (10 * acc + d) r
      | None => None
      end
  end.

Definition parseNumber (s : string) : option Z :=
  match s with
  | EmptyString => None
  | _ => parseDigits 0 s
  end.

(** A text [year-month-day] of three numerals is read as that day at
    midnight when the day exists; anything else is an invalid date.  The
    day is read in the zone of the clock: the instance takes the zone of
    the settings to be that zone, and [tz] does not move the date. *)
Definition momentParse (text : string) : Moment :=
  match JS.split "-" text with
  | [y; m; d] =>
      match parseNumber y, parseNumber m, parseNumber d with
      | Some y, Some m, Some d =>
          if ((1 <=? m) && (m <=? 12) && (1 <=? d) && (d <=? Calendar.daysIn y (m - 1)))%bool
          then At (mkInstant y (m - 1) d 0 0)
          else InvalidDate
      | _, _, _ => InvalidDate
      end
  | _ => InvalidDate
  end.

(** Modelled from the spec: ./utils/path is not in the source tree.  The
    spec has paths relative to the root folder whose joined form may start
    with a separator, which the callers strip.  [join] concatenates the
    segments of its arguments, drops the empty and [.] segments, lets [..]
    remove the segment before it, and keeps a leading separator. *)
Fixpoint resolve (acc parts : list string) : list string :=
  match parts with
  | [] => rev acc
  | p :: r =>
      if (String.eqb p EmptyString || String.eqb p ".")%bool then resolve acc r
      else if String.eqb p ".." then resolve (tl acc) r
      else resolve (p :: acc) r
  end.

Definition pathJoin (a b : string) : string :=
  let parts := (JS.split "/" a ++ JS.split "/" b)%list in
  let newParts := resolve [] parts in
  String.concat "/"
    (if String.eqb (hd EmptyString parts) EmptyString then EmptyString :: newParts else newParts).

(** Modelled from the spec: the folder of a path. *)
Definition pathDirname (p : string) : string := pathJoin p "..".

(** Modelled from the spec: the name of a file without its folder and
    without its extension. *)
Definition pathBasename (p : string) : string :=
  let name := last (JS.split "/" p) EmptyString in
  match rev (JS.split "." name) with
  | _ :: (_ :: _) as front => String.concat "." (rev front)
  | _ => name
  end.

(** [file.parent.name]: the segment before the name, empty at the root. *)
Definition parentName (p : string) : string :=
  match rev (JS.split "/" p) with
  | _ :: parent :: _ => parent
  | _ => EmptyString
  end.

(** Modelled from the spec: the engine is a function of the template text
    and of the file name; this one expands nothing. *)
Definition engine (text name : string) : Res string := Ok text.

Definition errorText (op : StoreOp) : string :=
  match op with
  | OpRead p => "Cannot read " ++ p
  | OpCreateFolder p => "Cannot create folder " ++ p
  | OpCreate p => "Cannot create file " ++ p
  end.

(** The instance: the clock is given, the vault rejects nothing. *)
Definition env (t : Instant) : Env := {|
  clock := t;
  format := momentFormat;
  parseDate := momentParse;
  join := pathJoin;
  dirname := pathDirname;
  basename := pathBasename;
  fileNameNoExtension := pathBasename;
  replaceNewFileVars := engine;
  APP_NAME := "Auto Journal";
  fileBasename := pathBasename;
  fileParentName := parentName;
  storeRejects := fun _ => false;
  storeError := errorText
|}.

(** The settings of the scenarios: notes under [Journal], folders by year
    and month, no template. *)
Definition settings (dailyBackfill monthlyBackfill : BackFillOptions) : AutoJournalSettings := {|
  rootFolder := "Journal";
  yearFormat := "YYYY";
  monthFormat := "MM";
  dayFormat := "DD";
  monthlyNotesFolderName := "Monthly";
  dailyNotesEnabled := true;
  monthlyNotesEnabled := true;
  dailyNotesTemplateFile := EmptyString;
  monthlyNotesTemplateFile := EmptyString;
  dailyNotesBackfill := dailyBackfill;
  monthlyNotesBackfill := monthlyBackfill;
  monthlyNotesDayOfMonth := 1;
  useTodayForLatestNote := false;
  shouldTemplateDate := true;
  templateDateToken := "{{date}}";
  templateDateFormat := "YYYY-MM-DD";
  showDebugNotifications := false;
  timezone := EmptyString
|}.

(** 2024-03-15, at 10:30. *)
Definition mid_march_2024 : Instant := mkInstant 2024 2 15 10 30.

Definition emptyVault : Vault := mkVault [] [].

End Std.

(** ** Reading an outcome *)

Definition resultOf {A} (o : Res A * Vault * list Event) : Res A := fst (fst o).
Definition vaultOf {A} (o : Res A * Vault * list Event) : Vault := snd (fst o).
Definition eventsOf {A} (o : Res A * Vault * list Event) : list Event := snd o.

(** [wp m Q v]: the outcome of [m] from the vault [v] satisfies [Q]. *)
Definition wp {A} (m : M A) (Q : Res A -> Vault -> list Event -> Prop) (v : Vault) : Prop :=
  Q (resultOf (m v)) (vaultOf (m v)) (eventsOf (m v)).

Definition isOk {A} (r : Res A) : Prop :=
  match r with
  | Ok _ => True
  | Throw _ => False
  end.

(** The files and the folders that a trace of events adds to the vault. *)
Definition createdFile (ev : Event) : list (string * string) :=
  match ev with
  | EvCreate p c true => [(p, c)]
  | _ => []
  end.

Definition createdFolder (ev : Event) : list string :=
  match ev with
  | EvCreateFolder p true => [p]
  | _ => []
  end.

Definition createdFiles (l : list Event) : list (string * string) := flat_map createdFile l.
Definition createdFolders (l : list Event) : list string := flat_map createdFolder l.

(** The calls that failed. *)
Definition isFailure (ev : Event) : bool :=
  match ev with
  | EvRead _ false | EvCreateFolder _ false | EvExpand _ _ false | EvCreate _ _ false => true
  | _ => false
  end.

Definition isReport (ev : Event) : bool :=
  match ev with
  | EvError _ _ => true
  | _ => false
  end.

(** Every failed call of the trace is followed at once by a call of
    errorNotification. *)
Fixpoint reported (l : list Event) : Prop :=
  match l with
  | [] => True
  | ev :: rest =>
      (isFailure ev = true -> exists msg debug rest', rest = EvError msg debug :: rest')
      /\ reported rest
  end.

(** ** Candidates *)

Section Candidates.

Variable settings : AutoJournalSettings.
Variable env : Env.

(** The year as createDailyNote and createMonthlyNote read it. *)
Definition yearLabel : string := format env (now env) (yearFormat settings).

Definition monthLabel (m : Moment) : string := format env m (monthFormat settings).

(** The day [day] of month [monthNumber], and the path of its note. *)
Definition dayDate (monthNumber day : Z) : Moment := newDate env yearLabel (monthNumber + 1) day.

Definition dailyPath (monthNumber day : Z) : string :=
  targetPath settings env (format env (dayDate monthNumber day) (dailyFileFormat settings)).

(** The date of the monthly note of month [monthNumber], and its path. *)
Definition monthDate (monthNumber : Z) : Moment :=
  newDate env yearLabel (monthNumber + 1) (monthlyNotesDayOfMonth settings).

Definition monthlyPath (monthNumber : Z) : string :=
  targetPath settings env (format env (monthDate monthNumber) (monthlyFileFormat settings)).

(** The month format gives the first day of the current month the label
    it gives today: line 129 recognises the current month. *)
Definition currentMonthRecognised : Prop :=
  monthLabel (dateOfMonth env yearLabel (i_month (clock env))) = monthLabel (now env).

(** A candidate day is not after today: its month is not after the
    current month and, when its month carries the label of the current
    month (the test of line 129), its day of the month is not after
    today's. *)
Definition notAfterToday (monthNumber day : Z) : Prop :=
  0 <= monthNumber <= i_month (clock env)
  /\ (monthLabel (dateOfMonth env yearLabel monthNumber) = monthLabel (now env) ->
      forall d, Calendar.date (dayDate monthNumber day) = Some d -> d <= i_date (clock env)).


End Candidates.

(** ** Cascade creation of folders *)

(** The paths that the loop of createNewFile over the segments of a folder
    path visits: each is the one before joined with the next segment. *)
Fixpoint cascadePaths (env : Env) (prevPath : string) (segments : list string) : list string :=
  match segments with
  | [] => []
  | folderName :: rest =>
      let cascadePath := join env prevPath folderName in
      cascadePath :: cascadePaths env cascadePath rest
  end.

(** [l1] is [l2] with some elements left out, the order kept. *)
Inductive Subsequence {A : Type} : list A -> list A -> Prop :=
| Subsequence_nil : forall l, Subsequence [] l
| Subsequence_keep : forall x l1 l2, Subsequence l1 l2 -> Subsequence (x :: l1) (x :: l2)
| Subsequence_skip : forall x l1 l2, Subsequence l1 l2 -> Subsequence l1 (x :: l2).

(** The folders that a trace tried to create, in order. *)
Definition folderAttempt (ev : Event) : list string :=
  match ev with
  | EvCreateFolder p _ => [p]
  | _ => []
  end.

Definition folderAttempts (l : list Event) : list string := flat_map folderAttempt l.

(** The events of the cascade: folder creations and their reports. *)
Definition isCascadeEvent (ev : Event) : Prop :=
  match ev with
  | EvCreateFolder _ _ | EvError _ _ => True
  | _ => False
  end.

Definition cascadeError (settings : AutoJournalSettings) (cascadePath newFilePath : string) : Event :=
  EvError (folderError cascadePath newFilePath) (showDebugNotifications settings).

Definition exists_at (v : Vault) (p : string) : Prop := getAbstractFileByPath v p <> None.

(** ** What one call of createNewFile does *)

(** The vault [v'] is [v] with files and folders added at the end. *)
Definition extends (v v' : Vault) : Prop :=
  (exists moreFiles, files v' = (files v ++ moreFiles)%list)
  /\ (exists moreFolders, folders v' = (folders v ++ moreFolders)%list).

(** A file of the listing carries the label. *)
Definition labelTaken (env : Env) (label : string) (listing : list string) : bool :=
  existsb (fun file => String.eqb (fileLabel env file) label) listing.

Section Outcomes.

Variable settings : AutoJournalSettings.
Variable env : Env.

(** The folder whose existence createNewFile checks. *)
Definition folderOf (target : string) : string := stripLeadingSlash (dirname env target).

(** The label that createNewFile derives from the name of its file. *)
Definition dayPartOf (target : string) : string :=
  JS.trim (JS.firstSegment "-" (basename env target)).

(** The outcome of [createNewFile createdDate newFilePath templateContents
    filesInFolder] from the vault [v]: result [r], vault [v'], events [l].
    The events are those of the cascade, then the call of the engine, then
    the call of [vault.create] when the engine returned and no file of the
    listing carries the label of the new file. *)
Definition createNewFile_outcome (createdDate : Moment) (newFilePath templateContents : string)
  (filesInFolder : list string) (v : Vault) (r : Res string) (v' : Vault) (l : list Event) : Prop :=
  let target := targetPath settings env newFilePath in
  let text := templateDate settings env createdDate templateContents in
  let name := fileNameNoExtension env target in
  exists lf,
    Forall isCascadeEvent lf /\ reported lf
    /\ folders v' = (folders v ++ createdFolders lf)%list
    /\ (forall p, In p (folderAttempts lf) -> getAbstractFileByPath v p = None)
    /\ (forall p, In (EvCreateFolder p false) lf -> In (cascadeError settings p target) lf)
    /\ match getAbstractFileByPath v (folderOf target) with
       | Some _ => lf = []
       | None =>
           Subsequence (folderAttempts lf) (cascadePaths env EmptyString (JS.split "/" (folderOf target)))
           /\ (forall p, In p (cascadePaths env EmptyString (JS.split "/" (folderOf target))) ->
                 exists_at v' p \/ In (cascadeError settings p target) lf)
       end
    /\ match replaceNewFileVars env text name with
       | Throw msg =>
           l = (lf ++ [EvExpand text name false])%list /\ r = Throw msg /\ files v' = files v
       | Ok content =>
           if labelTaken env (dayPartOf target) filesInFolder then
             l = (lf ++ [EvExpand text name true])%list /\ r = Ok target /\ files v' = files v
           else
             (l = (lf ++ [EvExpand text name true; EvCreate target content true])%list
              /\ r = Ok target
              /\ files v' = (files v ++ [(target, content)])%list
              /\ getAbstractFileByPath (mkVault (files v) (folders v')) target = None
              /\ storeRejects env (OpCreate target) = false)
             \/ (l = (lf ++ [EvExpand text name true; EvCreate target content false])%list
                 /\ r = Throw (storeError env (OpCreate target))
                 /\ files v' = files v
                 /\ (exists_at (mkVault (files v) (folders v')) target
                     \/ storeRejects env (OpCreate target) = true))
       end.

End Outcomes.

(** ** The decisions of a pass *)

(** What the loops decide for one period, apart from the listing: whether
    its guards let it through, the label looked for in the listing, the
    date handed to createNewFile and the path asked for. *)
Record Candidate := mkCandidate {
  guard : bool;
  label : string;
  stamp : Moment;
  notePath : string
}.

Section Passes.

Variable settings : AutoJournalSettings.
Variable env : Env.

(** A loop over candidates against one listing: a candidate that passes
    its guards and whose label no file of the listing carries is handed to
    createNewFile, whose error is caught and reported. *)
Definition pass (templateContents : string) (listing : list string) (cs : list Candidate) : M unit :=
  forEach cs (fun c =>
    if (guard c && negb (labelTaken env (label c) listing))%bool
    then catch (createNewFile settings env (stamp c) (notePath c) templateContents listing)
               (reportError settings)
    else ret tt).

(** *** Daily *)

(** The guards of a month of createDailyNote (lines 91 and 95-105). *)
Definition dailyMonthGuard (m : Z) : bool :=
  (negb (JS.num_lt (Calendar.month (now env)) (Some m))
   && negb ((BackFillOptions_eqb (dailyNotesBackfill settings) MONTH
             || BackFillOptions_eqb (dailyNotesBackfill settings) NONE)
            && negb (String.eqb (monthLabel settings env (dateOfMonth env (yearLabel settings env) m))
                                (monthLabel settings env (now env)))))%bool.

(** The guards of a day, apart from the listing (lines 128-135 and 152-157). *)
Definition dailyDayGuard (m day : Z) : bool :=
  (negb (String.eqb (monthLabel settings env (dateOfMonth env (yearLabel settings env) m))
                    (monthLabel settings env (now env))
         && JS.num_gt (Calendar.date (dayDate settings env m day)) (Calendar.date (now env)))
   && negb (BackFillOptions_eqb (dailyNotesBackfill settings) NONE
            && JS.num_lt (Calendar.date (dayDate settings env m day)) (Calendar.date (now env))))%bool.

Definition dayLabel (m day : Z) : string :=
  format env (dayDate settings env m day) (dayFormat settings).

Definition dailyCandidate (m day : Z) : Candidate := {|
  guard := dailyDayGuard m day;
  label := dayLabel m day;
  stamp := dailyCreateFileDate settings env (dayDate settings env m day);
  notePath := format env (dayDate settings env m day) (dailyFileFormat settings)
|}.

(** The days of month [m] that the inner loop visits. *)
Definition monthDays (m : Z) : list Z :=
  match Calendar.daysInMonth (dateOfMonth env (yearLabel settings env) m) with
  | Some daysInMonth => range 1 daysInMonth
  | None => []
  end.

(** The folder of month [m] and the files listed under it. *)
Definition monthsFolder (m : Z) : string :=
  dirname env (format env (dateOfMonth env (yearLabel settings env) m) (dailyFileFormat settings) ++ ".md").

Definition dailyListing (m : Z) (v : Vault) : list string :=
  filter (inFolder settings env (monthsFolder m)) (getFiles v).

(** *** Monthly *)

(** The guards of a month of createMonthlyNote (lines 225, 230-237 and
    254-259). *)
Definition monthlyGuard (m : Z) : bool :=
  (negb (JS.num_lt (Calendar.month (now env)) (Some m))
   && negb (negb (BackFillOptions_eqb (monthlyNotesBackfill settings) YEAR)
            && negb (String.eqb (monthLabel settings env (monthDate settings env m))
                                (monthLabel settings env (now env))))
   && negb (JS.num_lt (Calendar.date (now env)) (Some (monthlyNotesDayOfMonth settings))
            && JS.num_seq (Some m) (Calendar.month (now env))))%bool.

Definition monthlyCandidate (m : Z) : Candidate := {|
  guard := monthlyGuard m;
  label := monthLabel settings env (monthDate settings env m);
  stamp := monthlyCreateFileDate settings env (monthDate settings env m);
  notePath := format env (monthDate settings env m) (monthlyFileFormat settings)
|}.

Definition monthlyFolder : string :=
  dirname env (format env (now env) (monthlyFileFormat settings) ++ ".md").

Definition monthlyListing (v : Vault) : list string :=
  filter (inMonthlyFolder settings env monthlyFolder) (getFiles v).

(** *** What justifies an event of a pass *)

(** An event of a pass over [cs] against [listing], started from a vault
    that extends [base]: folder events and reports apart, it is the call of
    the engine or of [vault.create] for a candidate that passed its guards
    and whose label was not in the listing. *)
Definition justified (templateContents : string) (listing : list string) (cs : list Candidate)
  (base : Vault) (ev : Event) : Prop :=
  match ev with
  | EvCreateFolder _ _ | EvError _ _ => True
  | EvExpand text name _ =>
      exists c, In c cs /\ guard c = true /\ labelTaken env (label c) listing = false
                /\ text = templateDate settings env (stamp c) templateContents
                /\ name = fileNameNoExtension env (targetPath settings env (notePath c))
  | EvCreate p content ok =>
      exists c, In c cs /\ guard c = true /\ labelTaken env (label c) listing = false
                /\ p = targetPath settings env (notePath c)
                /\ labelTaken env (dayPartOf env p) listing = false
                /\ replaceNewFileVars env (templateDate settings env (stamp c) templateContents)
                     (fileNameNoExtension env p) = Ok content
                /\ (ok = true ->
                    storeRejects env (OpCreate p) = false
                    /\ exists v0, extends base v0 /\ getAbstractFileByPath v0 p = None)
  | EvNotice _ | EvRead _ _ => False
  end.

(** A candidate that passes its guards and whose label is not in the
    listing is handed to the engine; and when the label of its file is not
    in the listing either, the engine returns and the vault does not reject
    the path, something is at its path in the end. *)
Definition served (templateContents : string) (listing : list string) (c : Candidate)
  (v' : Vault) (l : list Event) : Prop :=
  guard c = true -> labelTaken env (label c) listing = false ->
  let p := targetPath settings env (notePath c) in
  let text := templateDate settings env (stamp c) templateContents in
  (exists ok, In (EvExpand text (fileNameNoExtension env p) ok) l)
  /\ (labelTaken env (dayPartOf env p) listing = false ->
      forall content, replaceNewFileVars env text (fileNameNoExtension env p) = Ok content ->
      storeRejects env (OpCreate p) = false ->
      exists_at v' p).

End Passes.

(** ** What justifies an event of createDailyNote *)

Section DailyPass.

Variable settings : AutoJournalSettings.
Variable env : Env.

Definition dailyCandidates (m : Z) : list Candidate :=
  map (dailyCandidate settings env m) (monthDays settings env m).

Definition monthlyCandidates : list Candidate :=
  map (monthlyCandidate settings env) (range 0 11).

(** An event of the loop over the months [ms], started from a vault that
    extends [base], is an event of the pass of a month that passed its
    guards, against the files listed under its folder when it began. *)
Definition dailyJustified (templateContents : string) (ms : list Z) (base : Vault) (ev : Event) : Prop :=
  exists m vm,
    In m ms /\ dailyMonthGuard settings env m = true /\ extends base vm
    /\ justified settings env templateContents (dailyListing settings env m vm)
         (dailyCandidates m) vm ev.

(** What getNoteTemplateContents gives from the vault [v]: its result [r]
    and its events [l]. *)
Definition template_outcome (type : NoteType) (v : Vault) (r : Res (option string)) (l : list Event) : Prop :=
  let templatePath := templatePathOf settings type in
  let file := templatePath ++ ".md" in
  match r with
  | Ok (Some templateContents) =>
      (templatePath = EmptyString /\ templateContents = EmptyString /\ l = [])
      \/ (templatePath <> EmptyString
          /\ getAbstractFileByPath v file = Some (TFile file)
          /\ storeRejects env (OpRead file) = false
          /\ contentOf v file = Some templateContents
          /\ l = [EvRead file true])
  | Ok None =>
      templatePath <> EmptyString
      /\ ((getAbstractFileByPath v file = None
           /\ l = [EvNotice (templateNotFound env type templatePath)])
          \/ (exists d, getAbstractFileByPath v file = Some (TFolder d)
              /\ l = [EvNotice (templateIsDirectory env type templatePath)]))
  | Throw msg =>
      templatePath <> EmptyString
      /\ getAbstractFileByPath v file = Some (TFile file)
      /\ (storeRejects env (OpRead file) = true \/ contentOf v file = None)
      /\ msg = storeError env (OpRead file)
      /\ l = [EvRead file false]
  end.

End DailyPass.

(** ** What createDailyNote and createMonthlyNote do *)

Section NoteOutcomes.

Variable settings : AutoJournalSettings.
Variable env : Env.

(** The outcome of createDailyNote from [v]: it stops when the template
    is not to be had, and else loops over the twelve months. *)
Definition daily_outcome (v : Vault) (r : Res unit) (v' : Vault) (l : list Event) : Prop :=
  exists lt,
    template_outcome settings env Daily v (resultOf (getNoteTemplateContents settings env Daily v)) lt
    /\ match resultOf (getNoteTemplateContents settings env Daily v) with
       | Throw msg => r = Throw msg /\ v' = v /\ l = lt
       | Ok None => r = Ok tt /\ v' = v /\ l = lt
       | Ok (Some templateContents) =>
           exists l1,
             r = Ok tt /\ l = (lt ++ l1)%list /\ extends v v'
             /\ files v' = (files v ++ createdFiles l1)%list
             /\ reported l1
             /\ Forall (dailyJustified settings env templateContents (range 0 11) v) l1
             /\ (forall m c, In m (range 0 11) -> dailyMonthGuard settings env m = true ->
                   In c (dailyCandidates settings env m) ->
                   served settings env templateContents (dailyListing settings env m v') c v' l1)
       end.

(** The outcome of createMonthlyNote from [v]: one pass over the twelve
    months against the files listed under the monthly folder of [v]. *)
Definition monthly_outcome (v : Vault) (r : Res unit) (v' : Vault) (l : list Event) : Prop :=
  exists lt,
    template_outcome settings env Monthly v (resultOf (getNoteTemplateContents settings env Monthly v)) lt
    /\ match resultOf (getNoteTemplateContents settings env Monthly v) with
       | Throw msg => r = Throw msg /\ v' = v /\ l = lt
       | Ok None => r = Ok tt /\ v' = v /\ l = lt
       | Ok (Some templateContents) =>
           exists l1,
             r = Ok tt /\ l = (lt ++ l1)%list /\ extends v v'
             /\ files v' = (files v ++ createdFiles l1)%list
             /\ reported l1
             /\ Forall (justified settings env templateContents (monthlyListing settings env v)
                          (monthlyCandidates settings env) v) l1
             /\ (forall c, In c (monthlyCandidates settings env) ->
                   served settings env templateContents (monthlyListing settings env v) c v' l1)
       end.

(** The report that [run] adds when a branch throws. *)
Definition branchReport (r : Res unit) : list Event :=
  match r with
  | Ok _ => []
  | Throw msg => [EvError msg (showDebugNotifications settings)]
  end.

End NoteOutcomes.

(** ** The scenarios *)

Module Scenario.

(** The vault rejects the calls that [bad] picks. *)
Definition rejecting (bad : StoreOp -> bool) (t : Instant) : Env := {|
  clock := t;
  format := Std.momentFormat;
  parseDate := Std.momentParse;
  join := Std.pathJoin;
  dirname := Std.pathDirname;
  basename := Std.pathBasename;
  fileNameNoExtension := Std.pathBasename;
  replaceNewFileVars := Std.engine;
  APP_NAME := "Auto Journal";
  fileBasename := Std.pathBasename;
  fileParentName := Std.parentName;
  storeRejects := bad;
  storeError := Std.errorText
|}.

(** The settings of the scenarios with another root folder, another daily
    template and another format of the date put in the template. *)
Definition custom (root dailyTemplate dateFormat : string)
  (dailyBackfill monthlyBackfill : BackFillOptions) : AutoJournalSettings := {|
  rootFolder := root;
  yearFormat := "YYYY";
  monthFormat := "MM";
  dayFormat := "DD";
  monthlyNotesFolderName := "Monthly";
  dailyNotesEnabled := true;
  monthlyNotesEnabled := true;
  dailyNotesTemplateFile := dailyTemplate;
  monthlyNotesTemplateFile := EmptyString;
  dailyNotesBackfill := dailyBackfill;
  monthlyNotesBackfill := monthlyBackfill;
  monthlyNotesDayOfMonth := 1;
  useTodayForLatestNote := false;
  shouldTemplateDate := true;
  templateDateToken := "{{date}}";
  templateDateFormat := dateFormat;
  showDebugNotifications := false;
  timezone := EmptyString
|}.

(** The daily notes of the days [days] of a month of a year, under the
    settings of the scenarios. *)
Definition dailyNotes (year month : Z) (days : list Z) : list string :=
  map (fun d => "Journal/" ++ Std.momentFormat (At (mkInstant year month d 0 0)) "YYYY/MM/DD - dddd" ++ ".md")
      days.

(** January, February and the first fifteen days of March 2024. *)
Definition upToMidMarch : list string :=
  (dailyNotes 2024 0 (range 1 31) ++ dailyNotes 2024 1 (range 1 29) ++ dailyNotes 2024 2 (range 1 15))%list.

Definition inFirstQuarter (p : string) : bool :=
  (JS.startsWith p "Journal/2024/01/" || JS.startsWith p "Journal/2024/02/"
   || JS.startsWith p "Journal/2024/03/")%bool.

(** The reading of the YEAR policy that the code does not follow: under
    YEAR, createMonthlyNote creates a note for the current month only. *)
Definition year_limits_monthly_to_current_month : Prop :=
  forall settings env v p c,
    monthlyNotesBackfill settings = YEAR ->
    In (p, c) (files (vaultOf (createMonthlyNote settings env v))) ->
    In (p, c) (files v) \/ p = monthlyPath settings env (i_month (clock env)).

(** The two readings of a second run that the code does not follow
    everywhere: a second run never adds a file; a second run never calls
    [vault.create] for a path that is in the vault. *)
Definition second_run_never_adds : Prop :=
  forall settings env v,
    let v1 := vaultOf (run settings env v) in
    files (vaultOf (run settings env v1)) = files v1.

Definition second_run_never_tries_what_exists : Prop :=
  forall settings env v,
    let v1 := vaultOf (run settings env v) in
    forall p c ok, In (EvCreate p c ok) (eventsOf (run settings env v1)) -> hasFile v1 p = false.

End Scenario.

(** ** The option to stamp the latest note with the present time *)

Definition withUseTodayForLatestNote (b : bool) (s : AutoJournalSettings) : AutoJournalSettings := {|
  rootFolder := rootFolder s;
  yearFormat := yearFormat s;
  monthFormat := monthFormat s;
  dayFormat := dayFormat s;
  monthlyNotesFolderName := monthlyNotesFolderName s;
  dailyNotesEnabled := dailyNotesEnabled s;
  monthlyNotesEnabled := monthlyNotesEnabled s;
  dailyNotesTemplateFile := dailyNotesTemplateFile s;
  monthlyNotesTemplateFile := monthlyNotesTemplateFile s;
  dailyNotesBackfill := dailyNotesBackfill s;
  monthlyNotesBackfill := monthlyNotesBackfill s;
  monthlyNotesDayOfMonth := monthlyNotesDayOfMonth s;
  useTodayForLatestNote := b;
  shouldTemplateDate := shouldTemplateDate s;
  templateDateToken := templateDateToken s;
  templateDateFormat := templateDateFormat s;
  showDebugNotifications := showDebugNotifications s;
  timezone := timezone s
|}.

(** The candidate day is today: the test of lines 164-165. *)
Definition isToday (env : Env) (d : Moment) : Prop :=
  format env (now env) "YYYY-MM-DD" = format env d "YYYY-MM-DD".

(** ** Running twice *)

Section Twice.

Variable settings : AutoJournalSettings.
Variable env : Env.

(** The file that getNoteTemplateContents looks up. *)
Definition templateFile (type : NoteType) : string := templatePathOf settings type ++ ".md".

(** The note of a day is listed under the folder of its month and its name
    gives back the label of the day; the note of a month is listed under
    the monthly folder and its name gives back the label of the month. *)
Definition dayRecoverable (m day : Z) : bool :=
  (inFolder settings env (monthsFolder settings env m) (dailyPath settings env m day)
   && String.eqb (fileLabel env (dailyPath settings env m day)) (dayLabel settings env m day))%bool.

Definition monthRecoverable (m : Z) : bool :=
  (inMonthlyFolder settings env (monthlyFolder settings env) (monthlyPath settings env m)
   && String.eqb (fileLabel env (monthlyPath settings env m))
                 (monthLabel settings env (monthDate settings env m)))%bool.

(** So it is for the days that the loops visit in the twelve months, and
    for the twelve months. *)
Definition labelsRecoverable : bool :=
  forallb (fun m => (forallb (dayRecoverable m) (monthDays settings env m) && monthRecoverable m)%bool)
          (range 0 11).

End Twice.


(** ** Further readings of a trace *)

(** The paths of the files that a trace adds, in order. *)
Definition createdPaths (l : list Event) : list string := map fst (createdFiles l).

(** The calls of the engine in a trace. *)
Definition isEngineCall (ev : Event) : bool :=
  match ev with
  | EvExpand _ _ _ => true
  | _ => false
  end.

Definition engineCalls (l : list Event) : list Event := filter isEngineCall l.

(** The calls of [vault.create] in a trace, accepted or not: the path and
    the contents of each. *)
Definition createAttempt (ev : Event) : list (string * string) :=
  match ev with
  | EvCreate p c _ => [(p, c)]
  | _ => []
  end.

Definition createAttempts (l : list Event) : list (string * string) := flat_map createAttempt l.

(** The character occurs in the string. *)
Fixpoint occurs (c : ascii) (s : string) : bool :=
  match s with
  | EmptyString => false
  | String a r => (Ascii.eqb a c || occurs c r)%bool
  end.

(** ** Settings with one field changed *)

Definition withTemplateDateToken (token : string) (s : AutoJournalSettings) : AutoJournalSettings := {|
  rootFolder := rootFolder s;
  yearFormat := yearFormat s;
  monthFormat := monthFormat s;
  dayFormat := dayFormat s;
  monthlyNotesFolderName := monthlyNotesFolderName s;
  dailyNotesEnabled := dailyNotesEnabled s;
  monthlyNotesEnabled := monthlyNotesEnabled s;
  dailyNotesTemplateFile := dailyNotesTemplateFile s;
  monthlyNotesTemplateFile := monthlyNotesTemplateFile s;
  dailyNotesBackfill := dailyNotesBackfill s;
  monthlyNotesBackfill := monthlyNotesBackfill s;
  monthlyNotesDayOfMonth := monthlyNotesDayOfMonth s;
  useTodayForLatestNote := useTodayForLatestNote s;
  shouldTemplateDate := shouldTemplateDate s;
  templateDateToken := token;
  templateDateFormat := templateDateFormat s;
  showDebugNotifications := showDebugNotifications s;
  timezone := timezone s
|}.

Definition withMonthlyNotesDayOfMonth (day : Z) (s : AutoJournalSettings) : AutoJournalSettings := {|
  rootFolder := rootFolder s;
  yearFormat := yearFormat s;
  monthFormat := monthFormat s;
  dayFormat := dayFormat s;
  monthlyNotesFolderName := monthlyNotesFolderName s;
  dailyNotesEnabled := dailyNotesEnabled s;
  monthlyNotesEnabled := monthlyNotesEnabled s;
  dailyNotesTemplateFile := dailyNotesTemplateFile s;
  monthlyNotesTemplateFile := monthlyNotesTemplateFile s;
  dailyNotesBackfill := dailyNotesBackfill s;
  monthlyNotesBackfill := monthlyNotesBackfill s;
  monthlyNotesDayOfMonth := day;
  useTodayForLatestNote := useTodayForLatestNote s;
  shouldTemplateDate := shouldTemplateDate s;
  templateDateToken := templateDateToken s;
  templateDateFormat := templateDateFormat s;
  showDebugNotifications := showDebugNotifications s;
  timezone := timezone s
|}.

Definition withDayFormat (fmt : string) (s : AutoJournalSettings) : AutoJournalSettings := {|
  rootFolder := rootFolder s;
  yearFormat := yearFormat s;
  monthFormat := monthFormat s;
  dayFormat := fmt;
  monthlyNotesFolderName := monthlyNotesFolderName s;
  dailyNotesEnabled := dailyNotesEnabled s;
  monthlyNotesEnabled := monthlyNotesEnabled s;
  dailyNotesTemplateFile := dailyNotesTemplateFile s;
  monthlyNotesTemplateFile := monthlyNotesTemplateFile s;
  dailyNotesBackfill := dailyNotesBackfill s;
  monthlyNotesBackfill := monthlyNotesBackfill s;
  monthlyNotesDayOfMonth := monthlyNotesDayOfMonth s;
  useTodayForLatestNote := useTodayForLatestNote s;
  shouldTemplateDate := shouldTemplateDate s;
  templateDateToken := templateDateToken s;
  templateDateFormat := templateDateFormat s;
  showDebugNotifications := showDebugNotifications s;
  timezone := timezone s
|}.

(** ** The notice of a template that cannot be used *)

(** The text of the notice for a template path at which no file is: a
    folder is there (line 67), or nothing (line 59). *)
Definition templateNotice (env : Env) (type : NoteType) (templatePath : string) (v : Vault) : string :=
  if hasFolder v (templatePath ++ ".md") then templateIsDirectory env type templatePath
  else templateNotFound env type templatePath.

(** ** The calls of the engine in a pass *)

(** Whether the engine returns for a text and a file name. *)
Definition engineOk (env : Env) (text name : string) : bool :=
  match replaceNewFileVars env text name with
  | Ok _ => true
  | Throw _ => false
  end.

Section EngineCalls.

Variable settings : AutoJournalSettings.
Variable env : Env.

(** The candidate is handed to createNewFile: it passes its guards and no
    file of the listing carries its label. *)
Definition handedOver (listing : list string) (c : Candidate) : bool :=
  (guard c && negb (labelTaken env (label c) listing))%bool.

(** The call of the engine that createNewFile makes for a candidate. *)
Definition engineCallOf (templateContents : string) (c : Candidate) : Event :=
  let text := templateDate settings env (stamp c) templateContents in
  let name := fileNameNoExtension env (targetPath settings env (notePath c)) in
  EvExpand text name (engineOk env text name).

(** The call of [vault.create] that createNewFile makes for a candidate:
    none when the candidate is not handed over, when the engine throws, or
    when a file of the listing carries the label read from the name of the
    new file. *)
Definition createCallsOf (templateContents : string) (listing : list string) (c : Candidate)
  : list (string * string) :=
  let target := targetPath settings env (notePath c) in
  let text := templateDate settings env (stamp c) templateContents in
  if (handedOver listing c && negb (labelTaken env (dayPartOf env target) listing))%bool
  then match replaceNewFileVars env text (fileNameNoExtension env target) with
       | Ok content => [(target, content)]
       | Throw _ => []
       end
  else [].

(** The paths of the candidates, in the order of the loops. *)
Definition dailyPaths : list string :=
  flat_map (fun m => map (dailyPath settings env m) (monthDays settings env m)) (range 0 11).

Definition monthlyPaths : list string := map (monthlyPath settings env) (range 0 11).

(** The month format tells the current month from the other months of the
    year: the first day of no other month is given the label of today. *)
Definition otherMonthsDiffer : bool :=
  forallb (fun m =>
             ((m =? i_month (clock env))
              || negb (String.eqb (monthLabel settings env (dateOfMonth env (yearLabel settings env) m))
                                  (monthLabel settings env (now env))))%bool)
          (range 0 11).

End EngineCalls.

(** ** The reads and the notices of a run *)

Section Quiet.

Variable settings : AutoJournalSettings.
Variable env : Env.

(** A read of the trace is the read of a template, and a notice is the
    notice of a template that cannot be used. *)
Definition ofATemplate (ev : Event) : Prop :=
  match ev with
  | EvRead p _ =>
      exists type, p = templateFile settings type /\ templatePathOf settings type <> EmptyString
  | EvNotice msg =>
      exists type,
        templatePathOf settings type <> EmptyString
        /\ (msg = templateNotFound env type (templatePathOf settings type)
            \/ msg = templateIsDirectory env type (templatePathOf settings type))
  | _ => True
  end.

End Quiet.

(** ** The report of a failure *)

Section Reports.

Variable settings : AutoJournalSettings.
Variable env : Env.

(** The message with which the failure of a call is reported: the message
    of the error thrown by the vault or by the engine, and for a folder the
    text of line 316. *)
Definition reportOf (ev : Event) (msg : string) : Prop :=
  match ev with
  | EvRead p false => msg = storeError env (OpRead p)
  | EvCreateFolder p false => exists newFilePath, msg = folderError p newFilePath
  | EvExpand text name false => replaceNewFileVars env text name = Throw msg
  | EvCreate p _ false => msg = storeError env (OpCreate p)
  | _ => False
  end.

(** A trace in which every failed call is followed at once by its report,
    made with the debug flag of the settings, and errorNotification is
    called for nothing else. *)
Inductive Reported : list Event -> Prop :=
| Reported_nil : Reported []
| Reported_call (ev : Event) (l : list Event) :
    isFailure ev = false -> isReport ev = false -> Reported l -> Reported (ev :: l)
| Reported_failure (ev : Event) (msg : string) (l : list Event) :
    reportOf ev msg -> Reported l ->
    Reported (ev :: EvError msg (showDebugNotifications settings) :: l).

(** A trace that ends in a failure still to be reported with [msg]. *)
Definition pendingFailure (l : list Event) (msg : string) : Prop :=
  exists l0 ev, l = (l0 ++ [ev])%list /\ Reported l0 /\ reportOf ev msg.

End Reports.

(** ** The folders of the months *)

Section Separate.

Variable settings : AutoJournalSettings.
Variable env : Env.

(** No note of a month is listed under the folder of another month: the
    path of no day of month [m'] starts with the path of the folder of
    month [m]. *)
Definition foldersSeparate : bool :=
  forallb (fun m =>
    forallb (fun m' =>
      ((m =? m')
       || forallb (fun day =>
                     negb (inFolder settings env (monthsFolder settings env m)
                             (dailyPath settings env m' day)))
                  (monthDays settings env m'))%bool)
      (range 0 11))
    (range 0 11).

(** The calls of the engine for the days of month [m] that pass the guards
    and whose label no file listed under the folder of the month in [v]
    carries. *)
Definition monthEngineCalls (templateContents : string) (v : Vault) (m : Z) : list Event :=
  if dailyMonthGuard settings env m
  then map (engineCallOf settings env templateContents)
         (filter (handedOver env (dailyListing settings env m v)) (dailyCandidates settings env m))
  else [].

(** The calls of [vault.create] for the days of month [m]. *)
Definition monthCreateCalls (templateContents : string) (v : Vault) (m : Z)
  : list (string * string) :=
  if dailyMonthGuard settings env m
  then flat_map (createCallsOf settings env templateContents (dailyListing settings env m v))
         (dailyCandidates settings env m)
  else [].

End Separate.

(** ** The order of the calendar *)

Section CalendarOrder.

Variable settings : AutoJournalSettings.
Variable env : Env.



End CalendarOrder.

Definition withMonthFormat (fmt : string) (s : AutoJournalSettings) : AutoJournalSettings := {|
  rootFolder := rootFolder s;
  yearFormat := yearFormat s;
  monthFormat := fmt;
  dayFormat := dayFormat s;
  monthlyNotesFolderName := monthlyNotesFolderName s;
  dailyNotesEnabled := dailyNotesEnabled s;
  monthlyNotesEnabled := monthlyNotesEnabled s;
  dailyNotesTemplateFile := dailyNotesTemplateFile s;
  monthlyNotesTemplateFile := monthlyNotesTemplateFile s;
  dailyNotesBackfill := dailyNotesBackfill s;
  monthlyNotesBackfill := monthlyNotesBackfill s;
  monthlyNotesDayOfMonth := monthlyNotesDayOfMonth s;
  useTodayForLatestNote := useTodayForLatestNote s;
  shouldTemplateDate := shouldTemplateDate s;
  templateDateToken := templateDateToken s;
  templateDateFormat := templateDateFormat s;
  showDebugNotifications := showDebugNotifications s;
  timezone := timezone s
|}.

(** ** Readings that the code does not follow for every format *)

Module Literal.





(** Whatever the date token, with an empty template path the contents of
    a note are what the engine returns for the empty text. *)
Definition empty_template_gives_the_expansion_of_nothing : Prop :=
  forall settings env v p content ok,
    dailyNotesTemplateFile settings = EmptyString ->
    In (EvCreate p content ok) (eventsOf (createDailyNote settings env v)) ->
    replaceNewFileVars env EmptyString (fileNameNoExtension env p) = Ok content.

End Literal.

(** * Properties *)

(** ** The string primitives on examples *)

Example split_path : JS.split "/" "Journal/2024/03" = ["Journal"; "2024"; "03"].
Proof. reflexivity. Qed.

Example split_empty : JS.split "/" EmptyString = [EmptyString].
Proof. reflexivity. Qed.

Example label_of_name : JS.trim (JS.firstSegment "-" "15 - Friday") = "15".
Proof. reflexivity. Qed.

Example replace_first : JS.replace "a {{d}} b {{d}}" "{{d}}" "2024" = "a 2024 b {{d}}".
Proof. reflexivity. Qed.

Example replace_dollar : JS.replace "a X b" "X" "[$&$$]" = "a [X$] b".
Proof. reflexivity. Qed.

Example toString_2024 : JS.toString 2024 = "2024" /\ JS.toString 0 = "0" /\ JS.toString (-7) = "-7".
Proof. repeat split; reflexivity. Qed.

Example pad_3 : JS.padStart2 (JS.toString 3) = "03" /\ JS.padStart2 (JS.toString 12) = "12".
Proof. split; reflexivity. Qed.

(** ** The calculus of outcomes *)

Section Calculus.

Context {A B : Type}.

Lemma wp_ret (a : A) (Q : Res A -> Vault -> list Event -> Prop) v :
  Q (Ok a) v [] -> wp (ret a) Q v.
Proof. exact (fun H => H). Qed.

Lemma wp_bind (m : M A) (k : A -> M B) (Q : Res B -> Vault -> list Event -> Prop) v :
  wp m (fun r v1 l1 =>
          match r with
          | Ok a => wp (k a) (fun r2 v2 l2 => Q r2 v2 (l1 ++ l2)%list) v1
          | Throw msg => Q (Throw msg) v1 l1
          end) v ->
  wp (bind m k) Q v.
Proof.
  unfold wp, bind, resultOf, vaultOf, eventsOf.
  destruct (m v) as [[[a | msg] v1] l1]; simpl; trivial.
  destruct (k a v1) as [[r2 v2] l2]; simpl; trivial.
Qed.

Lemma wp_catch (m : M A) (h : string -> M unit) (Q : Res unit -> Vault -> list Event -> Prop) v :
  wp m (fun r v1 l1 =>
          match r with
          | Ok _ => Q (Ok tt) v1 l1
          | Throw msg => wp (h msg) (fun r2 v2 l2 => Q r2 v2 (l1 ++ l2)%list) v1
          end) v ->
  wp (catch m h) Q v.
Proof.
  unfold wp, catch, resultOf, vaultOf, eventsOf.
  destruct (m v) as [[[a | msg] v1] l1]; simpl; trivial.
  destruct (h msg v1) as [[r2 v2] l2]; simpl; trivial.
Qed.

Lemma wp_mono (m : M A) (Q Q' : Res A -> Vault -> list Event -> Prop) v :
  (forall r v' l, Q r v' l -> Q' r v' l) -> wp m Q v -> wp m Q' v.
Proof. unfold wp; auto. Qed.

Lemma wp_and (m : M A) (Q Q' : Res A -> Vault -> list Event -> Prop) v :
  wp m Q v -> wp m Q' v -> wp m (fun r v' l => Q r v' l /\ Q' r v' l) v.
Proof. unfold wp; auto. Qed.

End Calculus.

Lemma wp_emit ev (Q : Res unit -> Vault -> list Event -> Prop) v :
  Q (Ok tt) v [ev] -> wp (emit ev) Q v.
Proof. exact (fun H => H). Qed.

(** A loop whose body does not throw runs to its end; an invariant of the
    vault and of the events so far is carried along. *)
Lemma wp_forEach {A} (l : list A) (body : A -> M unit) (I : Vault -> list Event -> Prop) :
  forall v l0,
    I v l0 ->
    (forall x v1 l1, In x l -> I v1 l1 ->
       wp (body x) (fun r v2 l2 => r = Ok tt /\ I v2 (l1 ++ l2)%list) v1) ->
    wp (forEach l body) (fun r v' l' => r = Ok tt /\ I v' (l0 ++ l')%list) v.
Proof.
  induction l as [| x rest IH]; intros v l0 HI Hbody; simpl.
  - apply wp_ret. rewrite app_nil_r. auto.
  - apply wp_bind.
    eapply wp_mono; [| exact (Hbody x v l0 (or_introl eq_refl) HI)].
    intros r v1 l1 [-> HI1].
    eapply wp_mono; [| apply (IH v1 (l0 ++ l1)%list HI1)].
    + intros r v2 l2 [-> HI2]. rewrite app_assoc. auto.
    + intros y v2 l2 Hy. apply Hbody. right; exact Hy.
Qed.

(** ** The vault only grows *)

Lemma reported_app l1 l2 : reported l1 -> reported l2 -> reported (l1 ++ l2).
Proof.
  induction l1 as [| ev rest IH]; simpl; intros H1 H2; [exact H2 |].
  destruct H1 as [Hev Hrest]. split; [| auto].
  intros Hf. destruct (Hev Hf) as (msg & debug & rest' & ->).
  simpl. eauto.
Qed.

Lemma createdFiles_app l1 l2 : createdFiles (l1 ++ l2) = (createdFiles l1 ++ createdFiles l2)%list.
Proof. apply flat_map_app. Qed.

Lemma createdFolders_app l1 l2 : createdFolders (l1 ++ l2) = (createdFolders l1 ++ createdFolders l2)%list.
Proof. apply flat_map_app. Qed.


Lemma hasFile_app v p more :
  hasFile (mkVault (files v ++ more) (folders v)) p = (hasFile v p || existsb (fun f => String.eqb (fst f) p) more)%bool.
Proof. unfold hasFile; simpl. apply existsb_app. Qed.

Lemma exists_at_files v v' p :
  (forall f, In f (files v) -> In f (files v')) ->
  (forall d, In d (folders v) -> In d (folders v')) ->
  exists_at v p -> exists_at v' p.
Proof.
  unfold exists_at, getAbstractFileByPath, hasFile, hasFolder.
  intros Hf Hd H.
  destruct (existsb (fun f => String.eqb (fst f) p) (files v)) eqn:E1.
  - apply existsb_exists in E1. destruct E1 as (f & Hin & Heq).
    assert (E : existsb (fun f => String.eqb (fst f) p) (files v') = true)
      by (apply existsb_exists; eauto).
    rewrite E. discriminate.
  - destruct (existsb (fun d => String.eqb d p) (folders v)) eqn:E2; [| congruence].
    apply existsb_exists in E2. destruct E2 as (d & Hin & Heq).
    assert (E : existsb (fun d => String.eqb d p) (folders v') = true)
      by (apply existsb_exists; eauto).
    rewrite E. destruct (existsb _ (files v')); discriminate.
Qed.

Lemma Subsequence_app {A} (l1 l2 l3 l4 : list A) :
  Subsequence l1 l2 -> Subsequence l3 l4 -> Subsequence (l1 ++ l3) (l2 ++ l4).
Proof.
  induction 1; intros H34; simpl.
  - induction l as [| x l IH]; simpl; [exact H34 | constructor; exact IH].
  - constructor; auto.
  - constructor; auto.
Qed.

(** ** The calls of the vault *)

Section VaultCalls.

Variable env : Env.

Lemma wp_vaultLookup p (Q : Res (option AbstractFile) -> Vault -> list Event -> Prop) v :
  Q (Ok (getAbstractFileByPath v p)) v [] -> wp (vaultLookup p) Q v.
Proof. exact (fun H => H). Qed.

Lemma wp_vaultGetFiles (Q : Res (list string) -> Vault -> list Event -> Prop) v :
  Q (Ok (getFiles v)) v [] -> wp vaultGetFiles Q v.
Proof. exact (fun H => H). Qed.

Lemma wp_vaultCreateFolder p (Q : Res unit -> Vault -> list Event -> Prop) v :
  (exists_at v p \/ storeRejects env (OpCreateFolder p) = true ->
   Q (Throw (storeError env (OpCreateFolder p))) v [EvCreateFolder p false]) ->
  (getAbstractFileByPath v p = None -> storeRejects env (OpCreateFolder p) = false ->
   Q (Ok tt) (mkVault (files v) (folders v ++ [p])) [EvCreateFolder p true]) ->
  wp (vaultCreateFolder env p) Q v.
Proof.
  unfold wp, vaultCreateFolder, exists_at. intros H1 H2.
  destruct (getAbstractFileByPath v p) eqn:E.
  - apply H1. left. discriminate.
  - destruct (storeRejects env (OpCreateFolder p)) eqn:R.
    + apply H1. right. reflexivity.
    + apply H2; reflexivity.
Qed.

Lemma wp_vaultCreate p c (Q : Res unit -> Vault -> list Event -> Prop) v :
  (exists_at v p \/ storeRejects env (OpCreate p) = true ->
   Q (Throw (storeError env (OpCreate p))) v [EvCreate p c false]) ->
  (getAbstractFileByPath v p = None -> storeRejects env (OpCreate p) = false ->
   Q (Ok tt) (mkVault (files v ++ [(p, c)]) (folders v)) [EvCreate p c true]) ->
  wp (vaultCreate env p c) Q v.
Proof.
  unfold wp, vaultCreate, exists_at. intros H1 H2.
  destruct (getAbstractFileByPath v p) eqn:E.
  - apply H1. left. discriminate.
  - destruct (storeRejects env (OpCreate p)) eqn:R.
    + apply H1. right. reflexivity.
    + apply H2; reflexivity.
Qed.

Lemma wp_expandVars text name (Q : Res string -> Vault -> list Event -> Prop) v :
  (forall out, replaceNewFileVars env text name = Ok out -> Q (Ok out) v [EvExpand text name true]) ->
  (forall msg, replaceNewFileVars env text name = Throw msg -> Q (Throw msg) v [EvExpand text name false]) ->
  wp (expandVars env text name) Q v.
Proof.
  unfold wp, expandVars. intros H1 H2.
  destruct (replaceNewFileVars env text name) eqn:E; [apply H1 | apply H2]; reflexivity.
Qed.

Lemma wp_vaultRead p (Q : Res string -> Vault -> list Event -> Prop) v :
  (forall c, storeRejects env (OpRead p) = false -> contentOf v p = Some c ->
     Q (Ok c) v [EvRead p true]) ->
  (storeRejects env (OpRead p) = true \/ contentOf v p = None ->
     Q (Throw (storeError env (OpRead p))) v [EvRead p false]) ->
  wp (vaultRead env p) Q v.
Proof.
  unfold wp, vaultRead. intros H1 H2.
  destruct (storeRejects env (OpRead p)) eqn:R.
  - apply H2. left. reflexivity.
  - destruct (contentOf v p) eqn:C; [apply H1; reflexivity | apply H2; right; reflexivity].
Qed.

End VaultCalls.

Lemma wp_elim {A} (m : M A) (Q : Res A -> Vault -> list Event -> Prop) v :
  wp m Q v -> Q (resultOf (m v)) (vaultOf (m v)) (eventsOf (m v)).
Proof. exact (fun H => H). Qed.

Lemma wp_intro {A} (m : M A) (Q : Res A -> Vault -> list Event -> Prop) v :
  Q (resultOf (m v)) (vaultOf (m v)) (eventsOf (m v)) -> wp m Q v.
Proof. exact (fun H => H). Qed.

Lemma wp_ext {A} (m m' : M A) (Q : Res A -> Vault -> list Event -> Prop) v :
  m v = m' v -> wp m' Q v -> wp m Q v.
Proof. unfold wp. intros ->. exact (fun H => H). Qed.

Opaque wp.

Lemma exists_at_new_folder v p :
  getAbstractFileByPath v p = None ->
  exists_at (mkVault (files v) (folders v ++ [p])) p.
Proof.
  unfold exists_at, getAbstractFileByPath, hasFile, hasFolder. simpl. intros E.
  destruct (existsb _ (files v)); [discriminate |].
  rewrite existsb_app. simpl. rewrite String.eqb_refl.
  rewrite Bool.orb_true_r. discriminate.
Qed.

Lemma exists_at_grows v v' p :
  files v' = files v -> (exists more, folders v' = (folders v ++ more)%list) ->
  exists_at v p -> exists_at v' p.
Proof.
  intros Hf [more Hd]. apply exists_at_files.
  - intros x Hx. rewrite Hf. exact Hx.
  - intros x Hx. rewrite Hd. apply in_or_app. left. exact Hx.
Qed.

(** ** The cascade *)

Section CascadeFacts.

Variable settings : AutoJournalSettings.
Variable env : Env.

(** What the loop over the segments does, whatever the vault rejects. *)
Lemma cascade_spec newFilePath segments :
  forall prevPath v,
    wp (cascade settings env newFilePath prevPath segments)
      (fun r v' l =>
         r = Ok tt /\ files v' = files v /\ folders v' = (folders v ++ createdFolders l)%list
         /\ reported l /\ Forall isCascadeEvent l
         /\ Subsequence (folderAttempts l) (cascadePaths env prevPath segments)
         /\ (forall p, In p (cascadePaths env prevPath segments) ->
               exists_at v' p \/ In (cascadeError settings p newFilePath) l)
         /\ (forall p, In p (folderAttempts l) -> getAbstractFileByPath v p = None)
         /\ (forall p, In (EvCreateFolder p false) l -> In (cascadeError settings p newFilePath) l)) v.
Proof.
  induction segments as [| folderName rest IH]; intros prevPath v.
  - apply wp_ret. simpl. rewrite app_nil_r.
    repeat split; auto; try constructor; intros p [].
  - simpl cascade. simpl cascadePaths.
    set (cascadePath := join env prevPath folderName).
    apply wp_bind. apply wp_vaultLookup.
    destruct (getAbstractFileByPath v cascadePath) as [f |] eqn:E; apply wp_bind.
    + apply wp_ret.
      eapply wp_mono; [| apply (IH cascadePath v)].
      intros r v' l (Hr & Hf & Hd & Hrep & Hev & Hsub & Hall & Hmiss & Hfail). simpl.
      split; [exact Hr |]. split; [exact Hf |]. split; [exact Hd |].
      split; [exact Hrep |]. split; [exact Hev |].
      split; [constructor; exact Hsub |].
      split; [| split; [exact Hmiss | exact Hfail]].
      intros p [<- | Hp]; [| auto].
      left. apply (exists_at_grows v); eauto.
      unfold exists_at; rewrite E; discriminate.
    + apply wp_catch. apply wp_vaultCreateFolder.
      * intros _. apply wp_emit.
        eapply wp_mono; [| apply (IH cascadePath v)].
        intros r v' l (Hr & Hf & Hd & Hrep & Hev & Hsub & Hall & Hmiss & Hfail). simpl.
        split; [exact Hr |]. split; [exact Hf |]. split; [exact Hd |].
        split; [split; [intros _; eauto | split; [intros H; discriminate | exact Hrep]] |].
        split; [repeat constructor; exact Hev |].
        split; [constructor; exact Hsub |].
        split; [| split].
        -- intros p [<- | Hp].
           ++ right. right. left. reflexivity.
           ++ destruct (Hall p Hp) as [H | H]; [left; exact H | right; right; right; exact H].
        -- intros p [<- | Hp]; [exact E | auto].
        -- intros p [Hp | [Hp | Hp]].
           ++ injection Hp as <-. right. left. reflexivity.
           ++ discriminate Hp.
           ++ right. right. auto.
      * intros _ R.
        eapply wp_mono; [| apply (IH cascadePath (mkVault (files v) (folders v ++ [cascadePath])))].
        intros r v' l (Hr & Hf & Hd & Hrep & Hev & Hsub & Hall & Hmiss & Hfail).
        simpl in Hf, Hd. simpl.
        split; [exact Hr |]. split; [exact Hf |].
        split; [rewrite Hd; rewrite <- app_assoc; reflexivity |].
        split; [split; [intros H; discriminate | exact Hrep] |].
        split; [repeat constructor; exact Hev |].
        split; [constructor; exact Hsub |].
        split; [| split].
        -- intros p [<- | Hp].
           ++ left. apply (exists_at_grows (mkVault (files v) (folders v ++ [cascadePath]))); eauto.
              apply exists_at_new_folder. exact E.
           ++ destruct (Hall p Hp) as [H | H]; [left; exact H | right; right; exact H].
        -- intros p [<- | Hp]; [exact E |].
           specialize (Hmiss p Hp).
           destruct (getAbstractFileByPath v p) eqn:E'; [| reflexivity].
           exfalso.
           assert (X : exists_at (mkVault (files v) (folders v ++ [cascadePath])) p).
           { apply (exists_at_grows v); simpl; eauto. unfold exists_at. rewrite E'. discriminate. }
           apply X. exact Hmiss.
        -- intros p [Hp | Hp]; [discriminate Hp | right; auto].
Qed.

End CascadeFacts.

(** ** createNewFile *)

Section CreateNewFileFacts.

Variable settings : AutoJournalSettings.
Variable env : Env.

Lemma find_labelTaken label listing :
  find (fun file => String.eqb (fileLabel env file) label) listing = None
  <-> labelTaken env label listing = false.
Proof.
  unfold labelTaken. induction listing as [| f rest IH]; simpl; [tauto |].
  destruct (String.eqb (fileLabel env f) label); simpl; [split; discriminate | exact IH].
Qed.

Lemma createNewFile_spec createdDate newFilePath templateContents filesInFolder v :
  wp (createNewFile settings env createdDate newFilePath templateContents filesInFolder)
     (createNewFile_outcome settings env createdDate newFilePath templateContents filesInFolder v) v.
Proof.
  unfold createNewFile, createNewFile_outcome.
  fold (folderOf env (targetPath settings env newFilePath)).
  fold (dayPartOf env (targetPath settings env newFilePath)).
  set (target := targetPath settings env newFilePath).
  set (text := templateDate settings env createdDate templateContents).
  set (name := fileNameNoExtension env target).
  apply wp_bind. apply wp_vaultLookup.
  (* the cascade, or nothing *)
  assert (Hfolders :
    wp (match getAbstractFileByPath v (folderOf env target) with
        | Some _ => ret tt
        | None => cascade settings env target EmptyString (JS.split "/" (folderOf env target))
        end)
       (fun r v1 lf =>
          r = Ok tt /\ files v1 = files v /\ Forall isCascadeEvent lf /\ reported lf
          /\ folders v1 = (folders v ++ createdFolders lf)%list
          /\ match getAbstractFileByPath v (folderOf env target) with
             | Some _ => lf = []
             | None =>
                 Subsequence (folderAttempts lf)
                   (cascadePaths env EmptyString (JS.split "/" (folderOf env target)))
                 /\ (forall p, In p (cascadePaths env EmptyString (JS.split "/" (folderOf env target))) ->
                       exists_at v1 p \/ In (cascadeError settings p target) lf)
             end
          /\ (forall p, In p (folderAttempts lf) -> getAbstractFileByPath v p = None)
          /\ (forall p, In (EvCreateFolder p false) lf -> In (cascadeError settings p target) lf)) v).
  { destruct (getAbstractFileByPath v (folderOf env target)) as [f |] eqn:E.
    - apply wp_ret. simpl. rewrite app_nil_r. repeat split; auto; try constructor; intros p [].
    - eapply wp_mono; [| apply cascade_spec].
      intros r v1 lf (Hr & Hf & Hd & Hrep & Hev & Hsub & Hall & Hmiss & Hfail). auto 12. }
  apply wp_bind. eapply wp_mono; [| exact Hfolders]. clear Hfolders.
  intros r v1 lf (-> & Hf & Hev & Hrep & Hd & Hcas & Hmiss & Hfail).
  apply wp_bind. apply wp_expandVars.
  - intros content Hout.
    destruct (find (fun file => String.eqb (fileLabel env file) (dayPartOf env target)) filesInFolder)
      as [existing |] eqn:F.
    + assert (T : labelTaken env (dayPartOf env target) filesInFolder = true).
      { destruct (labelTaken env (dayPartOf env target) filesInFolder) eqn:T; [reflexivity |].
        apply find_labelTaken in T. congruence. }
      apply wp_bind. apply wp_ret. apply wp_ret.
      exists lf. rewrite Hout, T. simpl. rewrite ?app_nil_r. auto 10.
    + apply find_labelTaken in F.
      apply wp_bind. apply wp_vaultCreate.
      * intros Hex. exists lf. rewrite Hout, F. simpl.
        split; [exact Hev |]. split; [exact Hrep |]. split; [exact Hd |].
        split; [exact Hmiss |]. split; [exact Hfail |]. split; [exact Hcas |].
        right. repeat split; auto.
        destruct v1 as [f1 d1]; simpl in *. subst f1. exact Hex.
      * intros Hno Hrej. apply wp_ret. exists lf. rewrite Hout, F. simpl.
        split; [exact Hev |]. split; [exact Hrep |]. split; [exact Hd |].
        split; [exact Hmiss |]. split; [exact Hfail |].
        split.
        { destruct (getAbstractFileByPath v (folderOf env target)); [exact Hcas |].
          destruct Hcas as [Hsub Hall]. split; [exact Hsub |].
          intros p Hp. destruct (Hall p Hp) as [H | H]; [left | right; exact H].
          revert H. apply exists_at_files; simpl; auto.
          intros x Hx. apply in_or_app. left. exact Hx. }
        left. rewrite ?app_nil_r, Hf. repeat split; auto.
        destruct v1 as [f1 d1]; simpl in *. subst f1. exact Hno.
  - intros msg Hout. exists lf. rewrite Hout. auto 10.
Qed.

End CreateNewFileFacts.

(** ** Replacing the first occurrence *)

Lemma substring_all s : String.substring 0 (String.length s) s = s.
Proof. induction s as [| a s IH]; simpl; [reflexivity | rewrite IH; reflexivity]. Qed.



Lemma getSubstitution_noDollar matched before after r :
  JS.noDollar r = true -> JS.getSubstitution matched before after r = r.
Proof.
  induction r as [| c r IH]; simpl; [reflexivity |].
  intros H. apply andb_prop in H. destruct H as [Hc Hr].
  destruct (Ascii.eqb c "$"); [discriminate |].
  rewrite (IH Hr). reflexivity.
Qed.


(** ** C7 and C8: the folders and the date token of createNewFile *)

Section CreateNewFileClaims.

Variable settings : AutoJournalSettings.
Variable env : Env.



End CreateNewFileClaims.

(** ** The loops as passes over candidates *)

Lemma extends_refl v : extends v v.
Proof. split; exists []; rewrite app_nil_r; reflexivity. Qed.

Lemma extends_trans v1 v2 v3 : extends v1 v2 -> extends v2 v3 -> extends v1 v3.
Proof.
  intros [[f1 H1] [d1 H1']] [[f2 H2] [d2 H2']]. split.
  - exists (f1 ++ f2)%list. rewrite H2, H1, app_assoc. reflexivity.
  - exists (d1 ++ d2)%list. rewrite H2', H1', app_assoc. reflexivity.
Qed.

Lemma extends_exists_at v v' p : extends v v' -> exists_at v p -> exists_at v' p.
Proof.
  intros [[f Hf] [d Hd]]. apply exists_at_files.
  - intros x Hx. rewrite Hf. apply in_or_app. left. exact Hx.
  - intros x Hx. rewrite Hd. apply in_or_app. left. exact Hx.
Qed.

Lemma extends_missing v v' p :
  extends v v' -> getAbstractFileByPath v' p = None -> getAbstractFileByPath v p = None.
Proof.
  intros He H. destruct (getAbstractFileByPath v p) eqn:E; [| reflexivity].
  exfalso. apply (extends_exists_at v v' p He); [| exact H].
  unfold exists_at. rewrite E. discriminate.
Qed.

Lemma extends_getFiles v v' x : extends v v' -> In x (getFiles v) -> In x (getFiles v').
Proof.
  intros [[f Hf] _]. unfold getFiles. rewrite Hf, map_app. intros H.
  apply in_or_app. left. exact H.
Qed.

Lemma labelTaken_incl env lbl l1 l2 :
  (forall x, In x l1 -> In x l2) -> labelTaken env lbl l2 = false -> labelTaken env lbl l1 = false.
Proof.
  unfold labelTaken. intros Hincl H2.
  destruct (existsb _ l1) eqn:E; [| reflexivity].
  apply existsb_exists in E. destruct E as (x & Hx & Hlbl).
  assert (X : existsb (fun file => String.eqb (fileLabel env file) lbl) l2 = true)
    by (apply existsb_exists; eauto).
  congruence.
Qed.

Lemma labelTaken_intro env lbl listing file :
  In file listing -> fileLabel env file = lbl -> labelTaken env lbl listing = true.
Proof.
  intros Hin Hl. unfold labelTaken. apply existsb_exists. exists file.
  split; [exact Hin |]. rewrite Hl. apply String.eqb_refl.
Qed.

Lemma exists_at_hasFile v p : hasFile v p = true -> exists_at v p.
Proof. unfold exists_at, getAbstractFileByPath. intros ->. discriminate. Qed.

Lemma hasFile_In v p : hasFile v p = true <-> In p (getFiles v).
Proof.
  unfold hasFile, getFiles. rewrite existsb_exists, in_map_iff. split.
  - intros ([q c] & Hin & Heq). apply String.eqb_eq in Heq. simpl in Heq. subst q.
    exists (p, c). auto.
  - intros ([q c] & Heq & Hin). simpl in Heq. subst q. exists (p, c). split; [exact Hin |].
    apply String.eqb_refl.
Qed.

Ltac reported_tac :=
  simpl;
  repeat match goal with
         | |- _ /\ _ => split
         | |- True => exact I
         | |- _ = true -> _ =>
             let H := fresh in intro H; first [discriminate H | do 3 eexists; reflexivity]
         end.

(** Membership in a list that computes. *)
Ltac in_computed_list := vm_compute; repeat (first [left; reflexivity | right]).

Section PassFacts.

Variable settings : AutoJournalSettings.
Variable env : Env.
Variable templateContents : string.
Variable listing : list string.

Lemma justified_more cs cs' base ev :
  (forall c, In c cs -> In c cs') ->
  justified settings env templateContents listing cs base ev ->
  justified settings env templateContents listing cs' base ev.
Proof.
  intros Hincl. destruct ev; simpl; auto.
  - intros (c & Hc & H). exists c. auto.
  - intros (c & Hc & H). exists c. auto.
Qed.

(** One candidate handed to createNewFile, the error caught. *)
Lemma attempt_spec c base v :
  extends base v ->
  guard c = true -> labelTaken env (label c) listing = false ->
  wp (catch (createNewFile settings env (stamp c) (notePath c) templateContents listing)
            (reportError settings))
     (fun r v' l =>
        r = Ok tt /\ extends v v' /\ files v' = (files v ++ createdFiles l)%list
        /\ reported l
        /\ Forall (justified settings env templateContents listing [c] base) l
        /\ (guard c = true -> served settings env templateContents listing c v' l)) v.
Proof.
  intros Hbase Hg Hl.
  apply wp_catch. eapply wp_mono; [| apply createNewFile_spec].
  intros r v' l. unfold createNewFile_outcome.
  set (p := targetPath settings env (notePath c)).
  set (text := templateDate settings env (stamp c) templateContents).
  set (name := fileNameNoExtension env p).
  intros (lf & Hev & Hrep & Hd & Hmiss & Hfail & _ & Hrest).
  assert (Hjf : Forall (justified settings env templateContents listing [c] base) lf).
  { rewrite Forall_forall in *. intros ev Hin. specialize (Hev ev Hin).
    destruct ev; simpl in *; tauto. }
  assert (Hcf : createdFiles lf = []).
  { clear - Hev. induction lf as [| ev lf IH]; [reflexivity |].
    inversion Hev; subst. unfold createdFiles in *. simpl. rewrite IH by assumption.
    destruct ev; simpl in *; tauto. }
  assert (Hexp : forall ok,
    justified settings env templateContents listing [c] base (EvExpand text name ok)).
  { intros ok. exists c. simpl. auto 10. }
  assert (Hext : forall fs, files v' = (files v ++ fs)%list -> extends v v').
  { intros fs Hf. split; [exists fs; exact Hf | eexists; exact Hd]. }
  destruct (replaceNewFileVars env text name) as [content | msg] eqn:Heng.
  - destruct (labelTaken env (dayPartOf env p) listing) eqn:Hday.
    + destruct Hrest as (-> & -> & Hf).
      split; [reflexivity |].
      split; [apply (Hext []); rewrite app_nil_r; exact Hf |].
      split; [rewrite ?createdFiles_app, Hcf, Hf; simpl; rewrite ?app_nil_r; reflexivity |].
      split; [apply reported_app; [exact Hrep | reported_tac] |].
      split; [apply Forall_app; split; [exact Hjf | repeat constructor; apply Hexp] |].
      intros _ _ _. cbv zeta. fold p text name. split.
      * exists true. apply in_or_app. right. left. reflexivity.
      * intros X. congruence.
    + destruct Hrest as [(-> & -> & Hf & Hnone & Hrej) | (-> & -> & Hf & Hwhy)].
      * split; [reflexivity |].
        split; [apply (Hext [(p, content)]); exact Hf |].
        split; [rewrite ?createdFiles_app, Hcf, Hf; simpl; rewrite ?app_nil_r; reflexivity |].
        split; [apply reported_app; [exact Hrep | reported_tac] |].
        split.
        { apply Forall_app; split; [exact Hjf |]. constructor; [apply Hexp |].
          constructor; [| constructor].
          exists c. simpl. repeat split; auto.
          exists (mkVault (files v) (folders v')). split; [| exact Hnone].
          eapply extends_trans; [exact Hbase |].
          split; [exists []; simpl; rewrite app_nil_r; reflexivity | eexists; exact Hd]. }
        intros _ _ _. cbv zeta. fold p text name. split.
        -- exists true. apply in_or_app. right. left. reflexivity.
        -- intros _ content' _ _. apply exists_at_hasFile.
           unfold hasFile. rewrite Hf, existsb_app. simpl.
           rewrite String.eqb_refl. rewrite Bool.orb_true_r. reflexivity.
      * apply wp_emit.
        split; [reflexivity |].
        split; [apply (Hext []); rewrite app_nil_r; exact Hf |].
        split.
        { rewrite ?createdFiles_app, Hcf, Hf; simpl; rewrite ?app_nil_r; reflexivity. }
        split.
        { rewrite <- app_assoc. apply reported_app; [exact Hrep | reported_tac]. }
        split.
        { apply Forall_app; split; [| repeat constructor].
          apply Forall_app; split; [exact Hjf |]. constructor; [apply Hexp |].
          constructor; [| constructor].
          exists c. simpl. repeat split; auto; discriminate. }
        intros _ _ _. cbv zeta. fold p text name. split.
        -- exists true. apply in_or_app. left. apply in_or_app. right. left. reflexivity.
        -- intros _ content' _ Hrej. destruct Hwhy as [Hthere | Hrej']; [| congruence].
           revert Hthere. apply exists_at_files; simpl; auto.
           intros x Hx. rewrite Hf. exact Hx.
  - destruct Hrest as (-> & -> & Hf). apply wp_emit.
    split; [reflexivity |].
    split; [apply (Hext []); rewrite app_nil_r; exact Hf |].
    split; [rewrite ?createdFiles_app, Hcf, Hf; simpl; rewrite ?app_nil_r; reflexivity |].
    split.
    { rewrite <- app_assoc. apply reported_app; [exact Hrep | reported_tac]. }
    split.
    { apply Forall_app; split; [| repeat constructor].
      apply Forall_app; split; [exact Hjf | repeat constructor; apply Hexp]. }
    intros _ _ _. cbv zeta. fold p text name. split.
    + exists false. apply in_or_app. left. apply in_or_app. right. left. reflexivity.
    + intros _ content' X. fold name in X. congruence.
Qed.

End PassFacts.

Lemma forEach_ext {A} (l : list A) (f g : A -> M unit) :
  (forall x v, In x l -> f x v = g x v) -> forall v, forEach l f v = forEach l g v.
Proof.
  induction l as [| x rest IH]; intros H v; [reflexivity |].
  simpl. unfold bind. rewrite (H x v (or_introl eq_refl)).
  destruct (g x v) as [[[[] | msg] v1] l1]; [| reflexivity].
  rewrite IH; [reflexivity |]. intros y w Hy. apply H. right. exact Hy.
Qed.

Lemma forEach_map {A B} (h : A -> B) (l : list A) (f : B -> M unit) :
  forall v, forEach (map h l) f v = forEach l (fun x => f (h x)) v.
Proof.
  induction l as [| x rest IH]; intros v; [reflexivity |].
  simpl. unfold bind. destruct (f (h x) v) as [[[[] | msg] v1] l1]; [| reflexivity].
  rewrite IH. reflexivity.
Qed.

Section PassSpec.

Variable settings : AutoJournalSettings.
Variable env : Env.
Variable templateContents : string.

Lemma served_later listing c v1 v2 l1 l2 :
  extends v1 v2 ->
  served settings env templateContents listing c v1 l1 ->
  served settings env templateContents listing c v2 (l1 ++ l2).
Proof.
  intros Hext H Hg Hl. destruct (H Hg Hl) as [[ok Hin] Hthere]. cbv zeta. split.
  - exists ok. apply in_or_app. left. exact Hin.
  - intros Hday content Heng Hrej. eapply extends_exists_at; [exact Hext |]. eauto.
Qed.

Lemma served_earlier listing c v l1 l2 :
  served settings env templateContents listing c v l2 ->
  served settings env templateContents listing c v (l1 ++ l2).
Proof.
  intros H Hg Hl. destruct (H Hg Hl) as [[ok Hin] Hthere]. cbv zeta. split.
  - exists ok. apply in_or_app. right. exact Hin.
  - exact Hthere.
Qed.

Lemma served_listing listing listing' c v l :
  (forall x, In x listing -> In x listing') ->
  served settings env templateContents listing c v l ->
  served settings env templateContents listing' c v l.
Proof.
  intros Hincl H Hg Hl.
  destruct (H Hg (labelTaken_incl _ _ _ _ Hincl Hl)) as [Hexp Hthere]. cbv zeta. split.
  - exact Hexp.
  - intros Hday. apply Hthere. exact (labelTaken_incl _ _ _ _ Hincl Hday).
Qed.

(** What a pass does: it does not throw, the vault only grows, by the
    files its trace creates; every failure is reported; every event is
    justified by a candidate; and every candidate is served. *)
Lemma pass_spec listing cs :
  forall base v,
    extends base v ->
    wp (pass settings env templateContents listing cs)
       (fun r v' l =>
          r = Ok tt /\ extends v v' /\ files v' = (files v ++ createdFiles l)%list
          /\ reported l
          /\ Forall (justified settings env templateContents listing cs base) l
          /\ (forall c, In c cs -> served settings env templateContents listing c v' l)) v.
Proof.
  unfold pass. induction cs as [| c rest IH]; intros base v Hbase.
  - apply wp_ret. simpl. rewrite app_nil_r.
    split; [reflexivity |]. split; [apply extends_refl |]. split; [reflexivity |].
    split; [exact I |]. split; [constructor |]. intros c0 [].
  - cbn [forEach]. apply wp_bind.
    assert (Hstep :
      wp (if (guard c && negb (labelTaken env (label c) listing))%bool
          then catch (createNewFile settings env (stamp c) (notePath c) templateContents listing)
                     (reportError settings)
          else ret tt)
         (fun r v' l =>
            r = Ok tt /\ extends v v' /\ files v' = (files v ++ createdFiles l)%list
            /\ reported l
            /\ Forall (justified settings env templateContents listing [c] base) l
            /\ served settings env templateContents listing c v' l) v).
    { destruct (guard c) eqn:Hg; simpl.
      - destruct (labelTaken env (label c) listing) eqn:Hl; simpl.
        + apply wp_ret. simpl. rewrite app_nil_r.
          split; [reflexivity |]. split; [apply extends_refl |]. split; [reflexivity |].
          split; [exact I |]. split; [constructor |]. intros _ X. congruence.
        + eapply wp_mono; [| apply (attempt_spec settings env templateContents listing c base v); auto].
          intros r v' l (H1 & H2 & H3 & H4 & H5 & H6). auto 10.
      - apply wp_ret. simpl. rewrite app_nil_r.
        split; [reflexivity |]. split; [apply extends_refl |]. split; [reflexivity |].
        split; [exact I |]. split; [constructor |]. intros X. congruence. }
    eapply wp_mono; [| exact Hstep]. clear Hstep.
    intros r v1 l1 (-> & Hext1 & Hf1 & Hrep1 & Hj1 & Hs1).
    eapply wp_mono; [| apply (IH base v1); eapply extends_trans; eauto].
    intros r v2 l2 (-> & Hext2 & Hf2 & Hrep2 & Hj2 & Hs2).
    split; [reflexivity |].
    split; [eapply extends_trans; eauto |].
    split; [rewrite Hf2, Hf1, createdFiles_app, app_assoc; reflexivity |].
    split; [apply reported_app; assumption |].
    split.
    { apply Forall_app. split.
      - eapply Forall_impl; [| exact Hj1]. intros ev. apply justified_more.
        intros x [<- | []]. left. reflexivity.
      - eapply Forall_impl; [| exact Hj2]. intros ev. apply justified_more.
        intros x Hx. right. exact Hx. }
    intros c' [<- | Hc'].
    + eapply served_later; eauto.
    + apply served_earlier. auto.
Qed.

End PassSpec.

(** ** The loops of createDailyNote and createMonthlyNote are passes *)

Section LoopFacts.

Variable settings : AutoJournalSettings.
Variable env : Env.

Lemma bind_vaultGetFiles {B} (k : list string -> M B) v :
  bind vaultGetFiles k v = k (getFiles v) v.
Proof.
  unfold bind, vaultGetFiles. destruct (k (getFiles v) v) as [[r v2] l2]. reflexivity.
Qed.

Lemma dailyDay_candidate templateContents m listing day v :
  dailyDay settings env templateContents (yearLabel settings env) m
    (monthLabel settings env (dateOfMonth env (yearLabel settings env) m)) listing day v
  = (let c := dailyCandidate settings env m day in
     if (guard c && negb (labelTaken env (label c) listing))%bool
     then catch (createNewFile settings env (stamp c) (notePath c) templateContents listing)
                (reportError settings)
     else ret tt) v.
Proof.
  unfold dailyDay, dailyCandidate, dailyDayGuard, dayLabel, labelTaken, dayDate, monthLabel.
  cbn [guard label stamp notePath]. cbv zeta.
  destruct (String.eqb _ (format env (now env) (monthFormat settings)));
    destruct (JS.num_gt _ _); destruct (existsb _ listing);
    destruct (BackFillOptions_eqb _ NONE); destruct (JS.num_lt _ _); reflexivity.
Qed.

Lemma dailyMonth_pass templateContents m v :
  dailyMonth settings env templateContents (yearLabel settings env) m v
  = (if dailyMonthGuard settings env m
     then pass settings env templateContents (dailyListing settings env m v)
            (dailyCandidates settings env m)
     else ret tt) v.
Proof.
  unfold dailyMonth, dailyMonthGuard, monthLabel.
  destruct (JS.num_lt (Calendar.month (now env)) (Some m)); cbn [negb andb]; [reflexivity |].
  destruct ((BackFillOptions_eqb (dailyNotesBackfill settings) MONTH
             || BackFillOptions_eqb (dailyNotesBackfill settings) NONE)
            && negb _)%bool; cbn [negb]; [reflexivity |].
  rewrite bind_vaultGetFiles.
  unfold pass, dailyCandidates, monthDays, dailyListing, monthsFolder.
  destruct (Calendar.daysInMonth _) as [n |]; [| reflexivity].
  rewrite forEach_map. apply forEach_ext. intros day w _.
  apply dailyDay_candidate.
Qed.

Lemma monthlyMonth_candidate templateContents listing m v :
  monthlyMonth settings env templateContents (yearLabel settings env) listing m v
  = (let c := monthlyCandidate settings env m in
     if (guard c && negb (labelTaken env (label c) listing))%bool
     then catch (createNewFile settings env (stamp c) (notePath c) templateContents listing)
                (reportError settings)
     else ret tt) v.
Proof.
  unfold monthlyMonth, monthlyCandidate, monthlyGuard, labelTaken, monthDate, monthLabel.
  cbn [guard label stamp notePath]. cbv zeta.
  destruct (JS.num_lt (Calendar.month (now env)) (Some m));
    destruct (BackFillOptions_eqb _ YEAR); destruct (String.eqb _ (format env (now env) _));
    destruct (existsb _ listing); destruct (JS.num_lt (Calendar.date (now env)) _);
    destruct (JS.num_seq _ _); reflexivity.
Qed.

Lemma monthlyLoop_pass templateContents listing v :
  forEach (range 0 11) (monthlyMonth settings env templateContents (yearLabel settings env) listing) v
  = pass settings env templateContents listing (monthlyCandidates settings env) v.
Proof.
  unfold pass, monthlyCandidates. rewrite forEach_map. apply forEach_ext.
  intros m w _. apply monthlyMonth_candidate.
Qed.

Lemma dailyListing_extends m v v' x :
  extends v v' -> In x (dailyListing settings env m v) -> In x (dailyListing settings env m v').
Proof.
  unfold dailyListing. intros Hext H. apply filter_In in H. destruct H as [H1 H2].
  apply filter_In. split; [eapply extends_getFiles; eauto | exact H2].
Qed.

Lemma monthlyListing_extends v v' x :
  extends v v' -> In x (monthlyListing settings env v) -> In x (monthlyListing settings env v').
Proof.
  unfold monthlyListing. intros Hext H. apply filter_In in H. destruct H as [H1 H2].
  apply filter_In. split; [eapply extends_getFiles; eauto | exact H2].
Qed.

Lemma dailyJustified_more templateContents ms ms' base ev :
  (forall m, In m ms -> In m ms') ->
  dailyJustified settings env templateContents ms base ev ->
  dailyJustified settings env templateContents ms' base ev.
Proof. intros Hincl (m & vm & Hm & H). exists m, vm. auto. Qed.

(** The loop over the months of createDailyNote. *)
Lemma dailyLoop_spec templateContents ms :
  forall base v,
    extends base v ->
    wp (forEach ms (dailyMonth settings env templateContents (yearLabel settings env)))
       (fun r v' l =>
          r = Ok tt /\ extends v v' /\ files v' = (files v ++ createdFiles l)%list
          /\ reported l
          /\ Forall (dailyJustified settings env templateContents ms base) l
          /\ (forall m c, In m ms -> dailyMonthGuard settings env m = true ->
                In c (dailyCandidates settings env m) ->
                served settings env templateContents (dailyListing settings env m v') c v' l)) v.
Proof.
  induction ms as [| m rest IH]; intros base v Hbase.
  - apply wp_ret. simpl. rewrite app_nil_r.
    split; [reflexivity |]. split; [apply extends_refl |]. split; [reflexivity |].
    split; [exact I |]. split; [constructor |]. intros m c [].
  - cbn [forEach]. apply wp_bind.
    eapply wp_ext; [apply dailyMonth_pass |].
    assert (Hstep :
      wp (if dailyMonthGuard settings env m
          then pass settings env templateContents (dailyListing settings env m v)
                 (dailyCandidates settings env m)
          else ret tt)
         (fun r v' l =>
            r = Ok tt /\ extends v v' /\ files v' = (files v ++ createdFiles l)%list
            /\ reported l
            /\ Forall (dailyJustified settings env templateContents [m] base) l
            /\ (forall c, dailyMonthGuard settings env m = true ->
                  In c (dailyCandidates settings env m) ->
                  served settings env templateContents (dailyListing settings env m v) c v' l)) v).
    { destruct (dailyMonthGuard settings env m) eqn:Hg.
      - eapply wp_mono; [| apply (pass_spec settings env templateContents _ _ v v (extends_refl v))].
        intros r v' l (H1 & H2 & H3 & H4 & H5 & H6).
        split; [exact H1 |]. split; [exact H2 |]. split; [exact H3 |]. split; [exact H4 |].
        split; [| intros c _; apply H6].
        eapply Forall_impl; [| exact H5]. intros ev Hev.
        exists m, v. split; [left; reflexivity |]. auto.
      - apply wp_ret. simpl. rewrite app_nil_r.
        split; [reflexivity |]. split; [apply extends_refl |]. split; [reflexivity |].
        split; [exact I |]. split; [constructor |]. intros c X. congruence. }
    eapply wp_mono; [| exact Hstep]. clear Hstep.
    intros r v1 l1 (-> & Hext1 & Hf1 & Hrep1 & Hj1 & Hs1).
    eapply wp_mono; [| apply (IH base v1); eapply extends_trans; eauto].
    intros r v2 l2 (-> & Hext2 & Hf2 & Hrep2 & Hj2 & Hs2).
    split; [reflexivity |].
    split; [eapply extends_trans; eauto |].
    split; [rewrite Hf2, Hf1, createdFiles_app, app_assoc; reflexivity |].
    split; [apply reported_app; assumption |].
    split.
    { apply Forall_app. split.
      - eapply Forall_impl; [| exact Hj1]. intros ev. apply dailyJustified_more.
        intros x [<- | []]. left. reflexivity.
      - eapply Forall_impl; [| exact Hj2]. intros ev. apply dailyJustified_more.
        intros x Hx. right. exact Hx. }
    intros m' c [<- | Hm'] Hg Hc.
    + eapply served_listing; [| eapply served_later; [exact Hext2 | exact (Hs1 c Hg Hc)]].
      intros x. apply dailyListing_extends. eapply extends_trans; eauto.
    + apply served_earlier. auto.
Qed.

(** getNoteTemplateContents reads the vault and leaves it as it is. *)
Lemma getNoteTemplateContents_spec type v :
  wp (getNoteTemplateContents settings env type)
     (fun r v' l => v' = v /\ template_outcome settings env type v r l) v.
Proof.
  unfold getNoteTemplateContents, template_outcome.
  set (templatePath := templatePathOf settings type).
  destruct templatePath as [| a rest] eqn:E; cbn [JS.truthyString].
  - apply wp_ret. split; [reflexivity |]. left. auto.
  - rewrite <- E.
    assert (Hne : templatePath <> EmptyString) by (rewrite E; discriminate).
    apply wp_bind. apply wp_vaultLookup.
    destruct (getAbstractFileByPath v (templatePath ++ ".md")) as [[p | d] |] eqn:L.
    + assert (p = templatePath ++ ".md") as ->.
      { unfold getAbstractFileByPath in L.
        destruct (hasFile v _); [congruence |]. destruct (hasFolder v _); congruence. }
      apply wp_bind. apply wp_vaultRead.
      * intros c Hrej Hc. apply wp_ret. split; [reflexivity |]. right. auto 10.
      * intros Hwhy. split; [reflexivity |]. auto 10.
    + apply wp_bind. apply wp_emit. apply wp_ret. split; [reflexivity |].
      split; [exact Hne |]. right. exists d. auto.
    + apply wp_bind. apply wp_emit. apply wp_ret. split; [reflexivity |].
      split; [exact Hne |]. left. auto.
Qed.

End LoopFacts.

(** ** createDailyNote, createMonthlyNote and run *)

Section NoteFacts.

Variable settings : AutoJournalSettings.
Variable env : Env.

Lemma wp_itself {A} (m : M A) v :
  wp m (fun r v' l => r = resultOf (m v) /\ v' = vaultOf (m v) /\ l = eventsOf (m v)) v.
Proof. apply wp_intro. auto. Qed.

Lemma createDailyNote_spec v :
  wp (createDailyNote settings env) (daily_outcome settings env v) v.
Proof.
  unfold createDailyNote, daily_outcome. apply wp_bind.
  eapply wp_mono; [| apply (wp_and _ _ _ _ (getNoteTemplateContents_spec settings env Daily v)
                                         (wp_itself (getNoteTemplateContents settings env Daily) v))].
  cbv beta. intros r v1 lt [[-> Hout] (Hr & _ & _)]. rewrite <- Hr.
  destruct r as [[templateContents |] | msg].
  - eapply wp_mono; [| apply (dailyLoop_spec settings env templateContents (range 0 11) v v
                               (extends_refl v))].
    intros r v' l1 (-> & H). exists lt. split; [exact Hout |]. exists l1. tauto.
  - apply wp_ret. exists lt. rewrite app_nil_r. auto.
  - exists lt. auto.
Qed.

Lemma createMonthlyNote_spec v :
  wp (createMonthlyNote settings env) (monthly_outcome settings env v) v.
Proof.
  unfold createMonthlyNote, monthly_outcome. apply wp_bind.
  eapply wp_mono; [| apply (wp_and _ _ _ _ (getNoteTemplateContents_spec settings env Monthly v)
                                         (wp_itself (getNoteTemplateContents settings env Monthly) v))].
  cbv beta. intros r v1 lt [[-> Hout] (Hr & _ & _)]. rewrite <- Hr.
  destruct r as [[templateContents |] | msg].
  - cbv zeta. eapply wp_ext; [apply bind_vaultGetFiles |].
    eapply wp_ext; [apply monthlyLoop_pass |].
    eapply wp_mono; [| apply (pass_spec settings env templateContents _ _ v v (extends_refl v))].
    intros r v' l1 (-> & H). exists lt. split; [exact Hout |]. exists l1.
    unfold monthlyListing, monthlyFolder. tauto.
  - apply wp_ret. exists lt. rewrite app_nil_r. auto.
  - exists lt. auto.
Qed.

(** With no template path, createDailyNote is its loop over the months,
    run with the empty template. *)
Lemma createDailyNote_without_template v :
  dailyNotesTemplateFile settings = EmptyString ->
  createDailyNote settings env v
  = forEach (range 0 11) (dailyMonth settings env EmptyString (yearLabel settings env)) v.
Proof.
  intros Hpath. unfold createDailyNote, bind, getNoteTemplateContents, templatePathOf.
  rewrite Hpath. cbn [JS.truthyString ret]. unfold yearLabel.
  destruct (forEach (range 0 11) _ v) as [[r v'] l]. reflexivity.
Qed.

(** [run] is the daily branch, then the monthly branch from the vault the
    daily branch left; a branch that throws is reported; [run] does not
    throw. *)
Lemma run_decompose v :
  let od := createDailyNote settings env v in
  let v1 := if dailyNotesEnabled settings then vaultOf od else v in
  let om := createMonthlyNote settings env v1 in
  resultOf (run settings env v) = Ok tt
  /\ vaultOf (run settings env v) = (if monthlyNotesEnabled settings then vaultOf om else v1)
  /\ eventsOf (run settings env v)
     = ((if dailyNotesEnabled settings
         then eventsOf od ++ branchReport settings (resultOf od) else [])
        ++ (if monthlyNotesEnabled settings
            then eventsOf om ++ branchReport settings (resultOf om) else []))%list.
Proof.
  unfold run, bind, catch, reportError, errorNotification, emit, ret, branchReport,
    resultOf, vaultOf, eventsOf.
  destruct (dailyNotesEnabled settings), (monthlyNotesEnabled settings); simpl.
  - destruct (createDailyNote settings env v) as [[[[] | msg] v1] l1]; simpl;
      destruct (createMonthlyNote settings env v1) as [[[[] | msg2] v2] l2]; simpl;
      rewrite ?app_nil_r; auto.
  - destruct (createDailyNote settings env v) as [[[[] | msg] v1] l1]; simpl;
      rewrite ?app_nil_r; auto.
  - destruct (createMonthlyNote settings env v) as [[[[] | msg2] v2] l2]; simpl;
      rewrite ?app_nil_r; auto.
  - auto.
Qed.

End NoteFacts.

(** ** Numbers *)

Lemma In_range lo hi x : In x (range lo hi) <-> lo <= x <= hi.
Proof.
  unfold range. rewrite in_map_iff. split.
  - intros (k & <- & Hk). apply in_seq in Hk. lia.
  - intros H. exists (Z.to_nat (x - lo)). split; [lia |]. apply in_seq. lia.
Qed.

Lemma num_lt_false a b : JS.num_lt (Some a) (Some b) = false <-> b <= a.
Proof. simpl. rewrite Z.ltb_ge. tauto. Qed.

Lemma In_createdFiles p c l : In (p, c) (createdFiles l) <-> In (EvCreate p c true) l.
Proof.
  unfold createdFiles. rewrite in_flat_map. split.
  - intros (ev & Hin & Hc). destruct ev as [| | | | | q d []]; simpl in Hc; try tauto.
    destruct Hc as [Hc | []]. injection Hc as -> ->. exact Hin.
  - intros H. exists (EvCreate p c true). split; [exact H | left; reflexivity].
Qed.

(** ** What the guards mean *)

Section GuardFacts.

Variable settings : AutoJournalSettings.
Variable env : Env.






Lemma monthlyGuard_month m :
  monthlyGuard settings env m = true ->
  m <= i_month (clock env)
  /\ (m = i_month (clock env) -> monthlyNotesDayOfMonth settings <= i_date (clock env)).
Proof.
  unfold monthlyGuard. intros H.
  apply andb_prop in H. destruct H as [H H3]. apply andb_prop in H. destruct H as [H1 _].
  apply negb_true_iff in H1. apply (num_lt_false (i_month (clock env)) m) in H1.
  split; [exact H1 |]. intros ->.
  apply negb_true_iff in H3. simpl in H3. rewrite Z.eqb_refl, Bool.andb_true_r in H3.
  apply Z.ltb_ge in H3. exact H3.
Qed.

Lemma monthlyGuard_label m :
  monthlyGuard settings env m = true ->
  monthlyNotesBackfill settings <> YEAR ->
  monthLabel settings env (monthDate settings env m) = monthLabel settings env (now env).
Proof.
  unfold monthlyGuard. intros H Hp.
  apply andb_prop in H. destruct H as [H _]. apply andb_prop in H. destruct H as [_ H].
  apply negb_true_iff in H. apply String.eqb_eq.
  destruct (monthlyNotesBackfill settings); simpl in H; try congruence;
    apply negb_false_iff in H; exact H.
Qed.

(** A note that createDailyNote creates comes from a day that passed the
    guards of its month and its own. *)
Lemma daily_creation v p c :
  In (p, c) (files (vaultOf (createDailyNote settings env v))) ->
  In (p, c) (files v)
  \/ exists m day,
       0 <= m <= 11 /\ dailyMonthGuard settings env m = true
       /\ dailyDayGuard settings env m day = true
       /\ p = dailyPath settings env m day.
Proof.
  intros Hin.
  pose proof (wp_elim _ _ _ (createDailyNote_spec settings env v)) as H.
  destruct H as (lt & _ & H).
  destruct (resultOf (getNoteTemplateContents settings env Daily v)) as [[tpl |] | msg].
  - destruct H as (l1 & _ & _ & _ & Hf & _ & Hj & _).
    rewrite Hf in Hin. apply in_app_or in Hin. destruct Hin as [Hin | Hin]; [left; exact Hin |].
    right. apply In_createdFiles in Hin.
    rewrite Forall_forall in Hj. destruct (Hj _ Hin) as (m & vm & Hm & Hg & _ & Hev).
    destruct Hev as (cand & Hc & Hgc & _ & Hp & _).
    unfold dailyCandidates in Hc. apply in_map_iff in Hc. destruct Hc as (day & <- & Hday).
    exists m, day. apply In_range in Hm. auto.
  - destruct H as (_ & Hv & _). rewrite Hv in Hin. left. exact Hin.
  - destruct H as (_ & Hv & _). rewrite Hv in Hin. left. exact Hin.
Qed.

(** A note that createMonthlyNote creates comes from a month that passed
    its guards. *)
Lemma monthly_creation v p c :
  In (p, c) (files (vaultOf (createMonthlyNote settings env v))) ->
  In (p, c) (files v)
  \/ exists m, 0 <= m <= 11 /\ monthlyGuard settings env m = true /\ p = monthlyPath settings env m.
Proof.
  intros Hin.
  pose proof (wp_elim _ _ _ (createMonthlyNote_spec settings env v)) as H.
  destruct H as (lt & _ & H).
  destruct (resultOf (getNoteTemplateContents settings env Monthly v)) as [[tpl |] | msg].
  - destruct H as (l1 & _ & _ & _ & Hf & _ & Hj & _).
    rewrite Hf in Hin. apply in_app_or in Hin. destruct Hin as [Hin | Hin]; [left; exact Hin |].
    right. apply In_createdFiles in Hin.
    rewrite Forall_forall in Hj. destruct (Hj _ Hin) as (cand & Hc & Hgc & _ & Hp & _).
    unfold monthlyCandidates in Hc. apply in_map_iff in Hc. destruct Hc as (m & <- & Hm).
    exists m. apply In_range in Hm. auto.
  - destruct H as (_ & Hv & _). rewrite Hv in Hin. left. exact Hin.
  - destruct H as (_ & Hv & _). rewrite Hv in Hin. left. exact Hin.
Qed.

(** A note that [run] creates is created by one of its two branches. *)
Lemma run_creation v p c :
  In (p, c) (files (vaultOf (run settings env v))) ->
  In (p, c) (files v)
  \/ (exists m day,
        0 <= m <= 11 /\ dailyMonthGuard settings env m = true
        /\ dailyDayGuard settings env m day = true /\ p = dailyPath settings env m day)
  \/ (exists m, 0 <= m <= 11 /\ monthlyGuard settings env m = true /\ p = monthlyPath settings env m).
Proof.
  destruct (run_decompose settings env v) as (_ & Hv & _). rewrite Hv. clear Hv.
  intros Hin.
  assert (Hd : let v1 := if dailyNotesEnabled settings
                         then vaultOf (createDailyNote settings env v) else v in
               In (p, c) (files v1) ->
               In (p, c) (files v)
               \/ exists m day,
                    0 <= m <= 11 /\ dailyMonthGuard settings env m = true
                    /\ dailyDayGuard settings env m day = true /\ p = dailyPath settings env m day).
  { destruct (dailyNotesEnabled settings); cbv zeta; [apply daily_creation | auto]. }
  destruct (monthlyNotesEnabled settings).
  - apply monthly_creation in Hin. destruct Hin as [Hin | Hin]; [| auto].
    destruct (Hd Hin); auto.
  - destruct (Hd Hin); auto.
Qed.



End GuardFacts.

(** ** The order of the calendar *)

(** When the month format gives the first day of the current month the
    label it gives today, [notAfterToday] is the order of the calendar. *)
Lemma notAfterToday_calendar settings env m day :
  currentMonthRecognised settings env ->
  notAfterToday settings env m day ->
  m < i_month (clock env)
  \/ (m = i_month (clock env)
      /\ forall d, Calendar.date (dayDate settings env m day) = Some d -> d <= i_date (clock env)).
Proof.
  unfold currentMonthRecognised. intros Hrec [Hm Hd].
  destruct (Z.eq_dec m (i_month (clock env))) as [-> | Hne]; [right | left; lia].
  split; [reflexivity |]. apply Hd. exact Hrec.
Qed.


(** The cascade when the vault rejects the folder of the year: the
    failure is reported, the folder of the month is still tried, and the
    note is still written. *)
Example cascade_goes_on_after_a_failure :
  let bad := fun op => match op with
                       | OpCreateFolder p => String.eqb p "/Journal/2024"
                       | _ => false
                       end in
  let s := Std.settings NONE NONE in
  let e := Scenario.rejecting bad Std.mid_march_2024 in
  createNewFile s e (At Std.mid_march_2024) "2024/03/15 - Friday" EmptyString [] Std.emptyVault
  = (Ok "Journal/2024/03/15 - Friday.md",
     mkVault [("Journal/2024/03/15 - Friday.md", EmptyString)] ["/Journal"; "/Journal/2024/03"],
     [EvCreateFolder "/Journal" true;
      EvCreateFolder "/Journal/2024" false;
      EvError "Error creating folder, /Journal/2024 for Journal/2024/03/15 - Friday.md" false;
      EvCreateFolder "/Journal/2024/03" true;
      EvExpand EmptyString "15 - Friday" true;
      EvCreate "Journal/2024/03/15 - Friday.md" EmptyString true]).
Proof. vm_compute. reflexivity. Qed.


Example date_is_in_place_before_the_engine :
  let s := Std.settings NONE NONE in
  let e := Std.env Std.mid_march_2024 in
  eventsOf (createNewFile s e (At Std.mid_march_2024) "2024/03/15 - Friday"
              "Today is {{date}}, {{title}}." [] (mkVault [] ["Journal/2024/03"]))
  = [EvExpand "Today is 2024-03-15, {{title}}." "15 - Friday" true;
     EvCreate "Journal/2024/03/15 - Friday.md" "Today is 2024-03-15, {{title}}." true].
Proof. vm_compute. reflexivity. Qed.

(** ** Loops that skip *)



Lemma Subsequence_In {A} (l1 l2 : list A) x : Subsequence l1 l2 -> In x l1 -> In x l2.
Proof.
  induction 1; intros Hin.
  - destruct Hin.
  - destruct Hin as [<- | Hin]; [left; reflexivity | right; auto].
  - right. auto.
Qed.


(** ** 2024-03-15 under the policy NONE *)

Section MidMarchUnderNone.

Variable monthlyBackfill : BackFillOptions.

Local Abbreviation s := (Std.settings NONE monthlyBackfill).
Local Abbreviation e := (Std.env Std.mid_march_2024).
Local Abbreviation today := (At (mkInstant 2024 2 15 0 0)).



End MidMarchUnderNone.

(** ** C3, C4 and C5: the backfill policies *)

(** C4.  Under the daily policy YEAR, on 2024-03-15, with the settings of
    the scenarios and nothing in the vault, createDailyNote creates 75
    notes: one for each day of January (31), of February (29) and of March
    up to the 15th, in that order, and none under the folders of April to
    December. *)
Theorem year_backfills_up_to_today monthlyBackfill :
  let o := createDailyNote (Std.settings YEAR monthlyBackfill) (Std.env Std.mid_march_2024)
             Std.emptyVault in
  getFiles (vaultOf o) = Scenario.upToMidMarch
  /\ List.length (files (vaultOf o)) = 75%nat
  /\ List.length (Scenario.dailyNotes 2024 0 (range 1 31)) = 31%nat
  /\ List.length (Scenario.dailyNotes 2024 1 (range 1 29)) = 29%nat
  /\ List.length (Scenario.dailyNotes 2024 2 (range 1 15)) = 15%nat
  /\ forallb Scenario.inFirstQuarter (getFiles (vaultOf o)) = true.
Proof. vm_compute. repeat split; reflexivity. Qed.

(** The reading of C5 as it is written fails: under YEAR, on 2024-03-15,
    createMonthlyNote creates the note of January. *)
Lemma year_does_not_limit_monthly_to_current_month :
  ~ Scenario.year_limits_monthly_to_current_month.
Proof.
  intros H.
  specialize (H (Std.settings NONE YEAR) (Std.env Std.mid_march_2024) Std.emptyVault
                "Journal/2024/Monthly/01 -.md" EmptyString eq_refl).
  assert (Hin : In ("Journal/2024/Monthly/01 -.md", EmptyString)
                  (files (vaultOf (createMonthlyNote (Std.settings NONE YEAR)
                                     (Std.env Std.mid_march_2024) Std.emptyVault)))).
  { vm_compute. left. reflexivity. }
  destruct (H Hin) as [[] | Heq].
  vm_compute in Heq. discriminate Heq.
Qed.

(** ** The events of createDailyNote *)

Section DailyEvents.

Variable settings : AutoJournalSettings.
Variable env : Env.

Lemma template_outcome_events type v r lt ev :
  template_outcome settings env type v r lt -> In ev lt ->
  match ev with
  | EvNotice _ | EvRead _ _ => True
  | _ => False
  end.
Proof.
  unfold template_outcome. intros H Hin.
  destruct r as [[tpl |] | msg].
  - destruct H as [(_ & _ & ->) | (_ & _ & _ & _ & ->)]; [destruct Hin |].
    destruct Hin as [<- | []]. exact I.
  - destruct H as (_ & [(_ & ->) | (d & _ & ->)]); destruct Hin as [<- | []]; exact I.
  - destruct H as (_ & _ & _ & _ & ->). destruct Hin as [<- | []]. exact I.
Qed.

(** An event of createDailyNote that is a call of the engine or of
    [vault.create] is justified by a day of one of the twelve months. *)
Lemma daily_call v ev :
  In ev (eventsOf (createDailyNote settings env v)) ->
  match ev with
  | EvExpand _ _ _ | EvCreate _ _ _ =>
      exists templateContents,
        resultOf (getNoteTemplateContents settings env Daily v) = Ok (Some templateContents)
        /\ dailyJustified settings env templateContents (range 0 11) v ev
  | _ => True
  end.
Proof.
  intros Hin.
  pose proof (wp_elim _ _ _ (createDailyNote_spec settings env v)) as H.
  destruct H as (lt & Hlt & H).
  pose proof (template_outcome_events Daily v _ lt ev Hlt) as Htpl.
  destruct (resultOf (getNoteTemplateContents settings env Daily v)) as [[tpl |] | msg].
  - destruct H as (l1 & _ & Hl & _ & _ & _ & Hj & _).
    rewrite Hl in Hin. apply in_app_or in Hin. destruct Hin as [Hin | Hin].
    + specialize (Htpl Hin). destruct ev; tauto.
    + rewrite Forall_forall in Hj. specialize (Hj _ Hin).
      destruct ev; try exact I; exists tpl; auto.
  - destruct H as (_ & _ & Hl). rewrite Hl in Hin. specialize (Htpl Hin). destruct ev; tauto.
  - destruct H as (_ & _ & Hl). rewrite Hl in Hin. specialize (Htpl Hin). destruct ev; tauto.
Qed.

Lemma monthly_call v ev :
  In ev (eventsOf (createMonthlyNote settings env v)) ->
  match ev with
  | EvExpand _ _ _ | EvCreate _ _ _ =>
      exists templateContents,
        resultOf (getNoteTemplateContents settings env Monthly v) = Ok (Some templateContents)
        /\ justified settings env templateContents (monthlyListing settings env v)
             (monthlyCandidates settings env) v ev
  | _ => True
  end.
Proof.
  intros Hin.
  pose proof (wp_elim _ _ _ (createMonthlyNote_spec settings env v)) as H.
  destruct H as (lt & Hlt & H).
  pose proof (template_outcome_events Monthly v _ lt ev Hlt) as Htpl.
  destruct (resultOf (getNoteTemplateContents settings env Monthly v)) as [[tpl |] | msg].
  - destruct H as (l1 & _ & Hl & _ & _ & _ & Hj & _).
    rewrite Hl in Hin. apply in_app_or in Hin. destruct Hin as [Hin | Hin].
    + specialize (Htpl Hin). destruct ev; tauto.
    + rewrite Forall_forall in Hj. specialize (Hj _ Hin).
      destruct ev; try exact I; exists tpl; auto.
  - destruct H as (_ & _ & Hl). rewrite Hl in Hin. specialize (Htpl Hin). destruct ev; tauto.
  - destruct H as (_ & _ & Hl). rewrite Hl in Hin. specialize (Htpl Hin). destruct ev; tauto.
Qed.

(** The call of the engine and the call of [vault.create] for a day:
    the name and the path are those of the day's own date, the template
    receives the stamp. *)
Lemma daily_expand_call v text name ok :
  In (EvExpand text name ok) (eventsOf (createDailyNote settings env v)) ->
  exists templateContents m day,
    resultOf (getNoteTemplateContents settings env Daily v) = Ok (Some templateContents)
    /\ name = fileNameNoExtension env (dailyPath settings env m day)
    /\ text = templateDate settings env
                (dailyCreateFileDate settings env (dayDate settings env m day)) templateContents.
Proof.
  intros Hin. destruct (daily_call v _ Hin) as (tpl & Htpl & Hj).
  destruct Hj as (m & vm & _ & _ & _ & (cand & Hc & _ & _ & -> & ->)).
  unfold dailyCandidates in Hc. apply in_map_iff in Hc. destruct Hc as (day & <- & _).
  exists tpl, m, day. auto.
Qed.

Lemma daily_create_call v p content ok :
  In (EvCreate p content ok) (eventsOf (createDailyNote settings env v)) ->
  exists templateContents m day,
    resultOf (getNoteTemplateContents settings env Daily v) = Ok (Some templateContents)
    /\ p = dailyPath settings env m day
    /\ replaceNewFileVars env
         (templateDate settings env
            (dailyCreateFileDate settings env (dayDate settings env m day)) templateContents)
         (fileNameNoExtension env p) = Ok content.
Proof.
  intros Hin. destruct (daily_call v _ Hin) as (tpl & Htpl & Hj).
  destruct Hj as (m & vm & _ & _ & _ & (cand & Hc & _ & _ & -> & _ & Heng & _)).
  unfold dailyCandidates in Hc. apply in_map_iff in Hc. destruct Hc as (day & <- & _).
  exists tpl, m, day. auto.
Qed.

End DailyEvents.

(** ** C9: the latest note stamped with the present time *)

(** C9.  In createDailyNote, every call of the engine and of
    [vault.create] is for a candidate day: the path created and the file
    name given to the engine are those of the day's own date, and only the
    date that the template receives is the stamp.  The stamp is the present
    time plus one minute when the option useTodayForLatestNote is on and
    the day is today, and the day's own date otherwise.  The path, the
    label and the guards of a day are the same whatever the option. *)
Theorem latest_note_shifts_only_the_stamp settings env v :
  (forall text name ok,
     In (EvExpand text name ok) (eventsOf (createDailyNote settings env v)) ->
     exists templateContents m day,
       resultOf (getNoteTemplateContents settings env Daily v) = Ok (Some templateContents)
       /\ name = fileNameNoExtension env (dailyPath settings env m day)
       /\ text = templateDate settings env
                   (dailyCreateFileDate settings env (dayDate settings env m day)) templateContents)
  /\ (forall p content ok,
        In (EvCreate p content ok) (eventsOf (createDailyNote settings env v)) ->
        exists templateContents m day,
          resultOf (getNoteTemplateContents settings env Daily v) = Ok (Some templateContents)
          /\ p = dailyPath settings env m day
          /\ replaceNewFileVars env
               (templateDate settings env
                  (dailyCreateFileDate settings env (dayDate settings env m day)) templateContents)
               (fileNameNoExtension env p) = Ok content)
  /\ (forall d,
        (useTodayForLatestNote settings = true -> isToday env d ->
         dailyCreateFileDate settings env d = Calendar.addMinute (now env))
        /\ (useTodayForLatestNote settings = false \/ ~ isToday env d ->
            dailyCreateFileDate settings env d = d))
  /\ (forall b m day,
        dailyPath (withUseTodayForLatestNote b settings) env m day = dailyPath settings env m day
        /\ dayLabel (withUseTodayForLatestNote b settings) env m day = dayLabel settings env m day
        /\ dailyMonthGuard (withUseTodayForLatestNote b settings) env m = dailyMonthGuard settings env m
        /\ dailyDayGuard (withUseTodayForLatestNote b settings) env m day
           = dailyDayGuard settings env m day).
Proof.
  split; [| split; [| split]].
  - intros text name ok. apply daily_expand_call.
  - intros p content ok. apply daily_create_call.
  - intros d. unfold dailyCreateFileDate, isToday. split.
    + intros -> Heq. apply String.eqb_eq in Heq. rewrite Heq. reflexivity.
    + intros [-> | Hne]; [reflexivity |].
      destruct (String.eqb_spec (format env (now env) "YYYY-MM-DD") (format env d "YYYY-MM-DD"))
        as [Heq | _]; [contradiction |].
      rewrite Bool.andb_false_r. reflexivity.
  - intros b m day. repeat split.
Qed.

Lemma latest_note_shifts_only_the_stamp_witness :
  let s := withUseTodayForLatestNote true (Scenario.custom "Journal" "T" "YYYY-MM-DD HH:mm" NONE NONE) in
  let e := Std.env Std.mid_march_2024 in
  let v := mkVault [("T.md", "Stamp {{date}}")] [] in
  In (EvExpand "Stamp 2024-03-15 10:31" "15 - Friday" true) (eventsOf (createDailyNote s e v))
  /\ exists templateContents m day,
       resultOf (getNoteTemplateContents s e Daily v) = Ok (Some templateContents)
       /\ "15 - Friday" = fileNameNoExtension e (dailyPath s e m day)
       /\ "Stamp 2024-03-15 10:31"
          = templateDate s e (dailyCreateFileDate s e (dayDate s e m day)) templateContents.
Proof.
  intros s e v.
  assert (H : In (EvExpand "Stamp 2024-03-15 10:31" "15 - Friday" true)
                (eventsOf (createDailyNote s e v))) by in_computed_list.
  split; [exact H |].
  exact (proj1 (latest_note_shifts_only_the_stamp s e v) _ _ _ H).
Defined.

(** The same day with the option off and on: the same path, and in the
    note the date of the day or the present time plus one minute. *)
Example latest_note_off_and_on :
  let s := Scenario.custom "Journal" "T" "YYYY-MM-DD HH:mm" NONE NONE in
  let e := Std.env Std.mid_march_2024 in
  let v := mkVault [("T.md", "Stamp {{date}}")] [] in
  files (vaultOf (createDailyNote (withUseTodayForLatestNote false s) e v))
  = [("T.md", "Stamp {{date}}"); ("Journal/2024/03/15 - Friday.md", "Stamp 2024-03-15 00:00")]
  /\ files (vaultOf (createDailyNote (withUseTodayForLatestNote true s) e v))
     = [("T.md", "Stamp {{date}}"); ("Journal/2024/03/15 - Friday.md", "Stamp 2024-03-15 10:31")].
Proof. split; vm_compute; reflexivity. Qed.

(** ** C10: an empty template path *)

Lemma includes_empty token : token <> EmptyString -> JS.includes EmptyString token = false.
Proof. destruct token; [congruence | reflexivity]. Qed.

(** A template path with no file at it: a notice, and no note. *)
Example missing_template_stops_the_cadence :
  let s := Scenario.custom "Journal" "Templates/Daily" "YYYY-MM-DD" YEAR YEAR in
  createDailyNote s (Std.env Std.mid_march_2024) Std.emptyVault
  = (Ok tt, Std.emptyVault,
     [EvNotice "Auto Journal: daily notes template file not found in Templates/Daily. Please update template file in the settings."]).
Proof. vm_compute. reflexivity. Qed.

(** ** C6: no error leaves run *)

Section RunFacts.

Variable settings : AutoJournalSettings.
Variable env : Env.

Lemma template_outcome_reported type v r lt :
  template_outcome settings env type v r lt ->
  match r with
  | Throw msg => lt = [EvRead (templatePathOf settings type ++ ".md") false]
  | Ok _ => reported lt
  end.
Proof.
  unfold template_outcome. destruct r as [[tpl |] | msg].
  - intros [(_ & _ & ->) | (_ & _ & _ & _ & ->)]; reported_tac.
  - intros (_ & [(_ & ->) | (d & _ & ->)]); reported_tac.
  - intros (_ & _ & _ & _ & ->). reflexivity.
Qed.

Lemma daily_branch_reported v :
  let od := createDailyNote settings env v in
  reported (eventsOf od ++ branchReport settings (resultOf od)).
Proof.
  intros od.
  pose proof (wp_elim _ _ _ (createDailyNote_spec settings env v)) as H. fold od in H.
  destruct H as (lt & Hlt & H). apply template_outcome_reported in Hlt.
  destruct (resultOf (getNoteTemplateContents settings env Daily v)) as [[tpl |] | msg].
  - destruct H as (l1 & -> & -> & _ & _ & Hrep & _). simpl. rewrite app_nil_r.
    apply reported_app; assumption.
  - destruct H as (-> & _ & ->). simpl. rewrite app_nil_r. exact Hlt.
  - destruct H as (-> & _ & ->). rewrite Hlt. reported_tac.
Qed.

Lemma monthly_branch_reported v :
  let om := createMonthlyNote settings env v in
  reported (eventsOf om ++ branchReport settings (resultOf om)).
Proof.
  intros om.
  pose proof (wp_elim _ _ _ (createMonthlyNote_spec settings env v)) as H. fold om in H.
  destruct H as (lt & Hlt & H). apply template_outcome_reported in Hlt.
  destruct (resultOf (getNoteTemplateContents settings env Monthly v)) as [[tpl |] | msg].
  - destruct H as (l1 & -> & -> & _ & _ & Hrep & _). simpl. rewrite app_nil_r.
    apply reported_app; assumption.
  - destruct H as (-> & _ & ->). simpl. rewrite app_nil_r. exact Hlt.
  - destruct H as (-> & _ & ->). rewrite Hlt. reported_tac.
Qed.

(** Every day that passes the guards and whose label no file under the
    folder of its month carries, even when createDailyNote ends, has been
    handed to createNewFile. *)
Lemma daily_day_served v templateContents m day :
  resultOf (getNoteTemplateContents settings env Daily v) = Ok (Some templateContents) ->
  0 <= m <= 11 -> dailyMonthGuard settings env m = true ->
  In day (monthDays settings env m) -> dailyDayGuard settings env m day = true ->
  labelTaken env (dayLabel settings env m day)
    (dailyListing settings env m (vaultOf (createDailyNote settings env v))) = false ->
  exists ok,
    In (EvExpand (templateDate settings env
                    (dailyCreateFileDate settings env (dayDate settings env m day)) templateContents)
          (fileNameNoExtension env (dailyPath settings env m day)) ok)
       (eventsOf (createDailyNote settings env v)).
Proof.
  intros Htpl Hm Hgm Hday Hgd Hfree.
  pose proof (wp_elim _ _ _ (createDailyNote_spec settings env v)) as H.
  destruct H as (lt & _ & H). rewrite Htpl in H.
  destruct H as (l1 & _ & Hl & _ & _ & _ & _ & Hserved).
  assert (Hc : In (dailyCandidate settings env m day) (dailyCandidates settings env m))
    by (unfold dailyCandidates; apply in_map; exact Hday).
  destruct (Hserved m _ (proj2 (In_range 0 11 m) Hm) Hgm Hc Hgd Hfree) as [[ok Hin] _].
  exists ok. rewrite Hl. apply in_or_app. right. exact Hin.
Qed.

Lemma monthly_month_served v templateContents m :
  resultOf (getNoteTemplateContents settings env Monthly v) = Ok (Some templateContents) ->
  0 <= m <= 11 -> monthlyGuard settings env m = true ->
  labelTaken env (monthLabel settings env (monthDate settings env m))
    (monthlyListing settings env v) = false ->
  exists ok,
    In (EvExpand (templateDate settings env
                    (monthlyCreateFileDate settings env (monthDate settings env m)) templateContents)
          (fileNameNoExtension env (monthlyPath settings env m)) ok)
       (eventsOf (createMonthlyNote settings env v)).
Proof.
  intros Htpl Hm Hg Hfree.
  pose proof (wp_elim _ _ _ (createMonthlyNote_spec settings env v)) as H.
  destruct H as (lt & _ & H). rewrite Htpl in H.
  destruct H as (l1 & _ & Hl & _ & _ & _ & _ & Hserved).
  assert (Hc : In (monthlyCandidate settings env m) (monthlyCandidates settings env))
    by (unfold monthlyCandidates; apply in_map; apply In_range; exact Hm).
  destruct (Hserved _ Hc Hg Hfree) as [[ok Hin] _].
  exists ok. rewrite Hl. apply in_or_app. right. exact Hin.
Qed.

End RunFacts.

(** C6.  Whatever the settings, the clock, the vault and the calls that
    the vault or the engine reject, [run] returns and does not throw; in
    its trace every failed call (a read, a folder creation, an expansion, a
    file creation) is followed at once by a call of errorNotification; and
    the iteration goes on: every day of createDailyNote, and every month of
    createMonthlyNote, that passes its guards and whose label no file of
    its listing carries is handed to createNewFile (the engine is called
    for it), whatever failed before it. *)
Theorem run_catches_every_error settings env v :
  let od := createDailyNote settings env v in
  let v1 := if dailyNotesEnabled settings then vaultOf od else v in
  resultOf (run settings env v) = Ok tt
  /\ reported (eventsOf (run settings env v))
  /\ (dailyNotesEnabled settings = true ->
      forall templateContents m day,
        resultOf (getNoteTemplateContents settings env Daily v) = Ok (Some templateContents) ->
        0 <= m <= 11 -> dailyMonthGuard settings env m = true ->
        In day (monthDays settings env m) -> dailyDayGuard settings env m day = true ->
        labelTaken env (dayLabel settings env m day) (dailyListing settings env m (vaultOf od)) = false ->
        exists ok,
          In (EvExpand (templateDate settings env
                          (dailyCreateFileDate settings env (dayDate settings env m day))
                          templateContents)
                (fileNameNoExtension env (dailyPath settings env m day)) ok)
             (eventsOf (run settings env v)))
  /\ (monthlyNotesEnabled settings = true ->
      forall templateContents m,
        resultOf (getNoteTemplateContents settings env Monthly v1) = Ok (Some templateContents) ->
        0 <= m <= 11 -> monthlyGuard settings env m = true ->
        labelTaken env (monthLabel settings env (monthDate settings env m))
          (monthlyListing settings env v1) = false ->
        exists ok,
          In (EvExpand (templateDate settings env
                          (monthlyCreateFileDate settings env (monthDate settings env m))
                          templateContents)
                (fileNameNoExtension env (monthlyPath settings env m)) ok)
             (eventsOf (run settings env v))).
Proof.
  intros od v1.
  destruct (run_decompose settings env v) as (Hr & _ & Hl). fold od in Hl. fold v1 in Hl.
  split; [exact Hr |]. rewrite Hl. split; [| split].
  - apply reported_app.
    + destruct (dailyNotesEnabled settings); [apply daily_branch_reported | exact I].
    + destruct (monthlyNotesEnabled settings); [apply monthly_branch_reported | exact I].
  - intros Hon tpl m day Htpl Hm Hgm Hday Hgd Hfree. rewrite Hon.
    destruct (daily_day_served settings env v tpl m day Htpl Hm Hgm Hday Hgd Hfree) as [ok Hin].
    exists ok. apply in_or_app. left. apply in_or_app. left. exact Hin.
  - intros Hon tpl m Htpl Hm Hg Hfree. rewrite Hon.
    destruct (monthly_month_served settings env v1 tpl m Htpl Hm Hg Hfree) as [ok Hin].
    exists ok. apply in_or_app. right. apply in_or_app. left. exact Hin.
Qed.

Lemma run_catches_every_error_witness :
  let s := Std.settings NONE MONTH in
  let e := Scenario.rejecting (fun _ => true) Std.mid_march_2024 in
  resultOf (run s e Std.emptyVault) = Ok tt
  /\ reported (eventsOf (run s e Std.emptyVault))
  /\ exists ok,
       In (EvExpand (templateDate s e (dailyCreateFileDate s e (dayDate s e 2 15)) EmptyString)
             (fileNameNoExtension e (dailyPath s e 2 15)) ok)
          (eventsOf (run s e Std.emptyVault)).
Proof.
  intros s e.
  destruct (run_catches_every_error s e Std.emptyVault) as (H1 & H2 & H3 & _).
  split; [exact H1 |]. split; [exact H2 |].
  apply (H3 eq_refl EmptyString 2 15).
  - reflexivity.
  - lia.
  - reflexivity.
  - in_computed_list.
  - reflexivity.
  - reflexivity.
Defined.

(** A run in which the vault rejects every call it can reject: nothing is
    thrown, and each failure is followed by its report. *)
Example run_under_a_vault_that_rejects_everything :
  let s := Std.settings NONE MONTH in
  let e := Scenario.rejecting (fun _ => true) Std.mid_march_2024 in
  run s e Std.emptyVault
  = (Ok tt, Std.emptyVault,
     [EvCreateFolder "/Journal" false;
      EvError "Error creating folder, /Journal for Journal/2024/03/15 - Friday.md" false;
      EvCreateFolder "/Journal/2024" false;
      EvError "Error creating folder, /Journal/2024 for Journal/2024/03/15 - Friday.md" false;
      EvCreateFolder "/Journal/2024/03" false;
      EvError "Error creating folder, /Journal/2024/03 for Journal/2024/03/15 - Friday.md" false;
      EvExpand EmptyString "15 - Friday" true;
      EvCreate "Journal/2024/03/15 - Friday.md" EmptyString false;
      EvError "Cannot create file Journal/2024/03/15 - Friday.md" false;
      EvCreateFolder "/Journal" false;
      EvError "Error creating folder, /Journal for Journal/2024/Monthly/03 -.md" false;
      EvCreateFolder "/Journal/2024" false;
      EvError "Error creating folder, /Journal/2024 for Journal/2024/Monthly/03 -.md" false;
      EvCreateFolder "/Journal/2024/Monthly" false;
      EvError "Error creating folder, /Journal/2024/Monthly for Journal/2024/Monthly/03 -.md" false;
      EvExpand EmptyString "03 -" true;
      EvCreate "Journal/2024/Monthly/03 -.md" EmptyString false;
      EvError "Cannot create file Journal/2024/Monthly/03 -.md" false]).
Proof. vm_compute. reflexivity. Qed.

(** ** C2: a second run *)

Section TwiceFacts.

Variable settings : AutoJournalSettings.
Variable env : Env.

Lemma labelsRecoverable_day m day :
  labelsRecoverable settings env = true -> 0 <= m <= 11 -> In day (monthDays settings env m) ->
  inFolder settings env (monthsFolder settings env m) (dailyPath settings env m day) = true
  /\ fileLabel env (dailyPath settings env m day) = dayLabel settings env m day.
Proof.
  unfold labelsRecoverable. intros H Hm Hday.
  rewrite forallb_forall in H. specialize (H m (proj2 (In_range 0 11 m) Hm)).
  apply andb_prop in H. destruct H as [H _].
  rewrite forallb_forall in H. specialize (H day Hday).
  unfold dayRecoverable in H. apply andb_prop in H. destruct H as [H1 H2].
  apply String.eqb_eq in H2. auto.
Qed.

Lemma labelsRecoverable_month m :
  labelsRecoverable settings env = true -> 0 <= m <= 11 ->
  inMonthlyFolder settings env (monthlyFolder settings env) (monthlyPath settings env m) = true
  /\ fileLabel env (monthlyPath settings env m) = monthLabel settings env (monthDate settings env m).
Proof.
  unfold labelsRecoverable. intros H Hm.
  rewrite forallb_forall in H. specialize (H m (proj2 (In_range 0 11 m) Hm)).
  apply andb_prop in H. destruct H as [_ H].
  unfold monthRecoverable in H. apply andb_prop in H. destruct H as [H1 H2].
  apply String.eqb_eq in H2. auto.
Qed.

Lemma extends_hasFile v v' p : extends v v' -> hasFile v p = true -> hasFile v' p = true.
Proof.
  intros Hext H. apply hasFile_In. eapply extends_getFiles; [exact Hext |].
  apply hasFile_In. exact H.
Qed.

Lemma extends_contentOf v v' p :
  extends v v' -> hasFile v p = true -> contentOf v' p = contentOf v p.
Proof.
  intros [[more Hf] _] H. unfold contentOf, hasFile in *. rewrite Hf. clear Hf.
  induction (files v) as [| f rest IH]; simpl in *; [discriminate |].
  destruct (String.eqb (fst f) p); [reflexivity |]. apply IH. exact H.
Qed.

Lemma lookup_file v p q : getAbstractFileByPath v p = Some (TFile q) -> hasFile v p = true.
Proof.
  unfold getAbstractFileByPath. destruct (hasFile v p); [reflexivity |].
  destruct (hasFolder v p); discriminate.
Qed.

(** The template found after the vault has grown was found before, when
    its file was there before. *)
Lemma template_result_stable type v v' templateContents :
  extends v v' ->
  (templatePathOf settings type <> EmptyString ->
   hasFile v' (templateFile settings type) = true -> hasFile v (templateFile settings type) = true) ->
  resultOf (getNoteTemplateContents settings env type v') = Ok (Some templateContents) ->
  resultOf (getNoteTemplateContents settings env type v) = Ok (Some templateContents).
Proof.
  intros Hext Hfile Hres.
  pose proof (wp_elim _ _ _ (getNoteTemplateContents_spec settings env type v')) as [_ H].
  unfold template_outcome in H. rewrite Hres in H. fold (templateFile settings type) in H.
  unfold getNoteTemplateContents. fold (templateFile settings type).
  destruct H as [(Hpath & -> & _) | (Hpath & Hlook & Hrej & Hcontent & _)].
  - rewrite Hpath. reflexivity.
  - destruct (templatePathOf settings type) as [| a rest] eqn:E; [congruence |].
    cbn [JS.truthyString]. rewrite <- E in *.
    assert (Hhas : hasFile v (templateFile settings type) = true).
    { apply Hfile; [rewrite E; discriminate |]. eapply lookup_file. exact Hlook. }
    rewrite (extends_contentOf v v' _ Hext Hhas) in Hcontent.
    unfold bind, vaultLookup, vaultRead, ret, resultOf, getAbstractFileByPath.
    rewrite Hhas, Hrej, Hcontent. reflexivity.
Qed.

Lemma no_element {A} (l : list A) : (forall x, ~ In x l) -> l = [].
Proof. destruct l as [| x l]; [reflexivity |]. intros H. destruct (H x). left. reflexivity. Qed.

(** createDailyNote run again, from a vault that extends the one its first
    run left, with the template of the first run: no file is added. *)
Lemma daily_second_pass v v1 :
  extends (vaultOf (createDailyNote settings env v)) v1 ->
  (forall templateContents,
     resultOf (getNoteTemplateContents settings env Daily v1) = Ok (Some templateContents) ->
     resultOf (getNoteTemplateContents settings env Daily v) = Ok (Some templateContents)) ->
  files (vaultOf (createDailyNote settings env v1)) = files v1.
Proof.
  intros Hext Htpl.
  pose proof (wp_elim _ _ _ (createDailyNote_spec settings env v1)) as H2.
  destruct H2 as (lt2 & _ & H2).
  destruct (resultOf (getNoteTemplateContents settings env Daily v1)) as [[tpl |] | msg] eqn:E2.
  2, 3: destruct H2 as (_ & -> & _); reflexivity.
  destruct H2 as (l2 & _ & _ & _ & Hf2 & _ & Hj2 & _).
  rewrite Hf2. replace (createdFiles l2) with (@nil (string * string));
    [rewrite app_nil_r; reflexivity |].
  symmetry. apply no_element. intros [p c] Hin.
  apply In_createdFiles in Hin. rewrite Forall_forall in Hj2.
  destruct (Hj2 _ Hin) as (m & vm & Hm & Hgm & Hvm & cand & Hc & Hgc & Hfree & -> & Hday & Heng & Hok).
  destruct (Hok eq_refl) as (Hrej & v0 & Hv0 & Hnone).
  pose proof (wp_elim _ _ _ (createDailyNote_spec settings env v)) as H1.
  destruct H1 as (lt1 & _ & H1). rewrite (Htpl tpl eq_refl) in H1.
  destruct H1 as (l1 & _ & _ & _ & _ & _ & _ & Hserved).
  set (vd := vaultOf (createDailyNote settings env v)) in *.
  assert (Hincl : forall x, In x (dailyListing settings env m vd)
                            -> In x (dailyListing settings env m vm)).
  { intros x. apply dailyListing_extends. eapply extends_trans; eauto. }
  destruct (Hserved m cand Hm Hgm Hc Hgc (labelTaken_incl _ _ _ _ Hincl Hfree)) as [_ Hthere].
  specialize (Hthere (labelTaken_incl _ _ _ _ Hincl Hday) c Heng Hrej).
  assert (X : exists_at v0 (targetPath settings env (notePath cand))).
  { eapply extends_exists_at; [| exact Hthere].
    eapply extends_trans; [exact Hext |]. eapply extends_trans; eauto. }
  apply X. exact Hnone.
Qed.

(** createMonthlyNote run again, from a vault that extends the one its
    first run left, with the template of the first run: no file is added. *)
Lemma monthly_second_pass v v1 :
  extends (vaultOf (createMonthlyNote settings env v)) v1 ->
  (forall templateContents,
     resultOf (getNoteTemplateContents settings env Monthly v1) = Ok (Some templateContents) ->
     resultOf (getNoteTemplateContents settings env Monthly v) = Ok (Some templateContents)) ->
  files (vaultOf (createMonthlyNote settings env v1)) = files v1.
Proof.
  intros Hext Htpl.
  pose proof (wp_elim _ _ _ (createMonthlyNote_spec settings env v1)) as H2.
  destruct H2 as (lt2 & _ & H2).
  destruct (resultOf (getNoteTemplateContents settings env Monthly v1)) as [[tpl |] | msg] eqn:E2.
  2, 3: destruct H2 as (_ & -> & _); reflexivity.
  destruct H2 as (l2 & _ & _ & _ & Hf2 & _ & Hj2 & _).
  rewrite Hf2. replace (createdFiles l2) with (@nil (string * string));
    [rewrite app_nil_r; reflexivity |].
  symmetry. apply no_element. intros [p c] Hin.
  apply In_createdFiles in Hin. rewrite Forall_forall in Hj2.
  destruct (Hj2 _ Hin) as (cand & Hc & Hgc & Hfree & -> & Hday & Heng & Hok).
  destruct (Hok eq_refl) as (Hrej & v0 & Hv0 & Hnone).
  pose proof (wp_elim _ _ _ (createMonthlyNote_spec settings env v)) as H1.
  destruct H1 as (lt1 & _ & H1). rewrite (Htpl tpl eq_refl) in H1.
  destruct H1 as (l1 & _ & _ & Hvm & _ & _ & _ & Hserved).
  set (vm := vaultOf (createMonthlyNote settings env v)) in *.
  assert (Hincl : forall x, In x (monthlyListing settings env v)
                            -> In x (monthlyListing settings env v1)).
  { intros x. apply monthlyListing_extends. eapply extends_trans; eauto. }
  destruct (Hserved cand Hc Hgc (labelTaken_incl _ _ _ _ Hincl Hfree)) as [_ Hthere].
  specialize (Hthere (labelTaken_incl _ _ _ _ Hincl Hday) c Heng Hrej).
  assert (X : exists_at v0 (targetPath settings env (notePath cand))).
  { eapply extends_exists_at; [| exact Hthere]. eapply extends_trans; eauto. }
  apply X. exact Hnone.
Qed.

Lemma daily_extends v : extends v (vaultOf (createDailyNote settings env v)).
Proof.
  pose proof (wp_elim _ _ _ (createDailyNote_spec settings env v)) as H.
  destruct H as (lt & _ & H).
  destruct (resultOf (getNoteTemplateContents settings env Daily v)) as [[tpl |] | msg].
  - destruct H as (l1 & _ & _ & Hext & _). exact Hext.
  - destruct H as (_ & -> & _). apply extends_refl.
  - destruct H as (_ & -> & _). apply extends_refl.
Qed.

Lemma monthly_extends v : extends v (vaultOf (createMonthlyNote settings env v)).
Proof.
  pose proof (wp_elim _ _ _ (createMonthlyNote_spec settings env v)) as H.
  destruct H as (lt & _ & H).
  destruct (resultOf (getNoteTemplateContents settings env Monthly v)) as [[tpl |] | msg].
  - destruct H as (l1 & _ & _ & Hext & _). exact Hext.
  - destruct H as (_ & -> & _). apply extends_refl.
  - destruct H as (_ & -> & _). apply extends_refl.
Qed.

(** createMonthlyNote stops, and leaves the vault as it is, when no file
    is at the path of its template. *)
Lemma monthly_without_template v :
  templatePathOf settings Monthly <> EmptyString ->
  hasFile v (templateFile settings Monthly) = false ->
  vaultOf (createMonthlyNote settings env v) = v.
Proof.
  intros Hpath Hno.
  pose proof (wp_elim _ _ _ (createMonthlyNote_spec settings env v)) as H.
  destruct H as (lt & Hlt & H). unfold template_outcome in Hlt.
  fold (templateFile settings Monthly) in Hlt.
  destruct (resultOf (getNoteTemplateContents settings env Monthly v)) as [[tpl |] | msg].
  - destruct Hlt as [(Hp & _) | (_ & Hlook & _)]; [congruence |].
    apply lookup_file in Hlook. congruence.
  - destruct H as (_ & -> & _). reflexivity.
  - destruct H as (_ & -> & _). reflexivity.
Qed.

End TwiceFacts.

Lemma hasFile_files v v' p : files v = files v' -> hasFile v p = hasFile v' p.
Proof. unfold hasFile. intros ->. reflexivity. Qed.

Lemma branchReport_no_create settings r p c ok : ~ In (EvCreate p c ok) (branchReport settings r).
Proof. destruct r; simpl; [tauto |]. intros [H | []]. discriminate H. Qed.

(** C2, amended.  Let [run] be run a second time from the vault that a
    first run left, with the same settings, at the same time and with the
    same collaborators (the vault rejects the same calls and the engine
    returns the same text for the same arguments in both runs), and let
    the first run not have created the file of the daily template itself.
    Then the second run adds no file to the vault.  And when the labels are
    recoverable (for every day that the loops visit in the twelve months of
    the year, and for every one of the twelve months, created or not: the
    path of its note is listed under the folder of its cadence and the
    label read from its name is the label of the period), the second run
    does not call [vault.create] for any path at which the vault has a
    file: for a period whose note exists, the test of the listing finds the
    label and the loop goes to the next period. *)
Theorem second_run_adds_no_note settings env v :
  let v1 := vaultOf (run settings env v) in
  (hasFile v1 (templateFile settings Daily) = true ->
   hasFile v (templateFile settings Daily) = true) ->
  files (vaultOf (run settings env v1)) = files v1
  /\ (labelsRecoverable settings env = true ->
      forall p c ok, In (EvCreate p c ok) (eventsOf (run settings env v1)) -> hasFile v1 p = false).
Proof.
  intros v1 Hdaily.
  destruct (run_decompose settings env v) as (_ & Hv1 & _). fold v1 in Hv1.
  destruct (run_decompose settings env v1) as (_ & Hv2 & Hl2).
  set (vd := if dailyNotesEnabled settings then vaultOf (createDailyNote settings env v) else v) in *.
  set (v1d := if dailyNotesEnabled settings then vaultOf (createDailyNote settings env v1) else v1) in *.
  assert (Hvd : extends v vd).
  { unfold vd. destruct (dailyNotesEnabled settings); [apply daily_extends | apply extends_refl]. }
  assert (Hvd1 : extends vd v1).
  { rewrite Hv1. destruct (monthlyNotesEnabled settings); [apply monthly_extends | apply extends_refl]. }
  assert (Hv11d : extends v1 v1d).
  { unfold v1d. destruct (dailyNotesEnabled settings); [apply daily_extends | apply extends_refl]. }
  (* the daily branch of the second run adds nothing *)
  assert (HA : files v1d = files v1).
  { unfold v1d, vd in *. destruct (dailyNotesEnabled settings); [| reflexivity].
    apply (daily_second_pass settings env v v1 Hvd1).
    intros tpl. apply template_result_stable.
    - eapply extends_trans; eauto.
    - intros _. exact Hdaily. }
  (* nor does its monthly branch *)
  assert (HB : files (vaultOf (run settings env v1)) = files v1d).
  { rewrite Hv2. destruct (monthlyNotesEnabled settings) eqn:Hmon; [| reflexivity].
    apply (monthly_second_pass settings env vd v1d).
    - rewrite <- Hv1. exact Hv11d.
    - intros tpl. apply template_result_stable.
      + eapply extends_trans; eauto.
      + intros Hpath Hhas.
        destruct (hasFile vd (templateFile settings Monthly)) eqn:E; [reflexivity |].
        rewrite (monthly_without_template settings env vd Hpath E) in Hv1.
        rewrite (hasFile_files v1d v1 _ HA), Hv1 in Hhas. congruence. }
  split; [rewrite HB; exact HA |].
  intros Hrec p c ok Hin.
  destruct (hasFile v1 p) eqn:Hp; [exfalso | reflexivity].
  rewrite Hl2 in Hin. fold v1d in Hin.
  apply in_app_or in Hin. destruct Hin as [Hin | Hin].
  - destruct (dailyNotesEnabled settings); [| destruct Hin].
    apply in_app_or in Hin. destruct Hin as [Hin | Hin]; [| exact (branchReport_no_create _ _ _ _ _ Hin)].
    destruct (daily_call settings env v1 _ Hin) as (tpl & _ & m & vm & Hm & _ & Hvm & Hj).
    destruct Hj as (cand & Hc & _ & Hfree & -> & _).
    unfold dailyCandidates in Hc. apply in_map_iff in Hc. destruct Hc as (day & <- & Hday).
    cbn [label notePath] in *. fold (dailyPath settings env m day) in Hp.
    apply In_range in Hm.
    destruct (labelsRecoverable_day settings env m day Hrec Hm Hday) as [Hfolder Hlabel].
    rewrite (labelTaken_intro env _ _ (dailyPath settings env m day)) in Hfree;
      [discriminate | | exact Hlabel].
    apply filter_In. split; [| exact Hfolder].
    eapply extends_getFiles; [exact Hvm |]. apply hasFile_In. exact Hp.
  - destruct (monthlyNotesEnabled settings); [| destruct Hin].
    apply in_app_or in Hin. destruct Hin as [Hin | Hin]; [| exact (branchReport_no_create _ _ _ _ _ Hin)].
    destruct (monthly_call settings env v1d _ Hin) as (tpl & _ & cand & Hc & _ & Hfree & -> & _).
    unfold monthlyCandidates in Hc. apply in_map_iff in Hc. destruct Hc as (m & <- & Hm).
    cbn [label notePath] in *. fold (monthlyPath settings env m) in Hp.
    apply In_range in Hm.
    destruct (labelsRecoverable_month settings env m Hrec Hm) as [Hfolder Hlabel].
    rewrite (labelTaken_intro env _ _ (monthlyPath settings env m)) in Hfree;
      [discriminate | | exact Hlabel].
    apply filter_In. split; [| exact Hfolder].
    eapply extends_getFiles; [exact Hv11d |]. apply hasFile_In. exact Hp.
Qed.

Lemma second_run_adds_no_note_witness :
  let s := Std.settings YEAR YEAR in
  let e := Std.env Std.mid_march_2024 in
  let v1 := vaultOf (run s e Std.emptyVault) in
  List.length (files v1) = 78%nat
  /\ labelsRecoverable s e = true
  /\ files (vaultOf (run s e v1)) = files v1
  /\ forall p c ok, In (EvCreate p c ok) (eventsOf (run s e v1)) -> hasFile v1 p = false.
Proof.
  intros s e v1.
  assert (Hlen : List.length (files v1) = 78%nat) by (vm_compute; reflexivity).
  assert (Hrec : labelsRecoverable s e = true) by (vm_compute; reflexivity).
  assert (Htpl : hasFile v1 (templateFile s Daily) = true
                 -> hasFile Std.emptyVault (templateFile s Daily) = true).
  { vm_compute. intros H. discriminate H. }
  destruct (second_run_adds_no_note s e Std.emptyVault Htpl) as [H1 H2].
  split; [exact Hlen |]. split; [exact Hrec |]. split; [exact H1 | exact (H2 Hrec)].
Defined.

(** The second run on the scenario: the listing finds every label, and
    nothing is tried. *)
Example second_run_on_the_scenario :
  let s := Std.settings YEAR YEAR in
  let e := Std.env Std.mid_march_2024 in
  let v1 := vaultOf (run s e Std.emptyVault) in
  run s e v1 = (Ok tt, v1, []).
Proof. vm_compute. reflexivity. Qed.

(** C2 as it is written fails in two places.  When the daily template is
    the monthly note of March, the first run finds no template for the
    daily notes and creates the monthly note; the second run finds it and
    creates the note of the day.  When the root folder is [2024], the path
    of a note starts with the root folder already, createNewFile (line 297)
    leaves it as it is, and the listing, taken under [2024/2024], never
    holds the note: the second run calls [vault.create] for it again. *)
Lemma second_run_may_add_and_may_try_again :
  ~ Scenario.second_run_never_adds /\ ~ Scenario.second_run_never_tries_what_exists.
Proof.
  split.
  - intros H.
    specialize (H (Scenario.custom "Journal" "Journal/2024/Monthly/03 -" "YYYY-MM-DD" NONE MONTH)
                  (Std.env Std.mid_march_2024) Std.emptyVault).
    vm_compute in H. discriminate H.
  - intros H.
    specialize (H (Scenario.custom "2024" EmptyString "YYYY-MM-DD" NONE MONTH)
                  (Std.env Std.mid_march_2024) Std.emptyVault
                  "2024/03/15 - Friday.md" EmptyString false).
    assert (Hin : In (EvCreate "2024/03/15 - Friday.md" EmptyString false)
                    (eventsOf (run (Scenario.custom "2024" EmptyString "YYYY-MM-DD" NONE MONTH)
                                 (Std.env Std.mid_march_2024)
                                 (vaultOf (run (Scenario.custom "2024" EmptyString "YYYY-MM-DD" NONE MONTH)
                                             (Std.env Std.mid_march_2024) Std.emptyVault))))).
    { vm_compute. right. left. reflexivity. }
    specialize (H Hin). vm_compute in H. discriminate H.
Qed.

(** * Further properties of Core *)

(** ** createNewFile: the listing, the failures, the folder that exists *)

Lemma cascade_events_create lf p c ok : Forall isCascadeEvent lf -> ~ In (EvCreate p c ok) lf.
Proof. intros H Hin. rewrite Forall_forall in H. exact (H _ Hin). Qed.

Lemma cascade_events_expand lf t n ok : Forall isCascadeEvent lf -> ~ In (EvExpand t n ok) lf.
Proof. intros H Hin. rewrite Forall_forall in H. exact (H _ Hin). Qed.

Lemma cascade_events_files lf : Forall isCascadeEvent lf -> createdFiles lf = [].
Proof.
  induction 1 as [| ev lf Hev _ IH]; [reflexivity |].
  unfold createdFiles in *. simpl. rewrite IH.
  destruct ev; simpl in *; try reflexivity; destruct Hev.
Qed.

Section CreateNewFileMore.

Variable settings : AutoJournalSettings.
Variable env : Env.
Variable createdDate : Moment.
Variable newFilePath templateContents : string.
Variable filesInFolder : list string.
Variable v : Vault.

Local Abbreviation target := (targetPath settings env newFilePath).
Local Abbreviation text := (templateDate settings env createdDate templateContents).
Local Abbreviation name := (fileNameNoExtension env (targetPath settings env newFilePath)).
Local Abbreviation o :=
  (createNewFile settings env createdDate newFilePath templateContents filesInFolder v).

(** The outcome of createNewFile, read on its own result. *)
Lemma createNewFile_itself :
  createNewFile_outcome settings env createdDate newFilePath templateContents filesInFolder v
    (resultOf o) (vaultOf o) (eventsOf o).
Proof. exact (wp_elim _ _ _ (createNewFile_spec settings env _ _ _ _ v)). Qed.

(** What createNewFile returns is the path it was to create. *)
Lemma createNewFile_result q : resultOf o = Ok q -> q = target.
Proof.
  destruct createNewFile_itself as (lf & _ & _ & _ & _ & _ & _ & Hrest).
  destruct (replaceNewFileVars env text name) as [content | msg0].
  - destruct (labelTaken env (dayPartOf env target) filesInFolder).
    + destruct Hrest as (_ & Hr & _). congruence.
    + destruct Hrest as [(_ & Hr & _) | (_ & Hr & _)]; congruence.
  - destruct Hrest as (_ & Hr & _). congruence.
Qed.

(** X1.  When a file of the listing carries the label that createNewFile
    reads from the name of the new file (lines 326-334), [vault.create] is
    not called and no file is added; the engine is called all the same, and
    when it returns the path is returned as for a note just created. *)
Theorem createNewFile_leaves_a_taken_label :
  labelTaken env (dayPartOf env target) filesInFolder = true ->
  files (vaultOf o) = files v
  /\ (forall p c ok, ~ In (EvCreate p c ok) (eventsOf o))
  /\ (exists ok, In (EvExpand text name ok) (eventsOf o))
  /\ (forall content, replaceNewFileVars env text name = Ok content -> resultOf o = Ok target).
Proof.
  intros Htaken.
  destruct createNewFile_itself as (lf & Hev & _ & _ & _ & _ & _ & Hrest).
  rewrite Htaken in Hrest.
  destruct (replaceNewFileVars env text name) as [content | msg].
  - destruct Hrest as (Hl & Hr & Hf). rewrite Hl. split; [exact Hf |]. split.
    + intros p c ok Hin. apply in_app_or in Hin. destruct Hin as [Hin | [Hin | []]].
      * exact (cascade_events_create _ _ _ _ Hev Hin).
      * discriminate Hin.
    + split; [exists true; apply in_or_app; right; left; reflexivity |].
      intros c _. exact Hr.
  - destruct Hrest as (Hl & Hr & Hf). rewrite Hl. split; [exact Hf |]. split.
    + intros p c ok Hin. apply in_app_or in Hin. destruct Hin as [Hin | [Hin | []]].
      * exact (cascade_events_create _ _ _ _ Hev Hin).
      * discriminate Hin.
    + split; [exists false; apply in_or_app; right; left; reflexivity |].
      intros c X. discriminate X.
Qed.

(** X2.  createNewFile returns the path it was to create, or throws; it
    throws in two cases only, and adds no file then: the engine threw (and
    [vault.create] is not called), or [vault.create] threw.  A folder that
    cannot be created never makes it throw.  In every case the folders that
    the cascade created before stay in the vault: the vault in the end is
    the vault at the start with the folders and the file whose creation the
    trace records. *)
Theorem createNewFile_throws_for_the_engine_or_the_file :
  (forall q, resultOf o = Ok q -> q = target)
  /\ (forall msg, resultOf o = Throw msg ->
        files (vaultOf o) = files v
        /\ ((replaceNewFileVars env text name = Throw msg
             /\ forall p c ok, ~ In (EvCreate p c ok) (eventsOf o))
            \/ (exists content,
                  replaceNewFileVars env text name = Ok content
                  /\ In (EvCreate target content false) (eventsOf o)
                  /\ msg = storeError env (OpCreate target))))
  /\ folders (vaultOf o) = (folders v ++ createdFolders (eventsOf o))%list
  /\ files (vaultOf o) = (files v ++ createdFiles (eventsOf o))%list.
Proof.
  destruct createNewFile_itself as (lf & Hev & _ & Hd & _ & _ & _ & Hrest).
  pose proof (cascade_events_files lf Hev) as Hnone.
  destruct (replaceNewFileVars env text name) as [content | msg0].
  - destruct (labelTaken env (dayPartOf env target) filesInFolder).
    + destruct Hrest as (Hl & Hr & Hf). rewrite Hl, Hr, createdFolders_app, createdFiles_app, Hnone.
      simpl. rewrite ?app_nil_r.
      split; [intros q X; congruence |]. split; [intros msg X; discriminate X |]. auto.
    + destruct Hrest as [(Hl & Hr & Hf & _) | (Hl & Hr & Hf & _)];
        rewrite Hl, Hr, createdFolders_app, createdFiles_app, Hnone; simpl; rewrite ?app_nil_r.
      * split; [intros q X; congruence |]. split; [intros msg X; discriminate X |]. auto.
      * split; [intros q X; discriminate X |]. split; [| auto].
        intros msg X. injection X as <-. split; [exact Hf |]. right. exists content.
        split; [reflexivity |]. split; [| reflexivity].
        apply in_or_app. right. right. left. reflexivity.
  - destruct Hrest as (Hl & Hr & Hf). rewrite Hl, Hr, createdFolders_app, createdFiles_app, Hnone.
    simpl. rewrite ?app_nil_r.
    split; [intros q X; discriminate X |]. split; [| auto].
    intros msg X. injection X as <-. split; [exact Hf |]. left. split; [reflexivity |].
    intros p c ok Hin. apply in_app_or in Hin. destruct Hin as [Hin | [Hin | []]].
    + exact (cascade_events_create _ _ _ _ Hev Hin).
    + discriminate Hin.
Qed.

(** X3.  When something is at the folder path of the new file (line 307),
    a folder or a file, createNewFile calls [vault.createFolder] for no
    path and reports no error of its own: the folders of the vault are
    left as they are. *)
Theorem createNewFile_leaves_the_folders_when_one_is_there :
  getAbstractFileByPath v (folderOf env target) <> None ->
  folders (vaultOf o) = folders v
  /\ (forall p ok, ~ In (EvCreateFolder p ok) (eventsOf o))
  /\ (forall msg debug, ~ In (EvError msg debug) (eventsOf o)).
Proof.
  intros Hthere.
  destruct createNewFile_itself as (lf & _ & _ & Hd & _ & _ & Hcas & Hrest).
  destruct (getAbstractFileByPath v (folderOf env target)); [| congruence].
  subst lf. simpl in Hd. rewrite app_nil_r in Hd. split; [exact Hd |].
  assert (Hl : exists ok rest, eventsOf o = EvExpand text name ok :: rest
                 /\ forall ev, In ev rest -> exists p c k, ev = EvCreate p c k).
  { destruct (replaceNewFileVars env text name) as [content | msg0].
    - destruct (labelTaken env (dayPartOf env target) filesInFolder).
      + destruct Hrest as (Hl & _). exists true, []. split; [exact Hl | intros ev []].
      + destruct Hrest as [(Hl & _) | (Hl & _)]; (exists true; eexists; split; [exact Hl |]);
          intros ev [<- | []]; eauto.
    - destruct Hrest as (Hl & _). exists false, []. split; [exact Hl | intros ev []]. }
  destruct Hl as (ok0 & rest & -> & Hrest').
  split.
  - intros p ok [Hin | Hin]; [discriminate Hin |].
    destruct (Hrest' _ Hin) as (q & c & k & X). discriminate X.
  - intros msg debug [Hin | Hin]; [discriminate Hin |].
    destruct (Hrest' _ Hin) as (q & c & k & X). discriminate X.
Qed.

End CreateNewFileMore.

Lemma createNewFile_leaves_a_taken_label_witness :
  let s := Std.settings NONE NONE in
  let e := Std.env Std.mid_march_2024 in
  let listing := ["Journal/2024/03/15 - notes.md"] in
  let v := mkVault [("Journal/2024/03/15 - notes.md", "mine")] ["Journal/2024/03"] in
  let o := createNewFile s e (At Std.mid_march_2024) "2024/03/15 - Friday" EmptyString listing v in
  labelTaken e (dayPartOf e (targetPath s e "2024/03/15 - Friday")) listing = true
  /\ files (vaultOf o) = files v
  /\ resultOf o = Ok "Journal/2024/03/15 - Friday.md".
Proof.
  intros s e listing v o.
  assert (H : labelTaken e (dayPartOf e (targetPath s e "2024/03/15 - Friday")) listing = true)
    by reflexivity.
  split; [exact H |].
  destruct (createNewFile_leaves_a_taken_label s e (At Std.mid_march_2024) "2024/03/15 - Friday"
              EmptyString listing v H) as (Hf & _ & _ & Hr).
  split; [exact Hf |]. exact (Hr EmptyString eq_refl).
Defined.

(** A vault that rejects the note after the folders were made: the call
    throws, and the folders stay. *)
Example folders_stay_when_the_note_is_rejected :
  let bad := fun op => match op with
                       | OpCreate _ => true
                       | _ => false
                       end in
  let s := Std.settings NONE NONE in
  let e := Scenario.rejecting bad Std.mid_march_2024 in
  createNewFile s e (At Std.mid_march_2024) "2024/03/15 - Friday" EmptyString [] Std.emptyVault
  = (Throw "Cannot create file Journal/2024/03/15 - Friday.md",
     mkVault [] ["/Journal"; "/Journal/2024"; "/Journal/2024/03"],
     [EvCreateFolder "/Journal" true;
      EvCreateFolder "/Journal/2024" true;
      EvCreateFolder "/Journal/2024/03" true;
      EvExpand EmptyString "15 - Friday" true;
      EvCreate "Journal/2024/03/15 - Friday.md" EmptyString false]).
Proof. vm_compute. reflexivity. Qed.

Lemma createNewFile_leaves_the_folders_when_one_is_there_witness :
  let s := Std.settings NONE NONE in
  let e := Std.env Std.mid_march_2024 in
  let v := mkVault [("Journal/2024/03", "a file, not a folder")] [] in
  let o := createNewFile s e (At Std.mid_march_2024) "2024/03/15 - Friday" EmptyString [] v in
  getAbstractFileByPath v (folderOf e (targetPath s e "2024/03/15 - Friday")) <> None
  /\ folders (vaultOf o) = [].
Proof.
  intros s e v o.
  assert (H : getAbstractFileByPath v (folderOf e (targetPath s e "2024/03/15 - Friday")) <> None)
    by (vm_compute; discriminate).
  split; [exact H |].
  exact (proj1 (createNewFile_leaves_the_folders_when_one_is_there s e (At Std.mid_march_2024)
                  "2024/03/15 - Friday" EmptyString [] v H)).
Defined.

(** ** createNewFile: the extension *)

Lemma length_append a b : String.length (a ++ b) = (String.length a + String.length b)%nat.
Proof. induction a as [| c a IH]; simpl; [reflexivity | rewrite IH; reflexivity]. Qed.

Lemma substring_append a b : String.substring (String.length a) (String.length b) (a ++ b) = b.
Proof. induction a as [| c a IH]; simpl; [apply substring_all | exact IH]. Qed.

Lemma endsWith_append a b : JS.endsWith (a ++ b) b = true.
Proof.
  unfold JS.endsWith. rewrite length_append.
  replace (Nat.leb (String.length b) (String.length a + String.length b)) with true
    by (symmetry; apply Nat.leb_le; lia).
  replace (String.length a + String.length b - String.length b)%nat with (String.length a) by lia.
  rewrite substring_append. apply String.eqb_refl.
Qed.

(** X4.  The extension is added once (lines 294-296): for a path that
    does not end in [.md], createNewFile does the same with the path and
    with the path followed by [.md]; and a path that it is given with the
    extension is not given a second one. *)
Theorem createNewFile_adds_the_extension_once settings env createdDate newFilePath templateContents
  filesInFolder v :
  JS.endsWith newFilePath ".md" = false ->
  createNewFile settings env createdDate (newFilePath ++ ".md") templateContents filesInFolder v
  = createNewFile settings env createdDate newFilePath templateContents filesInFolder v
  /\ targetPath settings env (newFilePath ++ ".md") = targetPath settings env newFilePath
  /\ (JS.startsWith (newFilePath ++ ".md") (rootFolder settings) = true ->
      forall q, resultOf (createNewFile settings env createdDate newFilePath templateContents
                            filesInFolder v) = Ok q ->
                q = newFilePath ++ ".md").
Proof.
  intros Hno.
  assert (Ht : targetPath settings env (newFilePath ++ ".md") = targetPath settings env newFilePath).
  { unfold targetPath. rewrite endsWith_append, Hno. reflexivity. }
  split; [| split; [exact Ht |]].
  - unfold createNewFile. rewrite Ht. reflexivity.
  - intros Hroot q Hq.
    rewrite (createNewFile_result settings env createdDate newFilePath templateContents
               filesInFolder v q Hq).
    unfold targetPath. rewrite Hno, Hroot. reflexivity.
Qed.

Lemma createNewFile_adds_the_extension_once_witness :
  let s := Std.settings NONE NONE in
  let e := Std.env Std.mid_march_2024 in
  JS.endsWith "Journal/2024/03/15 - Friday" ".md" = false
  /\ createNewFile s e (At Std.mid_march_2024) ("Journal/2024/03/15 - Friday" ++ ".md") EmptyString []
       Std.emptyVault
     = createNewFile s e (At Std.mid_march_2024) "Journal/2024/03/15 - Friday" EmptyString []
         Std.emptyVault.
Proof.
  intros s e.
  assert (H : JS.endsWith "Journal/2024/03/15 - Friday" ".md" = false) by reflexivity.
  split; [exact H |].
  exact (proj1 (createNewFile_adds_the_extension_once s e (At Std.mid_march_2024)
                  "Journal/2024/03/15 - Friday" EmptyString [] Std.emptyVault H)).
Defined.

(** ** createNewFile: the date token at its edges *)

Section EngineCall.

Variable settings : AutoJournalSettings.
Variable env : Env.

(** The trace of createNewFile: the events of the cascade, one call of
    the engine, and then at most the call of [vault.create]. *)
Lemma createNewFile_trace createdDate newFilePath templateContents filesInFolder v :
  let target := targetPath settings env newFilePath in
  let text := templateDate settings env createdDate templateContents in
  exists lf ok rest,
    eventsOf (createNewFile settings env createdDate newFilePath templateContents filesInFolder v)
    = (lf ++ EvExpand text (fileNameNoExtension env target) ok :: rest)%list
    /\ Forall isCascadeEvent lf
    /\ (rest = [] \/ exists content k, rest = [EvCreate target content k]
                        /\ replaceNewFileVars env text (fileNameNoExtension env target) = Ok content).
Proof.
  intros target text.
  destruct (createNewFile_itself settings env createdDate newFilePath templateContents filesInFolder v)
    as (lf & Hev & _ & _ & _ & _ & _ & Hrest).
  fold target in Hrest. fold text in Hrest.
  destruct (replaceNewFileVars env text (fileNameNoExtension env target)) as [content | msg0].
  - destruct (labelTaken env (dayPartOf env target) filesInFolder).
    + destruct Hrest as (Hl & _). exists lf, true, []. rewrite Hl.
      split; [reflexivity |]. split; [exact Hev |]. left. reflexivity.
    + destruct Hrest as [(Hl & _) | (Hl & _)]; rewrite Hl.
      * exists lf, true, [EvCreate target content true].
        split; [reflexivity |]. split; [exact Hev |]. right. eauto.
      * exists lf, true, [EvCreate target content false].
        split; [reflexivity |]. split; [exact Hev |]. right. eauto.
  - destruct Hrest as (Hl & _). exists lf, false, []. rewrite Hl.
    split; [reflexivity |]. split; [exact Hev |]. left. reflexivity.
Qed.

End EngineCall.

Lemma indexOf_empty s : JS.indexOf s EmptyString = Some 0%nat.
Proof. destruct s; reflexivity. Qed.

Lemma replace_empty_pattern s r :
  JS.replace s EmptyString r = JS.getSubstitution EmptyString EmptyString s r ++ s.
Proof.
  assert (H0 : String.substring 0 0 s = EmptyString) by (destruct s; reflexivity).
  unfold JS.replace. rewrite indexOf_empty. cbv zeta.
  cbn [String.length Nat.add]. rewrite H0, Nat.sub_0_r, substring_all. reflexivity.
Qed.

(** X5.  The date token at its edges (lines 337-345).  When date
    templating is off, or the template does not contain the token, the
    engine receives the template as it is.  When templating is on and the
    token is the empty string, every template contains it, at its start:
    the engine receives the formatted date, with its [$] patterns expanded
    as String.prototype.replace does for a replacement text, followed by
    the whole template; and when the formatted date contains no [$], the
    engine receives the formatted date itself followed by the whole
    template. *)
Theorem createNewFile_date_token_edges settings env createdDate newFilePath templateContents
  filesInFolder v :
  let name := fileNameNoExtension env (targetPath settings env newFilePath) in
  let dateText := format env createdDate (templateDateFormat settings) in
  let o := createNewFile settings env createdDate newFilePath templateContents filesInFolder v in
  (shouldTemplateDate settings = false
   \/ JS.includes templateContents (templateDateToken settings) = false ->
   exists ok, In (EvExpand templateContents name ok) (eventsOf o))
  /\ (shouldTemplateDate settings = true -> templateDateToken settings = EmptyString ->
      exists ok,
        In (EvExpand (JS.getSubstitution EmptyString EmptyString templateContents dateText
                      ++ templateContents) name ok) (eventsOf o))
  /\ (shouldTemplateDate settings = true -> templateDateToken settings = EmptyString ->
      JS.noDollar dateText = true ->
      exists ok, In (EvExpand (dateText ++ templateContents) name ok) (eventsOf o)).
Proof.
  intros name dateText o.
  destruct (createNewFile_trace settings env createdDate newFilePath templateContents filesInFolder v)
    as (lf & ok & rest & Hl & _).
  fold o in Hl. fold name in Hl.
  split; [| split].
  - intros Hoff. exists ok. rewrite Hl. apply in_or_app. right. left.
    unfold templateDate. destruct Hoff as [-> | ->]; [reflexivity |].
    rewrite Bool.andb_false_r. reflexivity.
  - intros Hon Htok. exists ok. rewrite Hl. apply in_or_app. right. left.
    unfold templateDate. rewrite Hon, Htok.
    unfold JS.includes. rewrite indexOf_empty. cbn [andb].
    rewrite replace_empty_pattern. reflexivity.
  - intros Hon Htok Hnd. exists ok. rewrite Hl. apply in_or_app. right. left.
    unfold templateDate. rewrite Hon, Htok.
    unfold JS.includes. rewrite indexOf_empty. cbn [andb].
    rewrite replace_empty_pattern. fold dateText.
    rewrite (getSubstitution_noDollar _ _ _ _ Hnd). reflexivity.
Qed.

(** With an empty token and a date format that writes a [$], the [$$] of
    the formatted date is expanded to one [$]. *)
Example empty_token_expands_the_patterns_of_the_date :
  let s := withTemplateDateToken EmptyString
             (Scenario.custom "Journal" EmptyString "[$$]YYYY" NONE NONE) in
  let e := Std.env Std.mid_march_2024 in
  format e (At Std.mid_march_2024) (templateDateFormat s) = "$$2024"
  /\ eventsOf (createNewFile s e (At Std.mid_march_2024) "2024/03/15 - Friday" "Dear diary" []
                 (mkVault [] ["Journal/2024/03"]))
     = [EvExpand "$2024Dear diary" "15 - Friday" true;
        EvCreate "Journal/2024/03/15 - Friday.md" "$2024Dear diary" true].
Proof. vm_compute. split; reflexivity. Qed.

(** With an empty token the date comes first. *)
Example empty_token_puts_the_date_first :
  let s := withTemplateDateToken EmptyString (Std.settings NONE NONE) in
  let e := Std.env Std.mid_march_2024 in
  eventsOf (createNewFile s e (At Std.mid_march_2024) "2024/03/15 - Friday" "Dear diary" []
              (mkVault [] ["Journal/2024/03"]))
  = [EvExpand "2024-03-15Dear diary" "15 - Friday" true;
     EvCreate "Journal/2024/03/15 - Friday.md" "2024-03-15Dear diary" true].
Proof. vm_compute. reflexivity. Qed.

(** ** getNoteTemplateContents: the file that is read *)

Lemma hasFile_contentOf v p : hasFile v p = true -> exists c, contentOf v p = Some c.
Proof.
  unfold hasFile, contentOf. induction (files v) as [| [q c] rest IH]; simpl; [discriminate |].
  destruct (String.eqb q p); simpl; [intros _; exists c; reflexivity | exact IH].
Qed.

Section TemplateFile.

Variable settings : AutoJournalSettings.
Variable env : Env.

(** No file at the path of the template: a notice, and null. *)
Lemma template_absent type v :
  templatePathOf settings type <> EmptyString ->
  hasFile v (templateFile settings type) = false ->
  getNoteTemplateContents settings env type v
  = (Ok None, v, [EvNotice (templateNotice env type (templatePathOf settings type) v)]).
Proof.
  unfold getNoteTemplateContents, templateFile, templateNotice. intros Hne Hno.
  destruct (templatePathOf settings type) as [| a rest] eqn:E; [congruence |].
  cbn [JS.truthyString]. unfold bind, vaultLookup, getAbstractFileByPath. rewrite Hno.
  destruct (hasFolder v _); reflexivity.
Qed.

(** A file at the path of the template: it is read. *)
Lemma template_present type v :
  templatePathOf settings type <> EmptyString ->
  hasFile v (templateFile settings type) = true ->
  getNoteTemplateContents settings env type v
  = (if storeRejects env (OpRead (templateFile settings type))
     then (Throw (storeError env (OpRead (templateFile settings type))), v,
           [EvRead (templateFile settings type) false])
     else match contentOf v (templateFile settings type) with
          | Some c => (Ok (Some c), v, [EvRead (templateFile settings type) true])
          | None => (Ok None, v, [])
          end)
  /\ exists c, contentOf v (templateFile settings type) = Some c.
Proof.
  unfold getNoteTemplateContents, templateFile. intros Hne Hyes.
  destruct (hasFile_contentOf _ _ Hyes) as [c Hc]. split; [| exists c; exact Hc].
  destruct (templatePathOf settings type) as [| a rest] eqn:E; [congruence |].
  cbn [JS.truthyString]. unfold bind, vaultLookup, getAbstractFileByPath. rewrite Hyes.
  unfold vaultRead. rewrite Hc.
  destruct (storeRejects env _); reflexivity.
Qed.

End TemplateFile.

(** X6.  getNoteTemplateContents looks for the template at its path
    followed by [.md] and leaves the vault as it is.  When a file is there
    it is read and its contents are the template (the error of a read that
    the vault rejects is thrown); when no file is there the result is null
    and one Notice is raised, that the template is a directory when a
    folder is at that path and that it is not found otherwise; no error is
    reported through errorNotification. *)
Theorem getNoteTemplateContents_reads_the_template_file settings env type v :
  let path := templatePathOf settings type in
  let file := path ++ ".md" in
  let o := getNoteTemplateContents settings env type v in
  vaultOf o = v
  /\ (path <> EmptyString -> hasFile v file = true ->
      exists c,
        contentOf v file = Some c
        /\ (storeRejects env (OpRead file) = false -> o = (Ok (Some c), v, [EvRead file true]))
        /\ (storeRejects env (OpRead file) = true ->
            o = (Throw (storeError env (OpRead file)), v, [EvRead file false])))
  /\ (path <> EmptyString -> hasFile v file = false ->
      o = (Ok None, v,
           [EvNotice (if hasFolder v file then templateIsDirectory env type path
                      else templateNotFound env type path)])).
Proof.
  intros path file o. split; [| split].
  - exact (proj1 (wp_elim _ _ _ (getNoteTemplateContents_spec settings env type v))).
  - intros Hne Hyes. destruct (template_present settings env type v Hne Hyes) as (Ho & c & Hc).
    fold o in Ho. unfold templateFile in Ho, Hc. fold path in Ho, Hc. fold file in Ho, Hc.
    exists c. split; [exact Hc |]. rewrite Ho, Hc.
    split; intros ->; reflexivity.
  - intros Hne Hno. exact (template_absent settings env type v Hne Hno).
Qed.

(** A template that is in the vault is read back. *)
Example template_is_read_back :
  let s := Scenario.custom "Journal" "Templates/Daily" "YYYY-MM-DD" NONE NONE in
  let e := Std.env Std.mid_march_2024 in
  let v := mkVault [("Templates/Daily.md", "# {{date}}")] ["Templates"] in
  getNoteTemplateContents s e Daily v = (Ok (Some "# {{date}}"), v, [EvRead "Templates/Daily.md" true])
  /\ getNoteTemplateContents s e Daily (mkVault [] ["Templates"; "Templates/Daily.md"])
     = (Ok None, mkVault [] ["Templates"; "Templates/Daily.md"],
        [EvNotice "Auto Journal: daily notes template file Templates/Daily is a directory, not a file. Please update template file in the settings."]).
Proof. split; vm_compute; reflexivity. Qed.

(** ** A cadence whose template cannot be used *)

Lemma bind_value {A B} (m : M A) (k : A -> M B) v a l :
  m v = (Ok a, v, l) ->
  bind m k v = (resultOf (k a v), vaultOf (k a v), (l ++ eventsOf (k a v))%list).
Proof.
  intros H. unfold bind. rewrite H. destruct (k a v) as [[r v'] l']. reflexivity.
Qed.

(** X7.  When the template path of a cadence is not empty and no file is
    at that path followed by [.md], the cadence stops at once: it raises
    the one Notice of getNoteTemplateContents, returns without an error,
    calls neither the engine nor [vault.create] nor [vault.createFolder],
    and leaves the vault as it is.  [run] then goes on with the monthly
    notes from the vault as it was. *)
Theorem unusable_template_stops_its_cadence settings env v :
  (dailyNotesTemplateFile settings <> EmptyString ->
   hasFile v (templateFile settings Daily) = false ->
   createDailyNote settings env v
   = (Ok tt, v, [EvNotice (templateNotice env Daily (dailyNotesTemplateFile settings) v)])
   /\ (dailyNotesEnabled settings = true -> monthlyNotesEnabled settings = true ->
       vaultOf (run settings env v) = vaultOf (createMonthlyNote settings env v)
       /\ eventsOf (run settings env v)
          = EvNotice (templateNotice env Daily (dailyNotesTemplateFile settings) v)
            :: (eventsOf (createMonthlyNote settings env v)
                ++ branchReport settings (resultOf (createMonthlyNote settings env v)))%list))
  /\ (monthlyNotesTemplateFile settings <> EmptyString ->
      hasFile v (templateFile settings Monthly) = false ->
      createMonthlyNote settings env v
      = (Ok tt, v, [EvNotice (templateNotice env Monthly (monthlyNotesTemplateFile settings) v)])).
Proof.
  split.
  - intros Hne Hno.
    assert (Hd : createDailyNote settings env v
                 = (Ok tt, v, [EvNotice (templateNotice env Daily (dailyNotesTemplateFile settings) v)])).
    { unfold createDailyNote.
      rewrite (bind_value _ _ v None _ (template_absent settings env Daily v Hne Hno)). reflexivity. }
    split; [exact Hd |]. intros Hon Hmon.
    destruct (run_decompose settings env v) as (_ & Hv & Hl).
    rewrite Hon, Hmon, Hd in Hv, Hl. split; [exact Hv | exact Hl].
  - intros Hne Hno. unfold createMonthlyNote.
    rewrite (bind_value _ _ v None _ (template_absent settings env Monthly v Hne Hno)). reflexivity.
Qed.

(** ** run only adds to the vault *)

Lemma run_extends settings env v : extends v (vaultOf (run settings env v)).
Proof.
  destruct (run_decompose settings env v) as (_ & Hv & _). rewrite Hv.
  assert (Hd : extends v (if dailyNotesEnabled settings
                          then vaultOf (createDailyNote settings env v) else v)).
  { destruct (dailyNotesEnabled settings); [apply daily_extends | apply extends_refl]. }
  destruct (monthlyNotesEnabled settings); [| exact Hd].
  eapply extends_trans; [exact Hd | apply monthly_extends].
Qed.

Lemma extends_hasFolder v v' p : extends v v' -> hasFolder v p = true -> hasFolder v' p = true.
Proof.
  intros [_ [more Hd]] H. unfold hasFolder in *. rewrite Hd, existsb_app, H. reflexivity.
Qed.

(** X8.  [run] only adds to the vault: the files and the folders that
    were there are there in the end, in the same order and before the new
    ones, and the contents of a file that was there are what they were.
    No note is overwritten, moved or removed. *)
Theorem run_only_adds_to_the_vault settings env v :
  let v' := vaultOf (run settings env v) in
  (exists moreFiles, files v' = (files v ++ moreFiles)%list)
  /\ (exists moreFolders, folders v' = (folders v ++ moreFolders)%list)
  /\ (forall p, hasFile v p = true -> hasFile v' p = true /\ contentOf v' p = contentOf v p)
  /\ (forall p, hasFolder v p = true -> hasFolder v' p = true).
Proof.
  intros v'. pose proof (run_extends settings env v) as Hext. fold v' in Hext.
  split; [exact (proj1 Hext) |]. split; [exact (proj2 Hext) |]. split.
  - intros p Hp. split; [eapply extends_hasFile; eauto | apply extends_contentOf; assumption].
  - intros p Hp. eapply extends_hasFolder; eauto.
Qed.

(** A note that was written by hand is kept as it is. *)
Example a_note_of_today_is_kept :
  let s := Std.settings YEAR YEAR in
  let e := Std.env Std.mid_march_2024 in
  let v := mkVault [("Journal/2024/03/15 - Friday.md", "written by hand")] [] in
  contentOf (vaultOf (run s e v)) "Journal/2024/03/15 - Friday.md" = Some "written by hand"
  /\ List.length (files (vaultOf (run s e v))) = 78%nat.
Proof. vm_compute. split; reflexivity. Qed.

(** ** The calls of a pass, one by one *)

Lemma engineCalls_app l1 l2 : engineCalls (l1 ++ l2) = (engineCalls l1 ++ engineCalls l2)%list.
Proof. apply filter_app. Qed.

Lemma createdPaths_app l1 l2 : createdPaths (l1 ++ l2) = (createdPaths l1 ++ createdPaths l2)%list.
Proof. unfold createdPaths. rewrite createdFiles_app. apply map_app. Qed.

Lemma createAttempts_app l1 l2 :
  createAttempts (l1 ++ l2) = (createAttempts l1 ++ createAttempts l2)%list.
Proof. apply flat_map_app. Qed.

Lemma cascade_events_attempts lf : Forall isCascadeEvent lf -> createAttempts lf = [].
Proof.
  induction 1 as [| ev lf Hev _ IH]; [reflexivity |].
  unfold createAttempts in *. simpl. rewrite IH.
  destruct ev; simpl in *; try reflexivity; destruct Hev.
Qed.

Lemma cascade_events_calls lf : Forall isCascadeEvent lf -> engineCalls lf = [].
Proof.
  induction 1 as [| ev lf Hev _ IH]; [reflexivity |].
  unfold engineCalls in *. simpl. rewrite IH.
  destruct ev; simpl in *; try reflexivity; destruct Hev.
Qed.

Lemma Subsequence_refl {A} (l : list A) : Subsequence l l.
Proof. induction l; constructor; assumption. Qed.

Lemma Subsequence_length {A} (l1 l2 : list A) :
  Subsequence l1 l2 -> (List.length l1 <= List.length l2)%nat.
Proof. induction 1; simpl; lia. Qed.

Lemma flat_map_one {A B} (f : A -> B) (l : list A) : flat_map (fun x => [f x]) l = map f l.
Proof. induction l as [| x l IH]; simpl; [reflexivity | rewrite IH; reflexivity]. Qed.

Section PassCalls.

Variable settings : AutoJournalSettings.
Variable env : Env.
Variable templateContents : string.
Variable listing : list string.

(** createNewFile calls the engine once and creates at most the file of
    its path. *)
Lemma createNewFile_calls createdDate newFilePath v :
  let target := targetPath settings env newFilePath in
  let text := templateDate settings env createdDate templateContents in
  let l := eventsOf (createNewFile settings env createdDate newFilePath templateContents listing v) in
  engineCalls l = [EvExpand text (fileNameNoExtension env target)
                     (engineOk env text (fileNameNoExtension env target))]
  /\ (createdPaths l = [] \/ createdPaths l = [target])
  /\ createAttempts l
     = match replaceNewFileVars env text (fileNameNoExtension env target) with
       | Ok content =>
           if labelTaken env (dayPartOf env target) listing then [] else [(target, content)]
       | Throw _ => []
       end.
Proof.
  intros target text l.
  destruct (createNewFile_itself settings env createdDate newFilePath templateContents listing v)
    as (lf & Hev & _ & _ & _ & _ & _ & Hrest).
  fold target in Hrest. fold text in Hrest. fold l in Hrest.
  pose proof (cascade_events_calls lf Hev) as Hc.
  pose proof (cascade_events_files lf Hev) as Hf.
  pose proof (cascade_events_attempts lf Hev) as Ha.
  unfold engineOk. unfold createdPaths.
  destruct (replaceNewFileVars env text (fileNameNoExtension env target)) as [content | msg0].
  - destruct (labelTaken env (dayPartOf env target) listing).
    + destruct Hrest as (-> & _).
      rewrite engineCalls_app, createdFiles_app, createAttempts_app, Hc, Hf, Ha. auto.
    + destruct Hrest as [(-> & _) | (-> & _)];
        rewrite engineCalls_app, createdFiles_app, createAttempts_app, Hc, Hf, Ha; auto.
  - destruct Hrest as (-> & _).
    rewrite engineCalls_app, createdFiles_app, createAttempts_app, Hc, Hf, Ha. auto.
Qed.

(** One candidate of a pass. *)
Lemma step_calls c v :
  wp (if handedOver env listing c
      then catch (createNewFile settings env (stamp c) (notePath c) templateContents listing)
                 (reportError settings)
      else ret tt)
     (fun r _ l =>
        r = Ok tt
        /\ engineCalls l = (if handedOver env listing c
                            then [engineCallOf settings env templateContents c] else [])
        /\ Subsequence (createdPaths l) [targetPath settings env (notePath c)]
        /\ createAttempts l = createCallsOf settings env templateContents listing c) v.
Proof.
  unfold createCallsOf. destruct (handedOver env listing c).
  - apply wp_catch. eapply wp_mono; [| apply wp_itself].
    intros r v1 l1 (-> & _ & ->).
    destruct (createNewFile_calls (stamp c) (notePath c) v) as (Hcall & Hpaths & Hatt).
    cbv zeta in Hcall, Hpaths, Hatt.
    assert (Hatt' :
      createAttempts (eventsOf (createNewFile settings env (stamp c) (notePath c)
                                  templateContents listing v))
      = (if (true && negb (labelTaken env (dayPartOf env (targetPath settings env (notePath c)))
                             listing))%bool
         then match replaceNewFileVars env (templateDate settings env (stamp c) templateContents)
                      (fileNameNoExtension env (targetPath settings env (notePath c))) with
              | Ok content => [(targetPath settings env (notePath c), content)]
              | Throw _ => []
              end
         else [])).
    { rewrite Hatt. cbn [andb].
      destruct (replaceNewFileVars env _ _); destruct (labelTaken env _ listing); reflexivity. }
    clear Hatt.
    assert (Hsub : Subsequence
                     (createdPaths (eventsOf (createNewFile settings env (stamp c) (notePath c)
                                                templateContents listing v)))
                     [targetPath settings env (notePath c)]).
    { destruct Hpaths as [-> | ->]; [constructor | apply Subsequence_refl]. }
    destruct (resultOf _) as [q | msg].
    + auto.
    + unfold reportError, errorNotification. apply wp_emit.
      rewrite engineCalls_app, createdPaths_app, createAttempts_app. simpl. rewrite !app_nil_r. auto.
  - apply wp_ret. split; [reflexivity |]. split; [reflexivity |]. split; [constructor | reflexivity].
Qed.

(** The engine is called for the candidates that are handed over, once
    each and in their order; the files created are files of candidates, in
    their order, at most one for each. *)
Lemma pass_calls cs :
  forall v,
    wp (pass settings env templateContents listing cs)
       (fun r _ l =>
          r = Ok tt
          /\ engineCalls l
             = map (engineCallOf settings env templateContents) (filter (handedOver env listing) cs)
          /\ Subsequence (createdPaths l) (map (fun c => targetPath settings env (notePath c)) cs)
          /\ createAttempts l
             = flat_map (createCallsOf settings env templateContents listing) cs) v.
Proof.
  unfold pass. induction cs as [| c rest IH]; intros v.
  - apply wp_ret. split; [reflexivity |]. split; [reflexivity |]. split; [constructor | reflexivity].
  - cbn [forEach]. apply wp_bind.
    eapply wp_mono; [| apply (step_calls c v)].
    intros r v1 l1 (-> & Hc1 & Hp1 & Ha1).
    eapply wp_mono; [| apply (IH v1)].
    intros r v2 l2 (-> & Hc2 & Hp2 & Ha2).
    split; [reflexivity |].
    rewrite engineCalls_app, createdPaths_app, createAttempts_app, Hc1, Hc2, Ha1, Ha2. split.
    + cbn [filter]. destruct (handedOver env listing c); reflexivity.
    + split; [exact (Subsequence_app _ _ _ _ Hp1 Hp2) | reflexivity].
Qed.

End PassCalls.

(** ** createMonthlyNote: the calls of the engine *)

Section CadenceCalls.

Variable settings : AutoJournalSettings.
Variable env : Env.

Lemma template_value type v :
  getNoteTemplateContents settings env type v
  = (resultOf (getNoteTemplateContents settings env type v), v,
     eventsOf (getNoteTemplateContents settings env type v)).
Proof.
  pose proof (proj1 (wp_elim _ _ _ (getNoteTemplateContents_spec settings env type v))) as H.
  revert H. destruct (getNoteTemplateContents settings env type v) as [[r v'] l].
  unfold vaultOf. simpl. intros ->. reflexivity.
Qed.

(** The events of getNoteTemplateContents are a notice or a read. *)
Lemma template_events type v ev :
  In ev (eventsOf (getNoteTemplateContents settings env type v)) ->
  match ev with
  | EvNotice _ | EvRead _ _ => True
  | _ => False
  end.
Proof.
  intros Hin.
  exact (template_outcome_events settings env type v _ _ ev
           (proj2 (wp_elim _ _ _ (getNoteTemplateContents_spec settings env type v))) Hin).
Qed.

Lemma template_no_calls type v :
  engineCalls (eventsOf (getNoteTemplateContents settings env type v)) = []
  /\ createdFiles (eventsOf (getNoteTemplateContents settings env type v)) = [].
Proof.
  pose proof (template_events type v) as H.
  induction (eventsOf (getNoteTemplateContents settings env type v)) as [| ev l IH];
    [split; reflexivity |].
  destruct IH as [IH1 IH2]; [intros x Hx; apply H; right; exact Hx |].
  specialize (H ev (or_introl eq_refl)).
  unfold engineCalls, createdFiles in *. simpl. rewrite IH1, IH2.
  destruct ev; simpl in *; try destruct H; auto.
Qed.

Lemma template_no_attempts type v :
  createAttempts (eventsOf (getNoteTemplateContents settings env type v)) = [].
Proof.
  pose proof (template_events type v) as H.
  induction (eventsOf (getNoteTemplateContents settings env type v)) as [| ev l IH];
    [reflexivity |].
  unfold createAttempts in *. simpl.
  rewrite IH by (intros x Hx; apply H; right; exact Hx).
  specialize (H ev (or_introl eq_refl)). destruct ev; simpl in *; try destruct H; reflexivity.
Qed.

(** With its template, createMonthlyNote is one pass over the twelve
    months against the files listed under the monthly folder. *)
Lemma createMonthlyNote_is_a_pass v templateContents :
  resultOf (getNoteTemplateContents settings env Monthly v) = Ok (Some templateContents) ->
  let o := pass settings env templateContents (monthlyListing settings env v)
             (monthlyCandidates settings env) v in
  createMonthlyNote settings env v
  = (resultOf o, vaultOf o,
     (eventsOf (getNoteTemplateContents settings env Monthly v) ++ eventsOf o)%list).
Proof.
  intros Htpl o. unfold createMonthlyNote.
  pose proof (template_value Monthly v) as Hval. rewrite Htpl in Hval.
  rewrite (bind_value _ _ v _ _ Hval). cbv zeta.
  rewrite bind_vaultGetFiles.
  fold (yearLabel settings env). fold (monthlyFolder settings env).
  fold (monthlyListing settings env v).
  rewrite monthlyLoop_pass. reflexivity.
Qed.

(** With its template, createDailyNote is the loop over the twelve
    months. *)
Lemma createDailyNote_is_its_loop v templateContents :
  resultOf (getNoteTemplateContents settings env Daily v) = Ok (Some templateContents) ->
  let o := forEach (range 0 11) (dailyMonth settings env templateContents (yearLabel settings env)) v in
  createDailyNote settings env v
  = (resultOf o, vaultOf o,
     (eventsOf (getNoteTemplateContents settings env Daily v) ++ eventsOf o)%list).
Proof.
  intros Htpl o. unfold createDailyNote.
  pose proof (template_value Daily v) as Hval. rewrite Htpl in Hval.
  rewrite (bind_value _ _ v _ _ Hval). reflexivity.
Qed.

Lemma createMonthlyNote_engine_calls v templateContents :
  resultOf (getNoteTemplateContents settings env Monthly v) = Ok (Some templateContents) ->
  engineCalls (eventsOf (createMonthlyNote settings env v))
  = map (engineCallOf settings env templateContents)
      (filter (handedOver env (monthlyListing settings env v)) (monthlyCandidates settings env)).
Proof.
  intros Htpl. rewrite (createMonthlyNote_is_a_pass v templateContents Htpl).
  cbn [eventsOf snd]. rewrite engineCalls_app.
  rewrite (proj1 (template_no_calls Monthly v)). cbn [app].
  exact (proj1 (proj2 (wp_elim _ _ _ (pass_calls settings env templateContents _ _ v)))).
Qed.

End CadenceCalls.

(** X9.  With its template, createMonthlyNote calls the engine once for
    each month that passes the guards and whose label no file listed under
    the monthly folder carries, in the order of the months, and for nothing
    else.  The listing is the one taken before the loop (lines 200-215): a
    note created for a month is not seen by the months after it. *)
Theorem createMonthlyNote_calls_the_engine_once_a_month settings env v templateContents :
  resultOf (getNoteTemplateContents settings env Monthly v) = Ok (Some templateContents) ->
  engineCalls (eventsOf (createMonthlyNote settings env v))
  = map (engineCallOf settings env templateContents)
      (filter (handedOver env (monthlyListing settings env v)) (monthlyCandidates settings env)).
Proof. apply createMonthlyNote_engine_calls. Qed.

Lemma createMonthlyNote_calls_the_engine_once_a_month_witness :
  let s := Std.settings NONE YEAR in
  let e := Std.env Std.mid_march_2024 in
  let v := mkVault [("Journal/2024/Monthly/02 - plans.md", "mine")] [] in
  resultOf (getNoteTemplateContents s e Monthly v) = Ok (Some EmptyString)
  /\ engineCalls (eventsOf (createMonthlyNote s e v))
     = map (engineCallOf s e EmptyString)
         (filter (handedOver e (monthlyListing s e v)) (monthlyCandidates s e))
  /\ engineCalls (eventsOf (createMonthlyNote s e v))
     = [EvExpand EmptyString "01 -" true; EvExpand EmptyString "03 -" true].
Proof.
  intros s e v.
  assert (H : resultOf (getNoteTemplateContents s e Monthly v) = Ok (Some EmptyString)) by reflexivity.
  split; [exact H |].
  split; [exact (createMonthlyNote_calls_the_engine_once_a_month s e v EmptyString H) |].
  vm_compute. reflexivity.
Defined.

(** ** The day of the monthly notes set to 0 *)

Lemma filter_map {A B} (g : A -> B) (h : B -> bool) (l : list A) :
  filter h (map g l) = map g (filter (fun x => h (g x)) l).
Proof.
  induction l as [| x l IH]; simpl; [reflexivity |].
  destruct (h (g x)); simpl; rewrite IH; reflexivity.
Qed.

Lemma first_months c (A : Type) (a : A) :
  0 <= c <= 11 ->
  map (fun _ => a) (filter (fun m => m <=? c) (range 0 11)) = repeat a (Z.to_nat (c + 1)).
Proof.
  intros Hc.
  assert (H : c = 0 \/ c = 1 \/ c = 2 \/ c = 3 \/ c = 4 \/ c = 5 \/ c = 6 \/ c = 7 \/ c = 8
              \/ c = 9 \/ c = 10 \/ c = 11) by lia.
  repeat (destruct H as [-> | H]; [reflexivity |]). subst c. reflexivity.
Qed.

Section DayOfMonthZero.

Variable settings : AutoJournalSettings.
Variable env : Env.
Hypothesis Hzero : monthlyNotesDayOfMonth settings = 0.

(** newDate with a day that is 0 is the present time (line 373). *)
Lemma monthDate_zero m : monthDate settings env m = now env.
Proof.
  unfold monthDate, newDate. rewrite Hzero. cbn [JS.truthyNumber Z.eqb negb].
  rewrite Bool.orb_true_r. reflexivity.
Qed.

Lemma monthlyCandidate_zero m :
  0 <= i_date (clock env) ->
  monthlyCandidate settings env m
  = {| guard := m <=? i_month (clock env);
       label := monthLabel settings env (now env);
       stamp := monthlyCreateFileDate settings env (now env);
       notePath := format env (now env) (monthlyFileFormat settings) |}.
Proof.
  intros Hdate. unfold monthlyCandidate, monthlyGuard. rewrite monthDate_zero, Hzero.
  f_equal. cbn [Calendar.month Calendar.date now JS.num_lt].
  rewrite String.eqb_refl. cbn [negb]. rewrite Bool.andb_false_r. cbn [negb].
  replace (i_date (clock env) <? 0) with false by (symmetry; apply Z.ltb_ge; exact Hdate).
  cbn [andb negb]. rewrite !Bool.andb_true_r. symmetry. apply Z.leb_antisym.
Qed.

End DayOfMonthZero.

(** X10.  When monthlyNotesDayOfMonth is 0, newDate takes the day for
    missing and gives the present time for every month (line 373): the
    twelve months are all candidates for the note of the current month.
    Whatever the policy, when no listed file carries the label of the
    current month, createMonthlyNote hands the same path to createNewFile
    once for each month from January to the current one: the engine is
    called that many times for the one note. *)
Theorem day_of_month_zero_repeats_the_current_month settings env v templateContents :
  monthlyNotesDayOfMonth settings = 0 ->
  0 <= i_month (clock env) <= 11 -> 0 <= i_date (clock env) ->
  resultOf (getNoteTemplateContents settings env Monthly v) = Ok (Some templateContents) ->
  labelTaken env (monthLabel settings env (now env)) (monthlyListing settings env v) = false ->
  let target := targetPath settings env (format env (now env) (monthlyFileFormat settings)) in
  let text := templateDate settings env (monthlyCreateFileDate settings env (now env))
                templateContents in
  (forall m, monthDate settings env m = now env /\ monthlyPath settings env m = target)
  /\ engineCalls (eventsOf (createMonthlyNote settings env v))
     = repeat (EvExpand text (fileNameNoExtension env target)
                 (engineOk env text (fileNameNoExtension env target)))
         (Z.to_nat (i_month (clock env) + 1)).
Proof.
  intros Hzero Hmonth Hdate Htpl Hfree target text. split.
  - intros m. split; [apply monthDate_zero; exact Hzero |].
    unfold monthlyPath. rewrite monthDate_zero by exact Hzero. reflexivity.
  - rewrite (createMonthlyNote_engine_calls settings env v templateContents Htpl).
    unfold monthlyCandidates. rewrite filter_map, map_map.
    rewrite (filter_ext _ (fun m => m <=? i_month (clock env))).
    2: { intros m. rewrite (monthlyCandidate_zero settings env Hzero m Hdate).
         unfold handedOver. cbn [guard label]. rewrite Hfree. apply Bool.andb_true_r. }
    rewrite <- (first_months _ _ _ Hmonth). apply map_ext. intros m.
    rewrite (monthlyCandidate_zero settings env Hzero m Hdate). reflexivity.
Qed.

Lemma day_of_month_zero_repeats_the_current_month_witness :
  let s := withMonthlyNotesDayOfMonth 0 (Std.settings NONE NONE) in
  let e := Std.env Std.mid_march_2024 in
  monthlyNotesDayOfMonth s = 0
  /\ 0 <= i_month (clock e) <= 11 /\ 0 <= i_date (clock e)
  /\ resultOf (getNoteTemplateContents s e Monthly Std.emptyVault) = Ok (Some EmptyString)
  /\ labelTaken e (monthLabel s e (now e)) (monthlyListing s e Std.emptyVault) = false
  /\ engineCalls (eventsOf (createMonthlyNote s e Std.emptyVault))
     = repeat (EvExpand EmptyString "03 -" true) 3.
Proof.
  intros s e.
  assert (H1 : monthlyNotesDayOfMonth s = 0) by reflexivity.
  assert (H2 : 0 <= i_month (clock e) <= 11) by (simpl; lia).
  assert (H3 : 0 <= i_date (clock e)) by (simpl; lia).
  assert (H4 : resultOf (getNoteTemplateContents s e Monthly Std.emptyVault) = Ok (Some EmptyString))
    by reflexivity.
  assert (H5 : labelTaken e (monthLabel s e (now e)) (monthlyListing s e Std.emptyVault) = false)
    by reflexivity.
  split; [exact H1 |]. split; [exact H2 |]. split; [exact H3 |]. split; [exact H4 |].
  split; [exact H5 |].
  exact (proj2 (day_of_month_zero_repeats_the_current_month s e Std.emptyVault EmptyString
                  H1 H2 H3 H4 H5)).
Defined.

(** On 2024-03-15 under the policy NONE: the note of March is created by
    the month of January, and the months of February and March are refused
    by the vault and reported. *)
Example day_of_month_zero_in_march :
  let s := withMonthlyNotesDayOfMonth 0 (Std.settings NONE NONE) in
  let e := Std.env Std.mid_march_2024 in
  eventsOf (createMonthlyNote s e (mkVault [] ["Journal/2024/Monthly"]))
  = [EvExpand EmptyString "03 -" true;
     EvCreate "Journal/2024/Monthly/03 -.md" EmptyString true;
     EvExpand EmptyString "03 -" true;
     EvCreate "Journal/2024/Monthly/03 -.md" EmptyString false;
     EvError "Cannot create file Journal/2024/Monthly/03 -.md" false;
     EvExpand EmptyString "03 -" true;
     EvCreate "Journal/2024/Monthly/03 -.md" EmptyString false;
     EvError "Cannot create file Journal/2024/Monthly/03 -.md" false].
Proof. vm_compute. reflexivity. Qed.

(** ** createDailyNote under the policies MONTH and NONE *)

Lemma NoDup_months : NoDup (range 0 11).
Proof.
  change (range 0 11) with [0; 1; 2; 3; 4; 5; 6; 7; 8; 9; 10; 11].
  repeat (constructor;
          [simpl; intros H; repeat (destruct H as [H | H]; [discriminate H |]); exact H |]).
  constructor.
Qed.


Section CurrentMonthOnly.

Variable settings : AutoJournalSettings.
Variable env : Env.
Hypothesis Hpolicy : dailyNotesBackfill settings <> YEAR.
Hypothesis Hdiffer : otherMonthsDiffer settings env = true.





End CurrentMonthOnly.




(** ** The order in which the notes are created *)

Lemma quiet_events l :
  (forall ev, In ev l -> match ev with
                         | EvNotice _ | EvRead _ _ | EvError _ _ => True
                         | _ => False
                         end) ->
  createdFiles l = [].
Proof.
  induction l as [| ev l IH]; intros H; [reflexivity |].
  unfold createdFiles in *. simpl. rewrite IH by (intros x Hx; apply H; right; exact Hx).
  specialize (H ev (or_introl eq_refl)). destruct ev; simpl in *; try destruct H; reflexivity.
Qed.

Lemma branchReport_creates_nothing settings r : createdFiles (branchReport settings r) = [].
Proof. destruct r; reflexivity. Qed.

(** A loop whose bodies create files among those of [g], in order. *)
Lemma forEach_order {A} (g : A -> list string) (body : A -> M unit) (l : list A) :
  (forall x v, In x l -> wp (body x) (fun _ _ ev => Subsequence (createdPaths ev) (g x)) v) ->
  forall v, wp (forEach l body) (fun _ _ ev => Subsequence (createdPaths ev) (flat_map g l)) v.
Proof.
  induction l as [| x l IH]; intros H v; simpl.
  - apply wp_ret. constructor.
  - apply wp_bind. eapply wp_mono; [| apply (H x v); left; reflexivity].
    intros r v1 l1 Hs. destruct r as [a | msg].
    + eapply wp_mono; [| apply IH; intros y w Hy; apply H; right; exact Hy].
      intros r2 v2 l2 Hs2. rewrite createdPaths_app. exact (Subsequence_app _ _ _ _ Hs Hs2).
    + rewrite <- (app_nil_r (createdPaths l1)). apply Subsequence_app; [exact Hs | constructor].
Qed.

Section Order.

Variable settings : AutoJournalSettings.
Variable env : Env.

Lemma dailyMonth_order templateContents m v :
  wp (dailyMonth settings env templateContents (yearLabel settings env) m)
     (fun _ _ ev => Subsequence (createdPaths ev)
                      (map (dailyPath settings env m) (monthDays settings env m))) v.
Proof.
  eapply wp_ext; [apply dailyMonth_pass |].
  destruct (dailyMonthGuard settings env m).
  - eapply wp_mono; [| apply pass_calls]. intros r v' l (_ & _ & Hs & _).
    unfold dailyCandidates in Hs. rewrite map_map in Hs. exact Hs.
  - apply wp_ret. constructor.
Qed.

(** The events of createDailyNote and of createMonthlyNote: those of the
    template, then those of the loop when there is a template. *)
Lemma daily_events v :
  let o := getNoteTemplateContents settings env Daily v in
  eventsOf (createDailyNote settings env v)
  = (eventsOf o
     ++ match resultOf o with
        | Ok (Some templateContents) =>
            eventsOf (forEach (range 0 11)
                        (dailyMonth settings env templateContents (yearLabel settings env)) v)
        | _ => []
        end)%list.
Proof.
  intros o. pose proof (template_value settings env Daily v) as Hval. fold o in Hval.
  unfold createDailyNote, bind. fold o. rewrite Hval. cbn [resultOf eventsOf fst snd].
  destruct (resultOf o) as [[tpl |] | msg].
  - fold (yearLabel settings env).
    destruct (forEach (range 0 11) (dailyMonth settings env tpl (yearLabel settings env)) v)
      as [[r2 v2] l2].
    reflexivity.
  - reflexivity.
  - rewrite app_nil_r. reflexivity.
Qed.

Lemma monthly_events v :
  let o := getNoteTemplateContents settings env Monthly v in
  eventsOf (createMonthlyNote settings env v)
  = (eventsOf o
     ++ match resultOf o with
        | Ok (Some templateContents) =>
            eventsOf (pass settings env templateContents (monthlyListing settings env v)
                        (monthlyCandidates settings env) v)
        | _ => []
        end)%list.
Proof.
  cbv zeta. pose proof (template_value settings env Monthly v) as Hval.
  destruct (resultOf (getNoteTemplateContents settings env Monthly v)) as [[tpl |] | msg] eqn:E.
  - rewrite (createMonthlyNote_is_a_pass settings env v tpl E). reflexivity.
  - unfold createMonthlyNote. rewrite (bind_value _ _ v None _ Hval). reflexivity.
  - unfold createMonthlyNote, bind. rewrite Hval. cbn [eventsOf snd]. rewrite app_nil_r. reflexivity.
Qed.

Lemma template_creates_nothing type v :
  createdFiles (eventsOf (getNoteTemplateContents settings env type v)) = [].
Proof. exact (proj2 (template_no_calls settings env type v)). Qed.

Lemma daily_order v :
  Subsequence (createdPaths (eventsOf (createDailyNote settings env v))) (dailyPaths settings env).
Proof.
  rewrite daily_events. cbv zeta. rewrite createdPaths_app. unfold createdPaths at 1.
  rewrite template_creates_nothing. cbn [map app].
  destruct (resultOf (getNoteTemplateContents settings env Daily v)) as [[tpl |] | msg];
    [| apply Subsequence_nil | apply Subsequence_nil].
  apply (wp_elim _ (fun _ _ ev => Subsequence (createdPaths ev) (dailyPaths settings env))).
  unfold dailyPaths. apply forEach_order. intros m w _. apply dailyMonth_order.
Qed.

Lemma monthly_order v :
  Subsequence (createdPaths (eventsOf (createMonthlyNote settings env v))) (monthlyPaths settings env).
Proof.
  rewrite monthly_events. cbv zeta. rewrite createdPaths_app. unfold createdPaths at 1.
  rewrite template_creates_nothing. cbn [map app].
  destruct (resultOf (getNoteTemplateContents settings env Monthly v)) as [[tpl |] | msg];
    [| apply Subsequence_nil | apply Subsequence_nil].
  pose proof (wp_elim _ _ _ (pass_calls settings env tpl (monthlyListing settings env v)
                               (monthlyCandidates settings env) v)) as (_ & _ & Hs & _).
  unfold monthlyCandidates in Hs. rewrite map_map in Hs. exact Hs.
Qed.

(** The files that a cadence adds are those that its trace creates. *)
Lemma daily_accounts v :
  files (vaultOf (createDailyNote settings env v))
  = (files v ++ createdFiles (eventsOf (createDailyNote settings env v)))%list.
Proof.
  pose proof (wp_elim _ _ _ (createDailyNote_spec settings env v)) as H.
  destruct H as (lt & Hlt & H).
  assert (Hq : createdFiles lt = []).
  { apply quiet_events. intros ev Hin.
    pose proof (template_outcome_events settings env Daily v _ lt ev Hlt Hin) as X.
    destruct ev; tauto. }
  destruct (resultOf (getNoteTemplateContents settings env Daily v)) as [[tpl |] | msg].
  - destruct H as (l1 & _ & -> & _ & Hf & _). rewrite createdFiles_app, Hq. exact Hf.
  - destruct H as (_ & -> & ->). rewrite Hq, app_nil_r. reflexivity.
  - destruct H as (_ & -> & ->). rewrite Hq, app_nil_r. reflexivity.
Qed.

Lemma monthly_accounts v :
  files (vaultOf (createMonthlyNote settings env v))
  = (files v ++ createdFiles (eventsOf (createMonthlyNote settings env v)))%list.
Proof.
  pose proof (wp_elim _ _ _ (createMonthlyNote_spec settings env v)) as H.
  destruct H as (lt & Hlt & H).
  assert (Hq : createdFiles lt = []).
  { apply quiet_events. intros ev Hin.
    pose proof (template_outcome_events settings env Monthly v _ lt ev Hlt Hin) as X.
    destruct ev; tauto. }
  destruct (resultOf (getNoteTemplateContents settings env Monthly v)) as [[tpl |] | msg].
  - destruct H as (l1 & _ & -> & _ & Hf & _). rewrite createdFiles_app, Hq. exact Hf.
  - destruct H as (_ & -> & ->). rewrite Hq, app_nil_r. reflexivity.
  - destruct H as (_ & -> & ->). rewrite Hq, app_nil_r. reflexivity.
Qed.

End Order.

(** X12.  The files that [run] adds to the vault are notes of candidate
    periods, in the order of the loops: the daily notes first, by month and
    by day, then the monthly notes, by month; a candidate gives one note at
    most.  So the new notes are listed after the old ones and from the
    oldest to the latest. *)
Theorem run_creates_in_the_order_of_the_calendar settings env v :
  exists added,
    files (vaultOf (run settings env v)) = (files v ++ added)%list
    /\ Subsequence (map fst added)
         ((if dailyNotesEnabled settings then dailyPaths settings env else [])
          ++ (if monthlyNotesEnabled settings then monthlyPaths settings env else [])).
Proof.
  destruct (run_decompose settings env v) as (_ & Hv & _). rewrite Hv. clear Hv.
  set (v1 := if dailyNotesEnabled settings then vaultOf (createDailyNote settings env v) else v).
  assert (Hd : exists added1,
             files v1 = (files v ++ added1)%list
             /\ Subsequence (map fst added1)
                  (if dailyNotesEnabled settings then dailyPaths settings env else [])).
  { unfold v1. destruct (dailyNotesEnabled settings).
    - exists (createdFiles (eventsOf (createDailyNote settings env v))).
      split; [apply daily_accounts | apply daily_order].
    - exists []. rewrite app_nil_r. split; [reflexivity | constructor]. }
  destruct Hd as (added1 & Hf1 & Hs1).
  destruct (monthlyNotesEnabled settings).
  - exists (added1 ++ createdFiles (eventsOf (createMonthlyNote settings env v1)))%list.
    rewrite monthly_accounts, Hf1, app_assoc. split; [reflexivity |].
    rewrite map_app. apply Subsequence_app; [exact Hs1 | apply monthly_order].
  - exists added1. split; [exact Hf1 |]. rewrite app_nil_r. exact Hs1.
Qed.

(** ** No note for a label that is listed *)

Section ListedLabels.

Variable settings : AutoJournalSettings.
Variable env : Env.

(** A note that createDailyNote creates is the note of a day whose label,
    and the label of whose file, no file listed under the folder of its
    month carried at the start. *)
Lemma daily_creation_unlisted v p c :
  In (p, c) (files (vaultOf (createDailyNote settings env v))) ->
  In (p, c) (files v)
  \/ exists m day,
       p = dailyPath settings env m day
       /\ labelTaken env (dayLabel settings env m day) (dailyListing settings env m v) = false
       /\ labelTaken env (dayPartOf env p) (dailyListing settings env m v) = false.
Proof.
  intros Hin. rewrite daily_accounts in Hin. apply in_app_or in Hin.
  destruct Hin as [Hin | Hin]; [left; exact Hin | right].
  apply In_createdFiles in Hin.
  destruct (daily_call settings env v _ Hin) as (tpl & _ & (m & vm & _ & _ & Hext & Hj)).
  destruct Hj as (cand & Hc & _ & Hfree & Hp & Hfree' & _).
  unfold dailyCandidates in Hc. apply in_map_iff in Hc. destruct Hc as (day & <- & _).
  exists m, day. split; [exact Hp |]. split.
  - eapply labelTaken_incl; [| exact Hfree]. intros x. apply dailyListing_extends. exact Hext.
  - eapply labelTaken_incl; [| exact Hfree']. intros x. apply dailyListing_extends. exact Hext.
Qed.

Lemma monthly_creation_unlisted v p c :
  In (p, c) (files (vaultOf (createMonthlyNote settings env v))) ->
  In (p, c) (files v)
  \/ exists m,
       p = monthlyPath settings env m
       /\ labelTaken env (monthLabel settings env (monthDate settings env m))
            (monthlyListing settings env v) = false
       /\ labelTaken env (dayPartOf env p) (monthlyListing settings env v) = false.
Proof.
  intros Hin. rewrite monthly_accounts in Hin. apply in_app_or in Hin.
  destruct Hin as [Hin | Hin]; [left; exact Hin | right].
  apply In_createdFiles in Hin.
  destruct (monthly_call settings env v _ Hin) as (tpl & _ & Hj).
  destruct Hj as (cand & Hc & _ & Hfree & Hp & Hfree' & _).
  unfold monthlyCandidates in Hc. apply in_map_iff in Hc. destruct Hc as (m & <- & _).
  exists m. auto.
Qed.

End ListedLabels.

(** X13.  [run] creates no note for a label that is listed: a file that
    it adds is the note of a day such that no file listed for its month, in
    the vault at the start, carried the label of the day or the label read
    from the name of the note; or the note of a month such that no file
    listed for the monthly notes carried the label of the month or the
    label read from the name of the note.  The files listed for a month of
    days are those whose path starts with the path of the folder of the
    month (lines 111-120); the files listed for the monthly notes are those
    whose path starts with the path of the monthly folder and whose parent
    folder has the name monthlyNotesFolderName, or has no name (lines
    200-215): a file in a folder under the monthly folder is not listed.
    The label of a file is the part of its name before the first hyphen,
    trimmed. *)
Theorem run_skips_the_labels_that_are_listed settings env v p c :
  In (p, c) (files (vaultOf (run settings env v))) ->
  In (p, c) (files v)
  \/ (exists m day,
        p = dailyPath settings env m day
        /\ labelTaken env (dayLabel settings env m day) (dailyListing settings env m v) = false
        /\ labelTaken env (dayPartOf env p) (dailyListing settings env m v) = false)
  \/ (exists m,
        p = monthlyPath settings env m
        /\ labelTaken env (monthLabel settings env (monthDate settings env m))
             (monthlyListing settings env v) = false
        /\ labelTaken env (dayPartOf env p) (monthlyListing settings env v) = false).
Proof.
  destruct (run_decompose settings env v) as (_ & Hv & _). rewrite Hv. clear Hv.
  set (v1 := if dailyNotesEnabled settings then vaultOf (createDailyNote settings env v) else v).
  assert (Hext : extends v v1).
  { unfold v1. destruct (dailyNotesEnabled settings); [apply daily_extends | apply extends_refl]. }
  assert (Hd : In (p, c) (files v1) ->
               In (p, c) (files v)
               \/ exists m day,
                    p = dailyPath settings env m day
                    /\ labelTaken env (dayLabel settings env m day) (dailyListing settings env m v) = false
                    /\ labelTaken env (dayPartOf env p) (dailyListing settings env m v) = false).
  { unfold v1. destruct (dailyNotesEnabled settings); [apply daily_creation_unlisted | auto]. }
  intros Hin.
  assert (Hm : In (p, c) (files v1)
               \/ exists m,
                    p = monthlyPath settings env m
                    /\ labelTaken env (monthLabel settings env (monthDate settings env m))
                         (monthlyListing settings env v1) = false
                    /\ labelTaken env (dayPartOf env p) (monthlyListing settings env v1) = false).
  { destruct (monthlyNotesEnabled settings); [apply monthly_creation_unlisted; exact Hin | auto]. }
  destruct Hm as [Hin1 | (m & Hp & H1 & H2)].
  - destruct (Hd Hin1); auto.
  - right. right. exists m. split; [exact Hp |]. split.
    + eapply labelTaken_incl; [| exact H1]. intros x. apply monthlyListing_extends. exact Hext.
    + eapply labelTaken_incl; [| exact H2]. intros x. apply monthlyListing_extends. exact Hext.
Qed.

Lemma run_skips_the_labels_that_are_listed_witness :
  let s := Std.settings YEAR YEAR in
  let e := Std.env Std.mid_march_2024 in
  let v := mkVault [("Journal/2024/01 archive/02 - old.md", "old")] [] in
  In ("Journal/2024/01/01 - Monday.md", EmptyString) (files (vaultOf (run s e v)))
  /\ ~ In "Journal/2024/01/02 - Tuesday.md" (getFiles (vaultOf (run s e v)))
  /\ (In ("Journal/2024/01/01 - Monday.md", EmptyString) (files v)
      \/ (exists m day,
            "Journal/2024/01/01 - Monday.md" = dailyPath s e m day
            /\ labelTaken e (dayLabel s e m day) (dailyListing s e m v) = false
            /\ labelTaken e (dayPartOf e "Journal/2024/01/01 - Monday.md") (dailyListing s e m v) = false)
      \/ (exists m,
            "Journal/2024/01/01 - Monday.md" = monthlyPath s e m
            /\ labelTaken e (monthLabel s e (monthDate s e m)) (monthlyListing s e v) = false
            /\ labelTaken e (dayPartOf e "Journal/2024/01/01 - Monday.md") (monthlyListing s e v) = false)).
Proof.
  intros s e v.
  assert (H : In ("Journal/2024/01/01 - Monday.md", EmptyString) (files (vaultOf (run s e v))))
    by in_computed_list.
  split; [exact H |]. split.
  - intros Hin. apply hasFile_In in Hin. vm_compute in Hin. discriminate Hin.
  - exact (run_skips_the_labels_that_are_listed s e v _ _ H).
Defined.

(** ** The latest monthly note stamped with the present time *)

(** X14.  In createMonthlyNote, every call of the engine is for a
    candidate month: the file name is that of the month's own date and only
    the date that the template receives is the stamp.  The stamp is the
    present time plus one minute when the option useTodayForLatestNote is
    on and the date of the month is in the current month of the current
    year, whatever its day (lines 264-270 compare the months and the years,
    not the days); it is the date of the month otherwise, and an invalid
    date is never shifted.  The path, the label and the guards of a month
    are the same whatever the option. *)
Theorem monthly_latest_note_shifts_only_the_stamp settings env v :
  (forall text name ok,
     In (EvExpand text name ok) (eventsOf (createMonthlyNote settings env v)) ->
     exists templateContents m,
       resultOf (getNoteTemplateContents settings env Monthly v) = Ok (Some templateContents)
       /\ name = fileNameNoExtension env (monthlyPath settings env m)
       /\ text = templateDate settings env
                   (monthlyCreateFileDate settings env (monthDate settings env m)) templateContents)
  /\ (forall p content ok,
        In (EvCreate p content ok) (eventsOf (createMonthlyNote settings env v)) ->
        exists templateContents m,
          resultOf (getNoteTemplateContents settings env Monthly v) = Ok (Some templateContents)
          /\ p = monthlyPath settings env m
          /\ replaceNewFileVars env
               (templateDate settings env
                  (monthlyCreateFileDate settings env (monthDate settings env m)) templateContents)
               (fileNameNoExtension env p) = Ok content)
  /\ (forall i,
        (useTodayForLatestNote settings = true ->
         i_month i = i_month (clock env) -> i_year i = i_year (clock env) ->
         monthlyCreateFileDate settings env (At i) = Calendar.addMinute (now env))
        /\ (useTodayForLatestNote settings = false
            \/ i_month i <> i_month (clock env) \/ i_year i <> i_year (clock env) ->
            monthlyCreateFileDate settings env (At i) = At i))
  /\ monthlyCreateFileDate settings env InvalidDate = InvalidDate
  /\ (forall b m,
        monthlyPath (withUseTodayForLatestNote b settings) env m = monthlyPath settings env m
        /\ monthLabel (withUseTodayForLatestNote b settings) env
             (monthDate (withUseTodayForLatestNote b settings) env m)
           = monthLabel settings env (monthDate settings env m)
        /\ monthlyGuard (withUseTodayForLatestNote b settings) env m = monthlyGuard settings env m).
Proof.
  split; [| split; [| split; [| split]]].
  - intros text name ok Hin.
    destruct (monthly_call settings env v _ Hin) as (tpl & Htpl & Hj).
    destruct Hj as (cand & Hc & _ & _ & -> & ->).
    unfold monthlyCandidates in Hc. apply in_map_iff in Hc. destruct Hc as (m & <- & _).
    exists tpl, m. auto.
  - intros p content ok Hin.
    destruct (monthly_call settings env v _ Hin) as (tpl & Htpl & Hj).
    destruct Hj as (cand & Hc & _ & _ & -> & _ & Heng & _).
    unfold monthlyCandidates in Hc. apply in_map_iff in Hc. destruct Hc as (m & <- & _).
    exists tpl, m. auto.
  - intros i. unfold monthlyCreateFileDate. cbn [Calendar.month Calendar.year now JS.num_seq]. split.
    + intros -> -> ->. rewrite !Z.eqb_refl. reflexivity.
    + intros [-> | [Hne | Hne]]; [reflexivity | |].
      * replace (i_month (clock env) =? i_month i) with false
          by (symmetry; apply Z.eqb_neq; congruence).
        rewrite Bool.andb_false_r. reflexivity.
      * replace (i_year (clock env) =? i_year i) with false
          by (symmetry; apply Z.eqb_neq; congruence).
        rewrite Bool.andb_false_r. reflexivity.
  - unfold monthlyCreateFileDate. cbn [Calendar.month JS.num_seq now].
    rewrite Bool.andb_false_r. reflexivity.
  - intros b m. repeat split.
Qed.

(** The note of March made on the 15th for the 1st: with the option its
    date is the present time, a minute later. *)
Example monthly_latest_note_off_and_on :
  let off := Scenario.custom "Journal" EmptyString "YYYY-MM-DD HH:mm" NONE NONE in
  let e := Std.env Std.mid_march_2024 in
  map (fun s => format e (monthlyCreateFileDate s e (monthDate s e 2)) "YYYY-MM-DD HH:mm")
      [off; withUseTodayForLatestNote true off]
  = ["2024-03-01 00:00"; "2024-03-15 10:31"].
Proof. vm_compute. reflexivity. Qed.

(** ** A label with a hyphen *)

Lemma firstSegment_occurs c s : occurs c (JS.firstSegment c s) = false.
Proof.
  unfold JS.firstSegment. induction s as [| a r IH]; [reflexivity |].
  cbn [JS.splitOn]. destruct (JS.splitOn c r) as [h t]. cbn [fst] in IH.
  destruct (Ascii.eqb a c) eqn:E; cbn [fst occurs]; [reflexivity |].
  rewrite E, IH. reflexivity.
Qed.

Lemma trimStart_occurs c s : occurs c s = false -> occurs c (JS.trimStart s) = false.
Proof.
  induction s as [| a r IH]; [reflexivity |]. intros H. cbn [JS.trimStart].
  destruct (JS.isSpace a); [| exact H].
  apply IH. cbn [occurs] in H. apply Bool.orb_false_iff in H. tauto.
Qed.

Lemma trimEnd_occurs c s : occurs c s = false -> occurs c (JS.trimEnd s) = false.
Proof.
  induction s as [| a r IH]; [reflexivity |]. intros H. cbn [occurs] in H.
  apply Bool.orb_false_iff in H. destruct H as [Ha Hr]. specialize (IH Hr).
  cbn [JS.trimEnd]. destruct (JS.trimEnd r) as [| b r'].
  - destruct (JS.isSpace a); [reflexivity |]. cbn [occurs]. rewrite Ha. reflexivity.
  - cbn [occurs] in *. rewrite Ha. exact IH.
Qed.

Lemma fileLabel_occurs env file : occurs "-" (fileLabel env file) = false.
Proof.
  unfold fileLabel, JS.trim. apply trimEnd_occurs, trimStart_occurs, firstSegment_occurs.
Qed.

Lemma hyphen_never_taken env lbl listing :
  occurs "-" lbl = true -> labelTaken env lbl listing = false.
Proof.
  intros H. destruct (labelTaken env lbl listing) eqn:E; [| reflexivity].
  unfold labelTaken in E. apply existsb_exists in E. destruct E as (f & _ & Heq).
  apply String.eqb_eq in Heq. rewrite <- Heq, fileLabel_occurs in H. discriminate H.
Qed.

(** X15.  The label of a file is the part of its name before the first
    hyphen, trimmed (lines 140, 241 and 329): it has no hyphen.  So a day
    or a month whose label has a hyphen (a day format such as YYYY-MM-DD)
    is never found in a listing, whatever the files: in every run, every
    such period that passes the guards is handed to createNewFile and the
    engine is called for it. *)
Theorem a_label_with_a_hyphen_is_never_found settings env v :
  (forall file, occurs "-" (fileLabel env file) = false)
  /\ (forall lbl listing, occurs "-" lbl = true -> labelTaken env lbl listing = false)
  /\ (forall templateContents m day,
        resultOf (getNoteTemplateContents settings env Daily v) = Ok (Some templateContents) ->
        0 <= m <= 11 -> dailyMonthGuard settings env m = true ->
        In day (monthDays settings env m) -> dailyDayGuard settings env m day = true ->
        occurs "-" (dayLabel settings env m day) = true ->
        exists ok,
          In (EvExpand (templateDate settings env
                          (dailyCreateFileDate settings env (dayDate settings env m day))
                          templateContents)
                (fileNameNoExtension env (dailyPath settings env m day)) ok)
             (eventsOf (createDailyNote settings env v)))
  /\ (forall templateContents m,
        resultOf (getNoteTemplateContents settings env Monthly v) = Ok (Some templateContents) ->
        0 <= m <= 11 -> monthlyGuard settings env m = true ->
        occurs "-" (monthLabel settings env (monthDate settings env m)) = true ->
        exists ok,
          In (EvExpand (templateDate settings env
                          (monthlyCreateFileDate settings env (monthDate settings env m))
                          templateContents)
                (fileNameNoExtension env (monthlyPath settings env m)) ok)
             (eventsOf (createMonthlyNote settings env v))).
Proof.
  split; [apply fileLabel_occurs |]. split; [apply hyphen_never_taken |]. split.
  - intros tpl m day Htpl Hm Hgm Hday Hgd Hhyphen.
    apply (daily_day_served settings env v tpl m day Htpl Hm Hgm Hday Hgd).
    apply hyphen_never_taken. exact Hhyphen.
  - intros tpl m Htpl Hm Hg Hhyphen.
    apply (monthly_month_served settings env v tpl m Htpl Hm Hg).
    apply hyphen_never_taken. exact Hhyphen.
Qed.

(** With the day format YYYY-MM-DD under the policy MONTH: the first run,
    on the 15th, creates the fifteen notes; a run on the 16th calls the
    engine for the sixteen days again, and creates no note for the 16th,
    because the label read from the name of the new note, 2024, is the
    label of the notes that are listed. *)
Example hyphens_in_the_day_format :
  let s := withDayFormat "YYYY-MM-DD" (Std.settings MONTH NONE) in
  let v15 := vaultOf (createDailyNote s (Std.env Std.mid_march_2024) Std.emptyVault) in
  let o16 := createDailyNote s (Std.env (mkInstant 2024 2 16 9 0)) v15 in
  List.length (files v15) = 15%nat
  /\ List.length (engineCalls (eventsOf o16)) = 16%nat
  /\ files (vaultOf o16) = files v15
  /\ hasFile (vaultOf o16) "Journal/2024/03/2024-03-16 - Saturday.md" = false.
Proof. vm_compute. repeat split; reflexivity. Qed.

(** ** createNewFile: a file that is there and is not listed *)

(** X16.  The test of createNewFile for a note that exists is made on
    the listing that its caller passes, not on the vault (lines 326-334).
    When no file of the listing carries the label of the new file and
    something is at its path all the same, [vault.create] is called and
    refused: createNewFile throws the error of the vault, after the call of
    the engine, and adds no file. *)
Theorem createNewFile_throws_for_what_is_not_listed settings env createdDate newFilePath
  templateContents filesInFolder v content :
  let target := targetPath settings env newFilePath in
  let text := templateDate settings env createdDate templateContents in
  let o := createNewFile settings env createdDate newFilePath templateContents filesInFolder v in
  labelTaken env (dayPartOf env target) filesInFolder = false ->
  replaceNewFileVars env text (fileNameNoExtension env target) = Ok content ->
  exists_at v target ->
  resultOf o = Throw (storeError env (OpCreate target))
  /\ files (vaultOf o) = files v
  /\ In (EvExpand text (fileNameNoExtension env target) true) (eventsOf o)
  /\ In (EvCreate target content false) (eventsOf o).
Proof.
  intros target text o Hfree Heng Hthere.
  destruct (createNewFile_itself settings env createdDate newFilePath templateContents filesInFolder v)
    as (lf & _ & _ & Hd & _ & _ & _ & Hrest).
  fold target in Hrest. fold text in Hrest. fold o in Hrest, Hd.
  rewrite Heng, Hfree in Hrest.
  destruct Hrest as [(_ & _ & _ & Hnone & _) | (Hl & Hr & Hf & _)].
  - exfalso. revert Hnone. apply (exists_at_files v); [auto | | exact Hthere].
    cbn [folders]. intros d Hin. rewrite Hd. apply in_or_app. left. exact Hin.
  - split; [exact Hr |]. split; [exact Hf |]. rewrite Hl.
    split; apply in_or_app; right; [left | right; left]; reflexivity.
Qed.

Lemma createNewFile_throws_for_what_is_not_listed_witness :
  let s := Std.settings NONE NONE in
  let e := Std.env Std.mid_march_2024 in
  let v := mkVault [("Journal/2024/03/15 - Friday.md", "mine")] ["Journal/2024/03"] in
  let o := createNewFile s e (At Std.mid_march_2024) "2024/03/15 - Friday" EmptyString [] v in
  labelTaken e (dayPartOf e (targetPath s e "2024/03/15 - Friday")) [] = false
  /\ replaceNewFileVars e (templateDate s e (At Std.mid_march_2024) EmptyString)
       (fileNameNoExtension e (targetPath s e "2024/03/15 - Friday")) = Ok EmptyString
  /\ exists_at v (targetPath s e "2024/03/15 - Friday")
  /\ resultOf o = Throw "Cannot create file Journal/2024/03/15 - Friday.md"
  /\ files (vaultOf o) = files v.
Proof.
  intros s e v o.
  assert (H1 : labelTaken e (dayPartOf e (targetPath s e "2024/03/15 - Friday")) [] = false)
    by reflexivity.
  assert (H2 : replaceNewFileVars e (templateDate s e (At Std.mid_march_2024) EmptyString)
                 (fileNameNoExtension e (targetPath s e "2024/03/15 - Friday")) = Ok EmptyString)
    by reflexivity.
  assert (H3 : exists_at v (targetPath s e "2024/03/15 - Friday")) by (vm_compute; discriminate).
  split; [exact H1 |]. split; [exact H2 |]. split; [exact H3 |].
  destruct (createNewFile_throws_for_what_is_not_listed s e (At Std.mid_march_2024)
              "2024/03/15 - Friday" EmptyString [] v EmptyString H1 H2 H3) as (Hr & Hf & _).
  split; [exact Hr | exact Hf].
Defined.

(** ** What run reads and what it announces *)

Section QuietFacts.

Variable settings : AutoJournalSettings.
Variable env : Env.

Lemma template_outcome_quiet type v r lt ev :
  template_outcome settings env type v r lt -> In ev lt -> ofATemplate settings env ev.
Proof.
  unfold template_outcome, templateFile. intros H Hin.
  destruct r as [[tpl |] | msg].
  - destruct H as [(_ & _ & ->) | (Hne & _ & _ & _ & ->)]; [destruct Hin |].
    destruct Hin as [<- | []]. exists type. split; [reflexivity | exact Hne].
  - destruct H as (Hne & [(_ & ->) | (d & _ & ->)]); destruct Hin as [<- | []];
      exists type; auto.
  - destruct H as (Hne & _ & _ & _ & ->). destruct Hin as [<- | []].
    exists type. split; [reflexivity | exact Hne].
Qed.

Lemma justified_quiet templateContents listing cs base ev :
  justified settings env templateContents listing cs base ev -> ofATemplate settings env ev.
Proof. destruct ev; simpl; try tauto. Qed.

Lemma daily_quiet v ev :
  In ev (eventsOf (createDailyNote settings env v)) -> ofATemplate settings env ev.
Proof.
  intros Hin.
  pose proof (wp_elim _ _ _ (createDailyNote_spec settings env v)) as H.
  destruct H as (lt & Hlt & H).
  pose proof (template_outcome_quiet Daily v _ lt ev Hlt) as Htpl.
  destruct (resultOf (getNoteTemplateContents settings env Daily v)) as [[tpl |] | msg].
  - destruct H as (l1 & _ & Hl & _ & _ & _ & Hj & _).
    rewrite Hl in Hin. apply in_app_or in Hin. destruct Hin as [Hin | Hin]; [auto |].
    rewrite Forall_forall in Hj. destruct (Hj _ Hin) as (m & vm & _ & _ & _ & Hev).
    exact (justified_quiet _ _ _ _ _ Hev).
  - destruct H as (_ & _ & Hl). rewrite Hl in Hin. auto.
  - destruct H as (_ & _ & Hl). rewrite Hl in Hin. auto.
Qed.

Lemma monthly_quiet v ev :
  In ev (eventsOf (createMonthlyNote settings env v)) -> ofATemplate settings env ev.
Proof.
  intros Hin.
  pose proof (wp_elim _ _ _ (createMonthlyNote_spec settings env v)) as H.
  destruct H as (lt & Hlt & H).
  pose proof (template_outcome_quiet Monthly v _ lt ev Hlt) as Htpl.
  destruct (resultOf (getNoteTemplateContents settings env Monthly v)) as [[tpl |] | msg].
  - destruct H as (l1 & _ & Hl & _ & _ & _ & Hj & _).
    rewrite Hl in Hin. apply in_app_or in Hin. destruct Hin as [Hin | Hin]; [auto |].
    rewrite Forall_forall in Hj. exact (justified_quiet _ _ _ _ _ (Hj _ Hin)).
  - destruct H as (_ & _ & Hl). rewrite Hl in Hin. auto.
  - destruct H as (_ & _ & Hl). rewrite Hl in Hin. auto.
Qed.

Lemma branchReport_quiet r ev : In ev (branchReport settings r) -> ofATemplate settings env ev.
Proof. destruct r; simpl; [tauto |]. intros [<- | []]. exact I. Qed.

End QuietFacts.

(** X17.  [run] reads no file of the vault but the templates: a call of
    [vault.read] in its trace is for the template file of a cadence whose
    template path is not empty.  And a Notice that it raises is that of a
    template that is not found or is a directory: every other failure goes
    through errorNotification. *)
Theorem run_reads_only_the_templates settings env v :
  (forall p ok,
     In (EvRead p ok) (eventsOf (run settings env v)) ->
     exists type, p = templateFile settings type /\ templatePathOf settings type <> EmptyString)
  /\ (forall msg,
        In (EvNotice msg) (eventsOf (run settings env v)) ->
        exists type,
          templatePathOf settings type <> EmptyString
          /\ (msg = templateNotFound env type (templatePathOf settings type)
              \/ msg = templateIsDirectory env type (templatePathOf settings type))).
Proof.
  assert (H : forall ev, In ev (eventsOf (run settings env v)) -> ofATemplate settings env ev).
  { intros ev Hin. destruct (run_decompose settings env v) as (_ & _ & Hl). rewrite Hl in Hin.
    apply in_app_or in Hin. destruct Hin as [Hin | Hin].
    - destruct (dailyNotesEnabled settings); [| destruct Hin].
      apply in_app_or in Hin. destruct Hin as [Hin | Hin].
      + exact (daily_quiet settings env v ev Hin).
      + exact (branchReport_quiet settings env _ ev Hin).
    - destruct (monthlyNotesEnabled settings); [| destruct Hin].
      apply in_app_or in Hin. destruct Hin as [Hin | Hin].
      + exact (monthly_quiet settings env _ ev Hin).
      + exact (branchReport_quiet settings env _ ev Hin). }
  split.
  - intros p ok Hin. exact (H _ Hin).
  - intros msg Hin. exact (H _ Hin).
Qed.

(** ** No call for a period after now *)


(** Under YEAR, with a month format that writes the day, the current month
    is not recognised and the engine is called for the days of the month
    that are still to come: on 2024-03-15, for the 31 days of March. *)
Example a_month_format_with_the_day_calls_for_the_future :
  let s := withMonthFormat "MM-DD" (Std.settings YEAR NONE) in
  let e := Std.env Std.mid_march_2024 in
  List.length (engineCalls (eventsOf (run s e Std.emptyVault))) = 91%nat
  /\ In (EvExpand EmptyString "31 - Sunday" true) (eventsOf (run s e Std.emptyVault)).
Proof. intros s e. split; [vm_compute; reflexivity | in_computed_list]. Qed.

(** ** Every failure reported with its message *)

Section ReportedFacts.

Variable settings : AutoJournalSettings.
Variable env : Env.

Local Abbreviation debug := (showDebugNotifications settings).

Lemma Reported_app l1 l2 :
  Reported settings env l1 -> Reported settings env l2 -> Reported settings env (l1 ++ l2).
Proof.
  induction 1 as [| ev l Hf Hr _ IH | ev msg l Hm _ IH]; intros H2; simpl.
  - exact H2.
  - apply Reported_call; auto.
  - apply Reported_failure; auto.
Qed.

Lemma Reported_one ev :
  isFailure ev = false -> isReport ev = false -> Reported settings env [ev].
Proof. intros Hf Hr. apply Reported_call; [exact Hf | exact Hr | constructor]. Qed.

Lemma Reported_pair ev msg : reportOf env ev msg -> Reported settings env [ev; EvError msg debug].
Proof. intros H. apply Reported_failure; [exact H | constructor]. Qed.

Lemma pending_reported l msg :
  pendingFailure settings env l msg -> Reported settings env (l ++ [EvError msg debug]).
Proof.
  intros (l0 & ev & -> & H0 & Hev). rewrite <- app_assoc. apply Reported_app; [exact H0 |].
  apply Reported_pair. exact Hev.
Qed.

Lemma pending_after l1 l2 msg :
  Reported settings env l1 -> pendingFailure settings env l2 msg ->
  pendingFailure settings env (l1 ++ l2) msg.
Proof.
  intros H1 (l0 & ev & -> & H0 & Hev). exists (l1 ++ l0)%list, ev.
  rewrite app_assoc. split; [reflexivity |]. split; [apply Reported_app; assumption | exact Hev].
Qed.

Lemma cascade_reported newFilePath segments :
  forall prevPath v,
    wp (cascade settings env newFilePath prevPath segments)
       (fun r _ l => r = Ok tt /\ Reported settings env l) v.
Proof.
  induction segments as [| folderName rest IH]; intros prevPath v; cbn [cascade].
  - apply wp_ret. split; [reflexivity | constructor].
  - cbv zeta. apply wp_bind. apply wp_vaultLookup. apply wp_bind.
    assert (Hstep :
      wp (match getAbstractFileByPath v (join env prevPath folderName) with
          | Some _ => ret tt
          | None =>
              catch (vaultCreateFolder env (join env prevPath folderName))
                (fun _ => errorNotification (folderError (join env prevPath folderName) newFilePath)
                            debug)
          end)
         (fun r _ l => r = Ok tt /\ Reported settings env l) v).
    { destruct (getAbstractFileByPath v (join env prevPath folderName)).
      - apply wp_ret. split; [reflexivity | constructor].
      - apply wp_catch. apply wp_vaultCreateFolder.
        + intros _. unfold errorNotification. apply wp_emit. split; [reflexivity |].
          apply Reported_pair. exists newFilePath. reflexivity.
        + intros _ _. split; [reflexivity |]. apply Reported_one; reflexivity. }
    eapply wp_mono; [| exact Hstep]. intros r v1 l1 (-> & H1). cbn [app].
    eapply wp_mono; [| apply IH]. intros r v2 l2 (-> & H2).
    split; [reflexivity | apply Reported_app; assumption].
Qed.

Lemma createNewFile_reported createdDate newFilePath templateContents filesInFolder v :
  wp (createNewFile settings env createdDate newFilePath templateContents filesInFolder)
     (fun r _ l =>
        match r with
        | Ok _ => Reported settings env l
        | Throw msg => pendingFailure settings env l msg
        end) v.
Proof.
  unfold createNewFile. cbv zeta.
  apply wp_bind. apply wp_vaultLookup. apply wp_bind.
  assert (Hfolders :
    wp (match getAbstractFileByPath v
                (stripLeadingSlash (dirname env (targetPath settings env newFilePath))) with
        | Some _ => ret tt
        | None =>
            cascade settings env (targetPath settings env newFilePath) EmptyString
              (JS.split "/" (stripLeadingSlash (dirname env (targetPath settings env newFilePath))))
        end)
       (fun r _ l => r = Ok tt /\ Reported settings env l) v).
  { destruct (getAbstractFileByPath v _).
    - apply wp_ret. split; [reflexivity | constructor].
    - apply cascade_reported. }
  eapply wp_mono; [| exact Hfolders]. intros r v1 lf (-> & Hlf). cbn [app].
  apply wp_bind. apply wp_expandVars.
  - intros content Hout. apply wp_bind.
    destruct (find _ filesInFolder).
    + apply wp_ret. apply wp_ret. rewrite !app_nil_r.
      apply Reported_app; [exact Hlf | apply Reported_one; reflexivity].
    + apply wp_vaultCreate.
      * intros _. apply pending_after; [exact Hlf |].
        exists [EvExpand (templateDate settings env createdDate templateContents)
                  (fileNameNoExtension env (targetPath settings env newFilePath)) true], 
          (EvCreate (targetPath settings env newFilePath) content false).
        split; [reflexivity |]. split; [apply Reported_one; reflexivity | reflexivity].
      * intros _ _. apply wp_ret. rewrite app_nil_r.
        apply Reported_app; [exact Hlf |].
        apply Reported_call; [reflexivity | reflexivity | apply Reported_one; reflexivity].
  - intros msg Hout. apply pending_after; [exact Hlf |].
    exists [], (EvExpand (templateDate settings env createdDate templateContents)
                  (fileNameNoExtension env (targetPath settings env newFilePath)) false).
    split; [reflexivity |]. split; [constructor | exact Hout].
Qed.

(** A computation whose failure is pending, caught and reported. *)
Lemma catch_reported {A} (m : M A) v :
  wp m (fun r _ l =>
          match r with
          | Ok _ => Reported settings env l
          | Throw msg => pendingFailure settings env l msg
          end) v ->
  wp (catch m (reportError settings)) (fun r _ l => r = Ok tt /\ Reported settings env l) v.
Proof.
  intros H. apply wp_catch. eapply wp_mono; [| exact H].
  intros r v1 l1 H1. destruct r as [a | msg].
  - auto.
  - unfold reportError, errorNotification. apply wp_emit.
    split; [reflexivity | apply pending_reported; exact H1].
Qed.

Lemma pass_reported templateContents listing cs v :
  wp (pass settings env templateContents listing cs)
     (fun r _ l => r = Ok tt /\ Reported settings env l) v.
Proof.
  unfold pass.
  eapply wp_mono;
    [| apply (wp_forEach cs _ (fun _ l => Reported settings env l) v []); [constructor |]].
  - intros r v' l (-> & H). auto.
  - intros c v1 l1 _ H1.
    destruct (guard c && negb (labelTaken env (label c) listing))%bool.
    + eapply wp_mono; [| apply catch_reported, createNewFile_reported].
      intros r v2 l2 (-> & H2). split; [reflexivity | apply Reported_app; assumption].
    + apply wp_ret. rewrite app_nil_r. auto.
Qed.

Lemma dailyLoop_reported templateContents v :
  wp (forEach (range 0 11) (dailyMonth settings env templateContents (yearLabel settings env)))
     (fun r _ l => r = Ok tt /\ Reported settings env l) v.
Proof.
  eapply wp_mono;
    [| apply (wp_forEach (range 0 11) _ (fun _ l => Reported settings env l) v []); [constructor |]].
  - intros r v' l (-> & H). auto.
  - intros m v1 l1 _ H1. eapply wp_ext; [apply dailyMonth_pass |].
    destruct (dailyMonthGuard settings env m).
    + eapply wp_mono; [| apply pass_reported].
      intros r v2 l2 (-> & H2). split; [reflexivity | apply Reported_app; assumption].
    + apply wp_ret. rewrite app_nil_r. auto.
Qed.

Lemma template_reported type v :
  match resultOf (getNoteTemplateContents settings env type v) with
  | Ok _ => Reported settings env (eventsOf (getNoteTemplateContents settings env type v))
  | Throw msg =>
      pendingFailure settings env (eventsOf (getNoteTemplateContents settings env type v)) msg
  end.
Proof.
  pose proof (proj2 (wp_elim _ _ _ (getNoteTemplateContents_spec settings env type v))) as H.
  unfold template_outcome in H.
  destruct (resultOf (getNoteTemplateContents settings env type v)) as [[tpl |] | msg].
  - destruct H as [(_ & _ & ->) | (_ & _ & _ & _ & ->)];
      [constructor | apply Reported_one; reflexivity].
  - destruct H as (_ & [(_ & ->) | (d & _ & ->)]); apply Reported_one; reflexivity.
  - destruct H as (_ & _ & _ & -> & ->). exists [], (EvRead (templatePathOf settings type ++ ".md") false).
    split; [reflexivity |]. split; [constructor | reflexivity].
Qed.

Lemma daily_reported v :
  wp (createDailyNote settings env)
     (fun r _ l =>
        match r with
        | Ok _ => Reported settings env l
        | Throw msg => pendingFailure settings env l msg
        end) v.
Proof.
  unfold createDailyNote. apply wp_bind.
  eapply wp_mono; [| apply wp_itself]. intros r v1 l1 (-> & Hv & ->).
  pose proof (template_reported Daily v) as Ht.
  pose proof (proj1 (wp_elim _ _ _ (getNoteTemplateContents_spec settings env Daily v))) as Hv'.
  rewrite Hv' in Hv. subst v1.
  destruct (resultOf (getNoteTemplateContents settings env Daily v)) as [[tpl |] | msg].
  - eapply wp_mono; [| apply dailyLoop_reported].
    intros r v2 l2 (-> & H2). apply Reported_app; assumption.
  - apply wp_ret. rewrite app_nil_r. exact Ht.
  - exact Ht.
Qed.

Lemma monthly_reported v :
  wp (createMonthlyNote settings env)
     (fun r _ l =>
        match r with
        | Ok _ => Reported settings env l
        | Throw msg => pendingFailure settings env l msg
        end) v.
Proof.
  unfold createMonthlyNote. apply wp_bind.
  eapply wp_mono; [| apply wp_itself]. intros r v1 l1 (-> & Hv & ->).
  pose proof (template_reported Monthly v) as Ht.
  pose proof (proj1 (wp_elim _ _ _ (getNoteTemplateContents_spec settings env Monthly v))) as Hv'.
  rewrite Hv' in Hv. subst v1.
  destruct (resultOf (getNoteTemplateContents settings env Monthly v)) as [[tpl |] | msg].
  - cbv zeta. eapply wp_ext; [apply bind_vaultGetFiles |].
    eapply wp_ext; [apply monthlyLoop_pass |].
    eapply wp_mono; [| apply pass_reported].
    intros r v2 l2 (-> & H2). apply Reported_app; assumption.
  - apply wp_ret. rewrite app_nil_r. exact Ht.
  - exact Ht.
Qed.

Lemma run_reported v : Reported settings env (eventsOf (run settings env v)).
Proof.
  apply (wp_elim _ (fun _ _ l => Reported settings env l)).
  unfold run. apply wp_bind.
  assert (Hd : wp (if dailyNotesEnabled settings
                   then catch (createDailyNote settings env) (reportError settings) else ret tt)
                  (fun r _ l => r = Ok tt /\ Reported settings env l) v).
  { destruct (dailyNotesEnabled settings).
    - apply catch_reported, daily_reported.
    - apply wp_ret. split; [reflexivity | constructor]. }
  eapply wp_mono; [| exact Hd]. intros r v1 l1 (-> & H1).
  assert (Hm : wp (if monthlyNotesEnabled settings
                   then catch (createMonthlyNote settings env) (reportError settings) else ret tt)
                  (fun r _ l => r = Ok tt /\ Reported settings env l) v1).
  { destruct (monthlyNotesEnabled settings).
    - apply catch_reported, monthly_reported.
    - apply wp_ret. split; [reflexivity | constructor]. }
  eapply wp_mono; [| exact Hm]. intros r v2 l2 (-> & H2).
  apply Reported_app; assumption.
Qed.

End ReportedFacts.

Section ReportedReadings.

Variable settings : AutoJournalSettings.
Variable env : Env.

Lemma reportOf_failure ev msg : reportOf env ev msg -> isFailure ev = true /\ isReport ev = false.
Proof. destruct ev as [| | p [] | p [] | t n [] | p c []]; simpl; tauto. Qed.

(** In such a trace a failed call is followed by its report. *)
Lemma Reported_after l :
  Reported settings env l ->
  forall l1 ev l2,
    l = (l1 ++ ev :: l2)%list -> isFailure ev = true ->
    exists msg l3,
      l2 = EvError msg (showDebugNotifications settings) :: l3 /\ reportOf env ev msg.
Proof.
  induction 1 as [| ev0 l Hf Hr _ IH | ev0 msg0 l Hm _ IH]; intros l1 ev l2 Heq Hfail.
  - destruct l1; discriminate Heq.
  - destruct l1 as [| x l1]; simpl in Heq; injection Heq as -> Heq.
    + congruence.
    + exact (IH _ _ _ Heq Hfail).
  - destruct l1 as [| x [| y l1]]; simpl in Heq.
    + injection Heq as -> <-. eauto.
    + injection Heq as _ <- _. discriminate Hfail.
    + injection Heq as _ _ Heq. exact (IH _ _ _ Heq Hfail).
Qed.

(** And a report follows a failed call, whose report it is. *)
Lemma Reported_before l :
  Reported settings env l ->
  forall l1 msg d l2,
    l = (l1 ++ EvError msg d :: l2)%list ->
    d = showDebugNotifications settings
    /\ exists l0 ev, l1 = (l0 ++ [ev])%list /\ reportOf env ev msg.
Proof.
  induction 1 as [| ev0 l Hf Hr _ IH | ev0 msg0 l Hm _ IH]; intros l1 msg d l2 Heq.
  - destruct l1; discriminate Heq.
  - destruct l1 as [| x l1]; simpl in Heq; injection Heq as -> Heq.
    + discriminate Hr.
    + destruct (IH _ _ _ _ Heq) as (Hd & l0 & ev & -> & Hev).
      split; [exact Hd |]. exists (x :: l0), ev. auto.
  - destruct l1 as [| x [| y l1]]; simpl in Heq.
    + injection Heq as ->. destruct (reportOf_failure _ _ Hm) as [_ X]. discriminate X.
    + injection Heq as <- <- <- _. split; [reflexivity |]. exists [], ev0. auto.
    + injection Heq as <- <- Heq.
      destruct (IH _ _ _ _ Heq) as (Hd & l0 & ev & -> & Hev).
      split; [exact Hd |]. exists (ev0 :: EvError msg0 (showDebugNotifications settings) :: l0), ev.
      auto.
Qed.

Lemma Reported_count l :
  Reported settings env l ->
  List.length (filter isReport l) = List.length (filter isFailure l).
Proof.
  induction 1 as [| ev0 l Hf Hr _ IH | ev0 msg0 l Hm _ IH]; simpl.
  - reflexivity.
  - rewrite Hf, Hr. exact IH.
  - destruct (reportOf_failure _ _ Hm) as [-> ->]. simpl. rewrite IH. reflexivity.
Qed.

End ReportedReadings.

(** X19.  In the trace of [run], every call that fails (a read, a folder
    creation, an expansion, a file creation) is followed at once by one
    call of errorNotification, made with the debug flag of the settings and
    with the message of the failure: the message of the error that the
    vault or the engine threw, and for a folder the text of line 316 with
    the path of the folder.  errorNotification is called for nothing else:
    there are as many reports as failures. *)
Theorem run_reports_each_failure_with_its_message settings env v :
  let l := eventsOf (run settings env v) in
  Reported settings env l
  /\ (forall l1 ev l2,
        l = (l1 ++ ev :: l2)%list -> isFailure ev = true ->
        exists msg l3,
          l2 = EvError msg (showDebugNotifications settings) :: l3 /\ reportOf env ev msg)
  /\ (forall l1 msg d l2,
        l = (l1 ++ EvError msg d :: l2)%list ->
        d = showDebugNotifications settings
        /\ exists l0 ev, l1 = (l0 ++ [ev])%list /\ reportOf env ev msg)
  /\ List.length (filter isReport l) = List.length (filter isFailure l).
Proof.
  intros l. pose proof (run_reported settings env v) as H. fold l in H.
  split; [exact H |]. split; [exact (Reported_after settings env l H) |].
  split; [exact (Reported_before settings env l H) | exact (Reported_count settings env l H)].
Qed.

(** A vault that rejects the note of the 1st under the policy MONTH: the
    report carries the message of the vault, and the loop goes on. *)
Example a_rejected_note_is_reported_with_its_message :
  let bad := fun op => match op with
                       | OpCreate p => String.eqb p "Journal/2024/03/01 - Friday.md"
                       | _ => false
                       end in
  let s := Std.settings MONTH NONE in
  let e := Scenario.rejecting bad (mkInstant 2024 2 2 8 0) in
  eventsOf (createDailyNote s e (mkVault [] ["Journal/2024/03"]))
  = [EvExpand EmptyString "01 - Friday" true;
     EvCreate "Journal/2024/03/01 - Friday.md" EmptyString false;
     EvError "Cannot create file Journal/2024/03/01 - Friday.md" false;
     EvExpand EmptyString "02 - Saturday" true;
     EvCreate "Journal/2024/03/02 - Saturday.md" EmptyString true].
Proof. vm_compute. reflexivity. Qed.

(** ** createDailyNote: the calls of the engine, month by month *)

Lemma filter_none {A} (f : A -> bool) (l : list A) :
  (forall x, In x l -> f x = false) -> filter f l = [].
Proof.
  induction l as [| x l IH]; intros H; [reflexivity |].
  simpl. rewrite (H x (or_introl eq_refl)). apply IH. intros y Hy. apply H. right. exact Hy.
Qed.

Section MonthByMonth.

Variable settings : AutoJournalSettings.
Variable env : Env.
Variable templateContents : string.
Hypothesis Hseparate : foldersSeparate settings env = true.

Lemma foldersSeparate_spec m m' day :
  In m (range 0 11) -> In m' (range 0 11) -> m <> m' -> In day (monthDays settings env m') ->
  inFolder settings env (monthsFolder settings env m) (dailyPath settings env m' day) = false.
Proof.
  intros Hm Hm' Hne Hday. unfold foldersSeparate in Hseparate.
  rewrite forallb_forall in Hseparate. specialize (Hseparate m Hm).
  rewrite forallb_forall in Hseparate. specialize (Hseparate m' Hm').
  apply Bool.orb_true_iff in Hseparate. destruct Hseparate as [Heq | Hall].
  - apply Z.eqb_eq in Heq. contradiction.
  - rewrite forallb_forall in Hall. apply Bool.negb_true_iff. exact (Hall day Hday).
Qed.

(** The notes of other months do not change the listing of a month. *)
Lemma listing_with_added m v w added :
  files w = (files v ++ added)%list ->
  (forall x, In x (map fst added) -> inFolder settings env (monthsFolder settings env m) x = false) ->
  dailyListing settings env m w = dailyListing settings env m v.
Proof.
  intros Hf Hout. unfold dailyListing, getFiles. rewrite Hf, map_app, filter_app.
  rewrite (filter_none _ _ Hout). apply app_nil_r.
Qed.

(** One month of the loop. *)
Lemma month_calls m w :
  wp (dailyMonth settings env templateContents (yearLabel settings env) m)
     (fun r w' l =>
        r = Ok tt
        /\ engineCalls l = monthEngineCalls settings env templateContents w m
        /\ files w' = (files w ++ createdFiles l)%list
        /\ Subsequence (createdPaths l) (map (dailyPath settings env m) (monthDays settings env m))
        /\ createAttempts l = monthCreateCalls settings env templateContents w m) w.
Proof.
  eapply wp_ext; [apply dailyMonth_pass |]. unfold monthEngineCalls, monthCreateCalls.
  destruct (dailyMonthGuard settings env m).
  - eapply wp_mono;
      [| apply (wp_and _ _ _ _
                  (pass_calls settings env templateContents (dailyListing settings env m w)
                     (dailyCandidates settings env m) w)
                  (pass_spec settings env templateContents (dailyListing settings env m w)
                     (dailyCandidates settings env m) w w (extends_refl w)))].
    cbv beta. intros r w' l [(Hr & Hc & Hs & Ha) (_ & _ & Hf & _)].
    split; [exact Hr |]. split; [exact Hc |]. split; [exact Hf |]. split; [| exact Ha].
    unfold dailyCandidates in Hs. rewrite map_map in Hs. exact Hs.
  - apply wp_ret. rewrite app_nil_r. split; [reflexivity |]. split; [reflexivity |].
    split; [reflexivity |]. split; [constructor | reflexivity].
Qed.

(** The loop over months, from a vault that is [v] with notes of months
    that the loop does not visit any more. *)
Lemma loop_calls v ms :
  NoDup ms -> (forall m, In m ms -> In m (range 0 11)) ->
  forall w added,
    files w = (files v ++ added)%list ->
    (forall p, In p (map fst added) ->
       exists m' day,
         In m' (range 0 11) /\ ~ In m' ms /\ In day (monthDays settings env m')
         /\ p = dailyPath settings env m' day) ->
    wp (forEach ms (dailyMonth settings env templateContents (yearLabel settings env)))
       (fun _ _ l =>
          engineCalls l = flat_map (monthEngineCalls settings env templateContents v) ms
          /\ createAttempts l = flat_map (monthCreateCalls settings env templateContents v) ms) w.
Proof.
  induction ms as [| m rest IH]; intros Hnd Hin w added Hf Hadded.
  - apply wp_ret. split; reflexivity.
  - cbn [forEach flat_map]. apply wp_bind.
    eapply wp_mono; [| apply (month_calls m w)].
    intros r w1 l1 (-> & Hc1 & Hf1 & Hs1 & Ha1).
    assert (Hlisting : dailyListing settings env m w = dailyListing settings env m v).
    { apply (listing_with_added m v w added Hf). intros x Hx.
      destruct (Hadded x Hx) as (m' & day & Hm' & Hnot & Hday & ->).
      apply foldersSeparate_spec; [apply Hin; left; reflexivity | exact Hm' | | exact Hday].
      intros ->. apply Hnot. left. reflexivity. }
    inversion Hnd as [| x l Hnotin Hnd' Heq]. subst x l.
    eapply wp_mono;
      [| apply (IH Hnd' (fun y Hy => Hin y (or_intror Hy)) w1 (added ++ createdFiles l1)%list)].
    + intros r2 w2 l2 [Hc2 Ha2]. rewrite engineCalls_app, createAttempts_app, Hc1, Hc2, Ha1, Ha2.
      unfold monthEngineCalls at 1. unfold monthCreateCalls at 1. rewrite Hlisting.
      split; reflexivity.
    + rewrite Hf1, Hf, app_assoc. reflexivity.
    + intros p Hp. rewrite map_app in Hp. apply in_app_or in Hp. destruct Hp as [Hp | Hp].
      * destruct (Hadded p Hp) as (m' & day & Hm' & Hnot & Hday & ->).
        exists m', day. split; [exact Hm' |]. split; [| auto].
        intros X. apply Hnot. right. exact X.
      * apply (Subsequence_In _ _ _ Hs1) in Hp. apply in_map_iff in Hp.
        destruct Hp as (day & <- & Hday). exists m, day.
        split; [apply Hin; left; reflexivity |]. auto.
Qed.

Lemma daily_calls_month_by_month v :
  resultOf (getNoteTemplateContents settings env Daily v) = Ok (Some templateContents) ->
  engineCalls (eventsOf (createDailyNote settings env v))
  = flat_map (monthEngineCalls settings env templateContents v) (range 0 11)
  /\ createAttempts (eventsOf (createDailyNote settings env v))
     = flat_map (monthCreateCalls settings env templateContents v) (range 0 11).
Proof.
  intros Htpl. rewrite (createDailyNote_is_its_loop settings env v templateContents Htpl).
  cbn [eventsOf snd]. rewrite engineCalls_app, createAttempts_app.
  rewrite (proj1 (template_no_calls settings env Daily v)).
  rewrite (template_no_attempts settings env Daily v). cbn [app].
  apply (wp_elim _ (fun _ _ l => engineCalls l = _ /\ createAttempts l = _)).
  apply (loop_calls v (range 0 11) NoDup_months (fun m H => H) v []).
  - rewrite app_nil_r. reflexivity.
  - intros p [].
Qed.

End MonthByMonth.

(** X20.  When no note of a month is listed under the folder of another
    month (the folders of the months are separate), createDailyNote calls
    the engine, under every policy, exactly once for each day that passes
    the guards of its month and its own and whose label no file listed
    under the folder of its month carried at the start, month by month and
    day by day, and for nothing else. *)
Theorem createDailyNote_calls_the_engine_once_a_day settings env v templateContents :
  foldersSeparate settings env = true ->
  resultOf (getNoteTemplateContents settings env Daily v) = Ok (Some templateContents) ->
  engineCalls (eventsOf (createDailyNote settings env v))
  = flat_map (fun m =>
                if dailyMonthGuard settings env m
                then map (engineCallOf settings env templateContents)
                       (filter (handedOver env (dailyListing settings env m v))
                          (dailyCandidates settings env m))
                else [])
      (range 0 11).
Proof.
  intros Hsep Htpl.
  exact (proj1 (daily_calls_month_by_month settings env templateContents Hsep v Htpl)).
Qed.

Lemma createDailyNote_calls_the_engine_once_a_day_witness :
  let s := Std.settings YEAR NONE in
  let e := Std.env (mkInstant 2024 1 3 9 0) in
  let v := mkVault [("Journal/2024/01/05 - Friday.md", "mine"); ("Journal/2024/02/01 - Thursday.md", "mine")] [] in
  foldersSeparate s e = true
  /\ resultOf (getNoteTemplateContents s e Daily v) = Ok (Some EmptyString)
  /\ List.length (engineCalls (eventsOf (createDailyNote s e v))) = 32%nat
  /\ engineCalls (eventsOf (createDailyNote s e v))
     = flat_map (fun m =>
                   if dailyMonthGuard s e m
                   then map (engineCallOf s e EmptyString)
                          (filter (handedOver e (dailyListing s e m v)) (dailyCandidates s e m))
                   else [])
         (range 0 11).
Proof.
  intros s e v.
  assert (H1 : foldersSeparate s e = true) by (vm_compute; reflexivity).
  assert (H2 : resultOf (getNoteTemplateContents s e Daily v) = Ok (Some EmptyString)) by reflexivity.
  split; [exact H1 |]. split; [exact H2 |]. split; [vm_compute; reflexivity |].
  exact (createDailyNote_calls_the_engine_once_a_day s e v EmptyString H1 H2).
Defined.

(** ** newDate: the text that is parsed *)

Lemma two_digits n :
  1 <= n <= 31 ->
  String.length (JS.padStart2 (JS.toString n)) = 2%nat
  /\ Std.parseNumber (JS.padStart2 (JS.toString n)) = Some n.
Proof.
  intros Hn.
  assert (Hall : forallb (fun k =>
                            (Nat.eqb (String.length (JS.padStart2 (JS.toString k))) 2
                             && match Std.parseNumber (JS.padStart2 (JS.toString k)) with
                                | Some j => j =? k
                                | None => false
                                end)%bool)
                   (range 1 31) = true) by (vm_compute; reflexivity).
  rewrite forallb_forall in Hall. specialize (Hall n (proj2 (In_range 1 31 n) Hn)).
  apply andb_prop in Hall. destruct Hall as [Hlen Hnum].
  apply Nat.eqb_eq in Hlen. split; [exact Hlen |].
  destruct (Std.parseNumber (JS.padStart2 (JS.toString n))) as [j |]; [| discriminate].
  apply Z.eqb_eq in Hnum. congruence.
Qed.

(** X21.  newDate gives the present time when the year is the empty
    text or the month or the day is 0 (line 373).  Otherwise, for a month
    from 1 to 12 and a day from 1 to 31, the text that it parses is the
    year, a hyphen, the month in two digits, a hyphen and the day in two
    digits: the two numbers are padded with a 0 and read back as they
    were. *)
Theorem newDate_parses_a_padded_date env year month day :
  (year = EmptyString \/ month = 0 \/ day = 0 -> newDate env year month day = now env)
  /\ (year <> EmptyString -> 1 <= month <= 12 -> 1 <= day <= 31 ->
      exists mm dd,
        newDate env year month day = parseDate env (year ++ "-" ++ mm ++ "-" ++ dd)
        /\ String.length mm = 2%nat /\ Std.parseNumber mm = Some month
        /\ String.length dd = 2%nat /\ Std.parseNumber dd = Some day).
Proof.
  split.
  - unfold newDate. intros [-> | [-> | ->]]; cbn [JS.truthyString JS.truthyNumber Z.eqb negb orb];
      rewrite ?Bool.orb_true_r; reflexivity.
  - intros Hy Hm Hd. exists (JS.padStart2 (JS.toString month)), (JS.padStart2 (JS.toString day)).
    destruct (two_digits month) as [Hm1 Hm2]; [lia |].
    destruct (two_digits day) as [Hd1 Hd2]; [exact Hd |].
    split; [| auto]. unfold newDate.
    replace (JS.truthyString year) with true by (destruct year; [congruence | reflexivity]).
    replace (JS.truthyNumber month) with true
      by (unfold JS.truthyNumber; symmetry; apply Bool.negb_true_iff, Z.eqb_neq; lia).
    replace (JS.truthyNumber day) with true
      by (unfold JS.truthyNumber; symmetry; apply Bool.negb_true_iff, Z.eqb_neq; lia).
    reflexivity.
Qed.

(** The dates of the loops on the instance: a day that exists, and one
    that does not. *)
Example newDate_on_the_instance :
  let e := Std.env Std.mid_march_2024 in
  newDate e "2024" 2 29 = At (mkInstant 2024 1 29 0 0)
  /\ newDate e "2024" 2 30 = InvalidDate
  /\ newDate e "2024" 2 0 = At Std.mid_march_2024.
Proof. vm_compute. repeat split; reflexivity. Qed.

(** ** The calls of vault.create *)

Lemma monthly_create_calls settings env v templateContents :
  resultOf (getNoteTemplateContents settings env Monthly v) = Ok (Some templateContents) ->
  createAttempts (eventsOf (createMonthlyNote settings env v))
  = flat_map (createCallsOf settings env templateContents (monthlyListing settings env v))
      (monthlyCandidates settings env).
Proof.
  intros Htpl. rewrite (createMonthlyNote_is_a_pass settings env v templateContents Htpl).
  cbn [eventsOf snd]. rewrite createAttempts_app.
  rewrite (template_no_attempts settings env Monthly v). cbn [app].
  exact (proj2 (proj2 (proj2 (wp_elim _ _ _ (pass_calls settings env templateContents _ _ v))))).
Qed.

Lemma createCallsOf_spec settings env templateContents listing c p content :
  In (p, content) (createCallsOf settings env templateContents listing c)
  <-> p = targetPath settings env (notePath c)
      /\ guard c = true
      /\ labelTaken env (label c) listing = false
      /\ labelTaken env (dayPartOf env p) listing = false
      /\ replaceNewFileVars env (templateDate settings env (stamp c) templateContents)
           (fileNameNoExtension env p) = Ok content.
Proof.
  unfold createCallsOf, handedOver. cbv zeta. split.
  - destruct (guard c); [| intros []].
    destruct (labelTaken env (label c) listing); [intros [] |].
    destruct (labelTaken env (dayPartOf env (targetPath settings env (notePath c))) listing) eqn:E;
      [intros [] |].
    cbn [andb negb].
    destruct (replaceNewFileVars env _ _) as [out | msg] eqn:Eng; [| intros []].
    intros [X | []]. injection X as <- <-. rewrite E. auto.
  - intros (-> & -> & -> & -> & ->). left. reflexivity.
Qed.

(** X22.  The calls of [vault.create], accepted or refused.  With its
    template, createMonthlyNote calls [vault.create] once, in the order of
    the months, for each month that passes the guards, whose label is not
    listed, for which the engine returns and such that no listed file
    carries the label read from the name of the new file; the contents are
    what the engine returned.  createDailyNote does the same day by day,
    with the files listed under the folder of each month at the start, when
    the folders of the months are separate.  No other call of
    [vault.create] is made. *)
Theorem vault_create_is_called_once_a_period settings env v templateContents :
  (resultOf (getNoteTemplateContents settings env Monthly v) = Ok (Some templateContents) ->
   createAttempts (eventsOf (createMonthlyNote settings env v))
   = flat_map (createCallsOf settings env templateContents (monthlyListing settings env v))
       (monthlyCandidates settings env))
  /\ (foldersSeparate settings env = true ->
      resultOf (getNoteTemplateContents settings env Daily v) = Ok (Some templateContents) ->
      createAttempts (eventsOf (createDailyNote settings env v))
      = flat_map (fun m =>
                    if dailyMonthGuard settings env m
                    then flat_map (createCallsOf settings env templateContents
                                     (dailyListing settings env m v))
                           (dailyCandidates settings env m)
                    else [])
          (range 0 11))
  /\ (forall listing c p content,
        In (p, content) (createCallsOf settings env templateContents listing c)
        <-> p = targetPath settings env (notePath c)
            /\ guard c = true
            /\ labelTaken env (label c) listing = false
            /\ labelTaken env (dayPartOf env p) listing = false
            /\ replaceNewFileVars env (templateDate settings env (stamp c) templateContents)
                 (fileNameNoExtension env p) = Ok content).
Proof.
  split; [apply monthly_create_calls |]. split.
  - intros Hsep Htpl.
    exact (proj2 (daily_calls_month_by_month settings env templateContents Hsep v Htpl)).
  - intros listing c p content. apply createCallsOf_spec.
Qed.

(** In February 2024 under the policy YEAR, with a note of January made
    by hand: the month of February only is handed to createNewFile, and
    [vault.create] is called for it. *)
Example create_calls_in_february :
  let s := Std.settings NONE YEAR in
  let e := Std.env (mkInstant 2024 1 3 9 0) in
  let v := mkVault [("Journal/2024/Monthly/01 - January.md", "mine")] [] in
  engineCalls (eventsOf (createMonthlyNote s e v)) = [EvExpand EmptyString "02 -" true]
  /\ createAttempts (eventsOf (createMonthlyNote s e v))
     = [("Journal/2024/Monthly/02 -.md", EmptyString)].
Proof. vm_compute. split; reflexivity. Qed.

(** ** C1: no note for a period after now *)



(** On 2024-03-15, with the month format [MM-DD]: the first of March is
    labelled 03-01 and today 03-15, and the run creates the note of 16
    March. *)
Example the_note_of_16_march_on_15_march :
  let s := withMonthFormat "MM-DD" (Std.settings YEAR YEAR) in
  let e := Std.env Std.mid_march_2024 in
  now e = At (mkInstant 2024 2 15 10 30)
  /\ monthLabel s e (dateOfMonth e (yearLabel s e) 2) = "03-01"
  /\ monthLabel s e (now e) = "03-15"
  /\ dayDate s e 2 16 = At (mkInstant 2024 2 16 0 0)
  /\ dailyPath s e 2 16 = "Journal/2024/03-16/16 - Saturday.md"
  /\ hasFile (vaultOf (run s e Std.emptyVault)) "Journal/2024/03-16/16 - Saturday.md" = true
  /\ hasFile (vaultOf (run s e Std.emptyVault)) "Journal/2024/03-31/31 - Sunday.md" = true.
Proof. vm_compute. repeat split; reflexivity. Qed.


(** ** C3: the daily policy NONE *)



(** On 2024-03-15, with the month format [YYYY] and the policy NONE:
    January carries the label of today, and the one note created is that
    of 15 January. *)
Example the_note_of_15_january_on_15_march :
  let s := withMonthFormat "YYYY" (Std.settings NONE NONE) in
  let e := Std.env Std.mid_march_2024 in
  monthLabel s e (dateOfMonth e (yearLabel s e) 0) = monthLabel s e (now e)
  /\ otherMonthsDiffer s e = false
  /\ dayDate s e 0 15 = At (mkInstant 2024 0 15 0 0)
  /\ dailyPath s e 0 15 = "Journal/2024/2024/15 - Monday.md"
  /\ dailyPath s e 2 15 = "Journal/2024/2024/15 - Friday.md"
  /\ files (vaultOf (createDailyNote s e Std.emptyVault))
     = [("Journal/2024/2024/15 - Monday.md", EmptyString)].
Proof. vm_compute. repeat split; reflexivity. Qed.


(** ** C5: the monthly policies *)

(** C5, amended.  For monthly notes it is the policies other than YEAR
    that limit the generation to the current month: under them a note that
    createMonthlyNote adds is the note of a month that is not after the
    current month and carries its label.  Under YEAR the months up to the
    current one pass the guards (the current one once its day of the month
    has come), and the note of each of them whose label is not in the
    listing of the monthly folder is created: the engine is called for it,
    and, when the label read from the note's name is not listed either and
    the engine returns, [vault.create] is called with the path of the
    month's note and the text that the engine returned; when the vault does
    not reject that path, something is at it after createMonthlyNote, a
    file unless a folder has this path. *)
Theorem monthly_backfill_policies settings env v :
  (monthlyNotesBackfill settings <> YEAR ->
   forall p c,
     In (p, c) (files (vaultOf (createMonthlyNote settings env v))) ->
     In (p, c) (files v)
     \/ exists m,
          p = monthlyPath settings env m /\ 0 <= m <= i_month (clock env)
          /\ monthLabel settings env (monthDate settings env m) = monthLabel settings env (now env))
  /\ (monthlyNotesBackfill settings = YEAR ->
      forall m,
        0 <= m <= i_month (clock env) ->
        (m = i_month (clock env) -> monthlyNotesDayOfMonth settings <= i_date (clock env)) ->
        monthlyGuard settings env m = true
        /\ forall templateContents,
             m <= 11 ->
             resultOf (getNoteTemplateContents settings env Monthly v) = Ok (Some templateContents) ->
             labelTaken env (monthLabel settings env (monthDate settings env m))
               (monthlyListing settings env v) = false ->
             let o := createMonthlyNote settings env v in
             let p := monthlyPath settings env m in
             let text := templateDate settings env
                           (monthlyCreateFileDate settings env (monthDate settings env m))
                           templateContents in
             (exists ok, In (EvExpand text (fileNameNoExtension env p) ok) (eventsOf o))
             /\ forall content,
                  labelTaken env (dayPartOf env p) (monthlyListing settings env v) = false ->
                  replaceNewFileVars env text (fileNameNoExtension env p) = Ok content ->
                  In (p, content) (createAttempts (eventsOf o))
                  /\ (storeRejects env (OpCreate p) = false ->
                      exists_at (vaultOf o) p
                      /\ (hasFolder (vaultOf o) p = false -> hasFile (vaultOf o) p = true))).
Proof.
  split.
  - intros Hp p c Hin.
    apply monthly_creation in Hin. destruct Hin as [Hin | (m & Hm & Hg & ->)].
    + left. exact Hin.
    + right. exists m. split; [reflexivity |].
      split; [split; [lia | apply (monthlyGuard_month settings env m Hg)] |].
      apply monthlyGuard_label; assumption.
  - intros Hp m Hm Hday.
    assert (Hg : monthlyGuard settings env m = true).
    { unfold monthlyGuard. rewrite Hp. simpl.
      replace (i_month (clock env) <? m) with false by (symmetry; apply Z.ltb_ge; lia).
      simpl. apply negb_true_iff.
      destruct (Z.eqb_spec m (i_month (clock env))) as [E | E].
      - rewrite Bool.andb_true_r. apply Z.ltb_ge. auto.
      - apply Bool.andb_false_r. }
    split; [exact Hg |].
    intros templateContents Hm11 Htpl Hfree o p text.
    pose proof (wp_elim _ _ _ (createMonthlyNote_spec settings env v)) as H.
    destruct H as (lt & _ & H). rewrite Htpl in H.
    destruct H as (l1 & _ & Hl & _ & _ & _ & _ & Hserved).
    assert (Hc : In (monthlyCandidate settings env m) (monthlyCandidates settings env)).
    { unfold monthlyCandidates. apply in_map. apply In_range. lia. }
    destruct (Hserved _ Hc Hg Hfree) as [[ok Hin] Hat].
    split.
    + exists ok. fold o in Hl. rewrite Hl. apply in_or_app. right. exact Hin.
    + intros content Hfree' Heng. split.
      * unfold o. rewrite (monthly_create_calls settings env v templateContents Htpl).
        apply in_flat_map. exists (monthlyCandidate settings env m). split; [exact Hc |].
        apply createCallsOf_spec. auto.
      * intros Hstore.
        assert (Hthere : exists_at (vaultOf o) p) by exact (Hat Hfree' content Heng Hstore).
        split; [exact Hthere |].
        intros Hnofolder. unfold exists_at, getAbstractFileByPath in Hthere.
        destruct (hasFile (vaultOf o) p); [reflexivity |].
        rewrite Hnofolder in Hthere. congruence.
Qed.

Lemma monthly_backfill_policies_witness :
  let e := Std.env Std.mid_march_2024 in
  let limited := Std.settings NONE MONTH in
  let yearly := Std.settings NONE YEAR in
  let january := "Journal/2024/Monthly/01 -.md" in
  (monthlyNotesBackfill limited <> YEAR
   /\ In ("Journal/2024/Monthly/03 -.md", EmptyString)
         (files (vaultOf (createMonthlyNote limited e Std.emptyVault)))
   /\ (In ("Journal/2024/Monthly/03 -.md", EmptyString) (files Std.emptyVault)
       \/ exists m,
            "Journal/2024/Monthly/03 -.md" = monthlyPath limited e m
            /\ 0 <= m <= i_month (clock e)
            /\ monthLabel limited e (monthDate limited e m) = monthLabel limited e (now e)))
  /\ (monthlyNotesBackfill yearly = YEAR
      /\ monthlyGuard yearly e 0 = true
      /\ (exists ok,
            In (EvExpand EmptyString "01 -" ok) (eventsOf (createMonthlyNote yearly e Std.emptyVault)))
      /\ In (january, EmptyString) (createAttempts (eventsOf (createMonthlyNote yearly e Std.emptyVault)))
      /\ hasFile (vaultOf (createMonthlyNote yearly e Std.emptyVault)) january = true
      /\ getFiles (vaultOf (createMonthlyNote yearly e Std.emptyVault))
         = [january; "Journal/2024/Monthly/02 -.md"; "Journal/2024/Monthly/03 -.md"]).
Proof.
  intros e limited yearly january. split.
  - assert (H1 : monthlyNotesBackfill limited <> YEAR) by discriminate.
    assert (H2 : In ("Journal/2024/Monthly/03 -.md", EmptyString)
                   (files (vaultOf (createMonthlyNote limited e Std.emptyVault))))
      by in_computed_list.
    split; [exact H1 |]. split; [exact H2 |].
    exact (proj1 (monthly_backfill_policies limited e Std.emptyVault) H1 _ _ H2).
  - assert (H1 : monthlyNotesBackfill yearly = YEAR) by reflexivity.
    assert (H2 : 0 <= 0 <= i_month (clock e)) by (vm_compute; split; discriminate).
    assert (H3 : 0 = i_month (clock e) -> monthlyNotesDayOfMonth yearly <= i_date (clock e))
      by (vm_compute; discriminate).
    assert (H4 : 0 <= 11) by lia.
    assert (H5 : resultOf (getNoteTemplateContents yearly e Monthly Std.emptyVault)
                 = Ok (Some EmptyString)) by reflexivity.
    assert (H6 : labelTaken e (monthLabel yearly e (monthDate yearly e 0))
                   (monthlyListing yearly e Std.emptyVault) = false) by reflexivity.
    destruct (proj2 (monthly_backfill_policies yearly e Std.emptyVault) H1 0 H2 H3) as [Hg Hcall].
    destruct (Hcall EmptyString H4 H5 H6) as [Hexpand Hcreate].
    assert (H7 : labelTaken e (dayPartOf e (monthlyPath yearly e 0))
                   (monthlyListing yearly e Std.emptyVault) = false) by reflexivity.
    assert (H8 : replaceNewFileVars e
                   (templateDate yearly e (monthlyCreateFileDate yearly e (monthDate yearly e 0))
                      EmptyString)
                   (fileNameNoExtension e (monthlyPath yearly e 0)) = Ok EmptyString)
      by reflexivity.
    destruct (Hcreate EmptyString H7 H8) as [Hattempt Hfile].
    assert (H9 : storeRejects e (OpCreate (monthlyPath yearly e 0)) = false) by reflexivity.
    assert (H10 : hasFolder (vaultOf (createMonthlyNote yearly e Std.emptyVault))
                    (monthlyPath yearly e 0) = false) by (vm_compute; reflexivity).
    split; [exact H1 |]. split; [exact Hg |]. split; [exact Hexpand |].
    split; [exact Hattempt |]. split; [exact (proj2 (Hfile H9) H10) |].
    vm_compute. reflexivity.
Defined.

(** ** C8: the date token, as the claim is written *)


(** ** C10: an empty template path *)

Lemma append_empty s : (s ++ EmptyString)%string = s.
Proof. induction s as [| a s IH]; simpl; [reflexivity | rewrite IH; reflexivity]. Qed.

(** With no template path, createMonthlyNote is its loop over the months,
    run with the empty template against the files listed under the monthly
    folder. *)
Lemma createMonthlyNote_without_template settings env v :
  monthlyNotesTemplateFile settings = EmptyString ->
  createMonthlyNote settings env v
  = forEach (range 0 11)
      (monthlyMonth settings env EmptyString (yearLabel settings env) (monthlyListing settings env v)) v.
Proof.
  intros Hpath.
  assert (Htpl : getNoteTemplateContents settings env Monthly v = (Ok (Some EmptyString), v, [])).
  { unfold getNoteTemplateContents, templatePathOf. rewrite Hpath. reflexivity. }
  rewrite (createMonthlyNote_is_a_pass settings env v EmptyString)
    by (rewrite Htpl; reflexivity).
  cbv zeta. rewrite Htpl. cbn [eventsOf snd app]. rewrite <- monthlyLoop_pass.
  destruct (forEach (range 0 11) _ v) as [[r v'] l]. reflexivity.
Qed.

(** C10, amended.  When the template path of a cadence is empty,
    getNoteTemplateContents returns the empty text (not null) and emits
    nothing, so that generation proceeds: createDailyNote and
    createMonthlyNote are their loops over the months run with the empty
    template, they return without error, and the engine and [vault.create]
    are called for the periods that pass the guards and whose label is not
    listed, as with any template.  What [vault.create] receives is what the
    engine returned for the empty template after the step of the date
    token: that text is the empty template itself when date templating is
    off or the token is not empty, and it is the formatted date (with its
    [$] patterns expanded) when templating is on and the token is empty.
    The result is null only when the path is not empty and no file is at
    it. *)
Theorem empty_template_path_is_an_empty_template settings env v :
  (forall type,
     templatePathOf settings type = EmptyString ->
     getNoteTemplateContents settings env type v = (Ok (Some EmptyString), v, []))
  /\ (forall type,
        resultOf (getNoteTemplateContents settings env type v) = Ok None ->
        templatePathOf settings type <> EmptyString
        /\ forall p, getAbstractFileByPath v (templatePathOf settings type ++ ".md") <> Some (TFile p))
  /\ (dailyNotesTemplateFile settings = EmptyString ->
      let o := createDailyNote settings env v in
      o = forEach (range 0 11) (dailyMonth settings env EmptyString (yearLabel settings env)) v
      /\ resultOf o = Ok tt
      /\ (forall p content ok,
            In (EvCreate p content ok) (eventsOf o) ->
            exists m day,
              p = dailyPath settings env m day
              /\ replaceNewFileVars env
                   (templateDate settings env
                      (dailyCreateFileDate settings env (dayDate settings env m day)) EmptyString)
                   (fileNameNoExtension env p) = Ok content)
      /\ (foldersSeparate settings env = true ->
          engineCalls (eventsOf o)
          = flat_map (monthEngineCalls settings env EmptyString v) (range 0 11)
          /\ createAttempts (eventsOf o)
             = flat_map (monthCreateCalls settings env EmptyString v) (range 0 11)))
  /\ (monthlyNotesTemplateFile settings = EmptyString ->
      let o := createMonthlyNote settings env v in
      o = forEach (range 0 11)
            (monthlyMonth settings env EmptyString (yearLabel settings env)
               (monthlyListing settings env v)) v
      /\ resultOf o = Ok tt
      /\ (forall p content ok,
            In (EvCreate p content ok) (eventsOf o) ->
            exists m,
              p = monthlyPath settings env m
              /\ replaceNewFileVars env
                   (templateDate settings env
                      (monthlyCreateFileDate settings env (monthDate settings env m)) EmptyString)
                   (fileNameNoExtension env p) = Ok content)
      /\ engineCalls (eventsOf o)
         = map (engineCallOf settings env EmptyString)
             (filter (handedOver env (monthlyListing settings env v)) (monthlyCandidates settings env))
      /\ createAttempts (eventsOf o)
         = flat_map (createCallsOf settings env EmptyString (monthlyListing settings env v))
             (monthlyCandidates settings env))
  /\ (forall d,
        templateDateToken settings <> EmptyString \/ shouldTemplateDate settings = false ->
        templateDate settings env d EmptyString = EmptyString)
  /\ (forall d,
        shouldTemplateDate settings = true -> templateDateToken settings = EmptyString ->
        let dateText := format env d (templateDateFormat settings) in
        templateDate settings env d EmptyString
        = JS.getSubstitution EmptyString EmptyString EmptyString dateText
        /\ (JS.noDollar dateText = true -> templateDate settings env d EmptyString = dateText)).
Proof.
  assert (Hempty : forall type, templatePathOf settings type = EmptyString ->
            getNoteTemplateContents settings env type v = (Ok (Some EmptyString), v, [])).
  { intros type Hpath. unfold getNoteTemplateContents. rewrite Hpath. reflexivity. }
  split; [exact Hempty |]. split; [| split; [| split; [| split]]].
  - intros type Hnull.
    pose proof (wp_elim _ _ _ (getNoteTemplateContents_spec settings env type v)) as [_ H].
    unfold template_outcome in H. rewrite Hnull in H.
    destruct H as (Hne & [(Hnone & _) | (d & Hdir & _)]); (split; [exact Hne |]); intros p; congruence.
  - intros Hpath o.
    split; [apply createDailyNote_without_template; exact Hpath |].
    pose proof (wp_elim _ _ _ (createDailyNote_spec settings env v)) as H.
    destruct H as (lt & _ & H).
    assert (Htpl : resultOf (getNoteTemplateContents settings env Daily v) = Ok (Some EmptyString))
      by (rewrite (Hempty Daily Hpath); reflexivity).
    rewrite Htpl in H. destruct H as (l1 & Hr & _).
    split; [exact Hr |]. split.
    + intros p content ok Hin.
      destruct (daily_create_call settings env v p content ok Hin)
        as (tpl & m & day & Htpl' & Hp & Heng).
      rewrite Htpl in Htpl'. injection Htpl' as <-. exists m, day. auto.
    + intros Hsep. exact (daily_calls_month_by_month settings env EmptyString Hsep v Htpl).
  - intros Hpath o.
    split; [apply createMonthlyNote_without_template; exact Hpath |].
    pose proof (wp_elim _ _ _ (createMonthlyNote_spec settings env v)) as H.
    destruct H as (lt & _ & H).
    assert (Htpl : resultOf (getNoteTemplateContents settings env Monthly v) = Ok (Some EmptyString))
      by (rewrite (Hempty Monthly Hpath); reflexivity).
    rewrite Htpl in H. destruct H as (l1 & Hr & _).
    split; [exact Hr |]. split; [| split].
    + intros p content ok Hin.
      destruct (monthly_call settings env v _ Hin) as (tpl & Htpl' & Hj).
      rewrite Htpl in Htpl'. injection Htpl' as <-.
      destruct Hj as (cand & Hc & _ & _ & -> & _ & Heng & _).
      unfold monthlyCandidates in Hc. apply in_map_iff in Hc. destruct Hc as (m & <- & _).
      exists m. auto.
    + exact (createMonthlyNote_engine_calls settings env v EmptyString Htpl).
    + exact (monthly_create_calls settings env v EmptyString Htpl).
  - intros d [Htok | Hoff]; unfold templateDate.
    + rewrite (includes_empty _ Htok), Bool.andb_false_r. reflexivity.
    + rewrite Hoff. reflexivity.
  - intros d Hon Htok dateText.
    assert (Htext : templateDate settings env d EmptyString
                    = JS.getSubstitution EmptyString EmptyString EmptyString dateText).
    { unfold templateDate. rewrite Hon, Htok. unfold JS.includes. rewrite indexOf_empty.
      cbn [andb]. rewrite replace_empty_pattern. fold dateText. apply append_empty. }
    split; [exact Htext |].
    intros Hnd. rewrite Htext. apply getSubstitution_noDollar. exact Hnd.
Qed.

Lemma empty_template_path_is_an_empty_template_witness :
  let s := Std.settings YEAR YEAR in
  let e := Std.env Std.mid_march_2024 in
  let daily := createDailyNote s e Std.emptyVault in
  let monthly := createMonthlyNote s e Std.emptyVault in
  dailyNotesTemplateFile s = EmptyString
  /\ monthlyNotesTemplateFile s = EmptyString
  /\ getNoteTemplateContents s e Daily Std.emptyVault = (Ok (Some EmptyString), Std.emptyVault, [])
  /\ resultOf daily = Ok tt
  /\ List.length (files (vaultOf daily)) = 75%nat
  /\ resultOf monthly = Ok tt
  /\ createAttempts (eventsOf monthly)
     = flat_map (createCallsOf s e EmptyString (monthlyListing s e Std.emptyVault))
         (monthlyCandidates s e)
  /\ files (vaultOf monthly)
     = [("Journal/2024/Monthly/01 -.md", EmptyString);
        ("Journal/2024/Monthly/02 -.md", EmptyString);
        ("Journal/2024/Monthly/03 -.md", EmptyString)].
Proof.
  intros s e daily monthly.
  assert (Hd : dailyNotesTemplateFile s = EmptyString) by reflexivity.
  assert (Hm : monthlyNotesTemplateFile s = EmptyString) by reflexivity.
  destruct (empty_template_path_is_an_empty_template s e Std.emptyVault)
    as (H1 & _ & H3 & H4 & _).
  split; [exact Hd |]. split; [exact Hm |]. split; [exact (H1 Daily Hd) |].
  split; [exact (proj1 (proj2 (H3 Hd))) |].
  split; [vm_compute; reflexivity |].
  split; [exact (proj1 (proj2 (H4 Hm))) |].
  split; [exact (proj2 (proj2 (proj2 (proj2 (H4 Hm))))) |].
  vm_compute. reflexivity.
Defined.

(** The reading of C10 as it is written fails: the content of a note made
    with no template is not always the expansion of the empty template.
    With date templating on and an empty date token the empty template
    contains the token, and the note of 2024-03-15 holds the date. *)
Lemma an_empty_token_dates_the_empty_template :
  ~ Literal.empty_template_gives_the_expansion_of_nothing.
Proof.
  intros H.
  pose (s := withTemplateDateToken EmptyString (Std.settings NONE NONE)).
  pose (e := Std.env Std.mid_march_2024).
  pose (v := mkVault [] ["Journal/2024/03"]).
  assert (Hin : In (EvCreate "Journal/2024/03/15 - Friday.md" "2024-03-15" true)
                  (eventsOf (createDailyNote s e v))) by in_computed_list.
  specialize (H s e v _ _ _ eq_refl Hin). vm_compute in H. discriminate H.
Qed.
